(** * UIAnalyzerMCP: a shallow embedding of the heuristic analysis pipeline

  The development follows the Python sources:
  - [models.py]              the records exchanged between the stages,
  - [analyzer.py]            element classifier, query interpreter, issue
                             detector and fix synthesizer,
  - [framework_detector.py]  technology-stack fingerprinter.

  Conventions.
  - A Python or JavaScript string is a [string]; [lower] maps [A]..[Z] to
    [a]..[z] and leaves every other character alone, which is what
    [str.lower] does on ASCII text.
  - A dictionary the code iterates over, or whose order shows in the
    output, is an association list in declaration order.
  - Python [int] counters are [nat].  Lengths read from the DOM are [Z];
    the code only compares them.
  - A constructor call that validates a [Literal] returns an [option],
    [None] standing for the raised validation error.  An in-page script
    that can throw does so too: [None] stands for the thrown error, which
    makes the Python call raise.
  - The in-page scripts that hold detection rules are embedded as
    functions over a record of the DOM facts they read; the scripts that
    only collect raw facts are represented by the record they return.
  - [async] functions are embedded as the functions of their arguments
    that they compute; the [page] handle is replaced by what is read from
    it. *)

From Stdlib Require Import String Ascii List Bool Arith ZArith Lia.
From Stdlib Require Import Numbers.DecimalString.
Import ListNotations.

Open Scope string_scope.
Open Scope list_scope.

(** String concatenation, kept apart from list append. *)
Notation "a ^^ b" := (String.append a b) (at level 60, right associativity).

(* ===================================================================== *)
(** ** Python string and dictionary primitives *)
(* ===================================================================== *)

Module Py.

(** [c.lower()] on one character; only [A]..[Z] have a lower-case form in
    the ASCII range. *)
Definition lower_ascii (c : ascii) : ascii :=
  let n := nat_of_ascii c in
  if Nat.leb 65 n && Nat.leb n 90 then ascii_of_nat (n + 32) else c.

(** [s.lower()] *)
Fixpoint lower (s : string) : string :=
  match s with
  | EmptyString => EmptyString
  | String c s' => String (lower_ascii c) (lower s')
  end.

(** [s.startswith(p)] *)
Definition startswith (s p : string) : bool := String.prefix p s.

(** [needle in hay] for two strings: substring test. *)
Fixpoint str_in (needle hay : string) : bool :=
  String.prefix needle hay ||
  match hay with
  | EmptyString => false
  | String _ hay' => str_in needle hay'
  end.

(** [x in xs] for a list of strings. *)
Definition list_in (x : string) (xs : list string) : bool :=
  existsb (String.eqb x) xs.

(** truthiness of a string *)
Definition truthy (s : string) : bool :=
  match s with EmptyString => false | _ => true end.

(** truthiness of an optional string ([None] and [''] are falsy) *)
Definition truthy_opt (o : option string) : bool :=
  match o with Some s => truthy s | None => false end.

(** the string held by an optional string known to be truthy *)
Definition opt_str (o : option string) : string :=
  match o with Some s => s | None => "" end.

(** truthiness of a list *)
Definition nonempty {A} (l : list A) : bool :=
  match l with [] => false | _ => true end.

(** [d.get(k)] on a dictionary kept in declaration order. *)
Fixpoint dict_get {V} (d : list (string * V)) (k : string) : option V :=
  match d with
  | [] => None
  | (k', v) :: d' => if String.eqb k' k then Some v else dict_get d' k
  end.

(** [sep.join(xs)] *)
Definition join (sep : string) (xs : list string) : string :=
  String.concat sep xs.

(** [str(n)] for a non-negative [int] *)
Definition str_of_nat (n : nat) : string :=
  NilEmpty.string_of_uint (Nat.to_uint n).

(** [str(z)] / JavaScript [toString()] for an integer *)
Definition str_of_Z (z : Z) : string :=
  NilEmpty.string_of_int (Z.to_int z).

(** the one-character string holding a line feed *)
Definition nl : string := String (ascii_of_nat 10) EmptyString.

(** [xs[:n]] *)
Definition take {A} (n : nat) (xs : list A) : list A := firstn n xs.

End Py.

(* ===================================================================== *)
(** ** models.py *)
(* ===================================================================== *)

Module Models.

(** The [Literal] of [UIElement.element_type]. *)
Definition ELEMENT_TYPES : list string :=
  [ "button"; "link"; "heading"; "navbar"; "header"; "footer"; "hero";
    "form"; "input"; "image"; "section"; "card"; "modal"; "dropdown";
    "menu"; "sidebar"; "container"; "other" ].

(** [UIIssue.severity] *)
Inductive Severity := SevError | SevWarning | SevInfo.

(** [UIIssue.issue_type] *)
Inductive IssueKind :=
| layout_broken | overflow_hidden | z_index_conflict | spacing_inconsistent
| alignment_off | responsive_issue | accessibility_missing | contrast_low
| element_overlap | invisible_element | empty_container | orphaned_element
| style_inconsistency | missing_hover_state | broken_flexbox | broken_grid
| font_issue | color_issue | size_issue | position_issue | other_issue.

Definition ALL_ISSUE_KINDS : list IssueKind :=
  [ layout_broken; overflow_hidden; z_index_conflict; spacing_inconsistent;
    alignment_off; responsive_issue; accessibility_missing; contrast_low;
    element_overlap; invisible_element; empty_container; orphaned_element;
    style_inconsistency; missing_hover_state; broken_flexbox; broken_grid;
    font_issue; color_issue; size_issue; position_issue; other_issue ].

(** the string of each member of the [Literal] *)
Definition issue_kind_name (k : IssueKind) : string :=
  match k with
  | layout_broken => "layout_broken"
  | overflow_hidden => "overflow_hidden"
  | z_index_conflict => "z_index_conflict"
  | spacing_inconsistent => "spacing_inconsistent"
  | alignment_off => "alignment_off"
  | responsive_issue => "responsive_issue"
  | accessibility_missing => "accessibility_missing"
  | contrast_low => "contrast_low"
  | element_overlap => "element_overlap"
  | invisible_element => "invisible_element"
  | empty_container => "empty_container"
  | orphaned_element => "orphaned_element"
  | style_inconsistency => "style_inconsistency"
  | missing_hover_state => "missing_hover_state"
  | broken_flexbox => "broken_flexbox"
  | broken_grid => "broken_grid"
  | font_issue => "font_issue"
  | color_issue => "color_issue"
  | size_issue => "size_issue"
  | position_issue => "position_issue"
  | other_issue => "other"
  end.

(** validation of a raw string against the [Literal]: the first member
    whose name is the string, if any *)
Definition issue_kind_of_string (s : string) : option IssueKind :=
  find (fun k => String.eqb (issue_kind_name k) s) ALL_ISSUE_KINDS.

(** [FixInstruction.action] *)
Inductive Action :=
| modify_css | add_css | remove_css | modify_html | add_html | remove_html
| wrap_element | unwrap_element | move_element | add_class | remove_class
| restructure.

(** [UIElement]; geometry and computed styles are carried by the caller
    and are read by none of the functions embedded below. *)
Record UIElement := mkUIElement {
  el_element_type : string;
  el_tag_name : string;
  el_selector : string;
  el_text_content : option string;
  el_aria_role : option string;
  el_aria_label : option string;
  el_classes : list string;
  el_element_id : option string;
  el_children_count : nat;
  el_is_visible : bool
}.

Record UIIssue := mkUIIssue {
  severity : Severity;
  element_selector : string;
  element_type : string;
  issue_type : IssueKind;
  description : string;
  suggested_fix : string;
  css_property : option string;
  current_value : option string;
  recommended_value : option string;
  code_snippet : option string
}.

Record FixInstruction := mkFixInstruction {
  priority : nat;
  target_description : string;
  selector : string;
  file_hint : option string;
  action : Action;
  property_changes : list (string * string);
  before_code : option string;
  after_code : option string;
  explanation : string
}.

Record FixInstructionsResult := mkFixInstructionsResult {
  url : string;
  user_query : string;
  interpreted_problem : string;
  affected_elements : list UIElement;
  fix_instructions : list FixInstruction;
  summary : string;
  css_changes : string;
  html_changes : string;
  additional_recommendations : list string
}.

End Models.

(* ===================================================================== *)
(** ** analyzer.py: element classifier *)
(* ===================================================================== *)

Module Classifier.
Import Py.

(** One entry of the list the in-page extractor returns: [tag_name] is
    always a string, [aria_role] and [element_id] are a string or [null],
    [classes] is an array of strings. *)
Record ElementData := mkElementData {
  tag_name : string;
  aria_role : option string;
  classes : list string;
  element_id : option string
}.

Definition tag_type_map : list (string * string) :=
  [ ("nav", "navbar"); ("header", "header"); ("footer", "footer");
    ("button", "button"); ("form", "form"); ("input", "input");
    ("textarea", "input"); ("select", "input"); ("img", "image");
    ("picture", "image"); ("svg", "image"); ("aside", "sidebar");
    ("section", "section"); ("main", "container");
    ("h1", "heading"); ("h2", "heading"); ("h3", "heading");
    ("h4", "heading"); ("h5", "heading"); ("h6", "heading");
    ("a", "link") ].

Definition role_type_map : list (string * string) :=
  [ ("navigation", "navbar"); ("banner", "header");
    ("contentinfo", "footer"); ("button", "button"); ("link", "link");
    ("form", "form"); ("textbox", "input"); ("dialog", "modal");
    ("menu", "dropdown"); ("heading", "heading"); ("img", "image");
    ("complementary", "sidebar"); ("main", "container");
    ("region", "section") ].

Definition class_keywords : list (string * string) :=
  [ ("hero", "hero"); ("navbar", "navbar"); ("nav", "navbar");
    ("navigation", "navbar"); ("header", "header"); ("footer", "footer");
    ("card", "card"); ("btn", "button"); ("button", "button");
    ("sidebar", "sidebar"); ("modal", "modal"); ("dialog", "modal");
    ("dropdown", "dropdown"); ("menu", "dropdown"); ("form", "form");
    ("container", "container"); ("wrapper", "container") ].

(** [for keyword, element_type in table: if keyword in s: return element_type] *)
Fixpoint keyword_scan (table : list (string * string)) (s : string)
  : option string :=
  match table with
  | [] => None
  | (keyword, element_type) :: table' =>
      if str_in keyword s then Some element_type else keyword_scan table' s
  end.

(** [for cls in classes: for keyword, element_type in class_keywords: ...] *)
Fixpoint class_scan (cls : list string) : option string :=
  match cls with
  | [] => None
  | c :: cls' =>
      match keyword_scan class_keywords c with
      | Some t => Some t
      | None => class_scan cls'
      end
  end.

Definition norm_tag (e : ElementData) : string := lower (tag_name e).

Definition norm_role (e : ElementData) : string :=
  match aria_role e with
  | Some r => if truthy r then lower r else ""
  | None => ""
  end.

Definition norm_classes (e : ElementData) : list string :=
  map lower (classes e).

Definition norm_id (e : ElementData) : string :=
  lower (match element_id e with
         | Some i => if truthy i then i else ""
         | None => ""
         end).

Definition detect_element_type (element_data : ElementData) : string :=
  let tag := norm_tag element_data in
  let role := norm_role element_data in
  let classes := norm_classes element_data in
  let element_id := norm_id element_data in
  match dict_get tag_type_map tag with
  | Some t => t
  | None =>
  match dict_get role_type_map role with
  | Some t => t
  | None =>
  match class_scan classes with
  | Some t => t
  | None =>
  match keyword_scan class_keywords element_id with
  | Some t => t
  | None => "other"
  end end end end.

(** Reading of the four stages, used to state what the classifier does. *)

(** [k] is a key of the dictionary [d] *)
Definition is_key {V} (d : list (string * V)) (k : string) : Prop :=
  exists v, In (k, v) d.

(** no keyword of [class_keywords] occurs in [s] *)
Definition no_keyword (s : string) : Prop :=
  Forall (fun entry => str_in (fst entry) s = false) class_keywords.

(** [t] is the type of the first keyword, in the declaration order of
    [class_keywords], that occurs in [s] *)
Definition first_keyword (s t : string) : Prop :=
  exists earlier k later,
    class_keywords = earlier ++ (k, t) :: later
    /\ str_in k s = true
    /\ Forall (fun entry => str_in (fst entry) s = false) earlier.

(** [t] is the type given by the first class, in list order, in which a
    keyword occurs *)
Definition first_class (cls : list string) (t : string) : Prop :=
  exists before c after,
    cls = before ++ c :: after
    /\ first_keyword c t
    /\ Forall no_keyword before.

(** The types a classification can be: every literal of
    [UIElement.element_type] but ["menu"]. *)
Definition classifier_range : list string :=
  filter (fun t => negb (String.eqb t "menu")) Models.ELEMENT_TYPES.

(** A [nav] element carrying the class [card]. *)
Definition nav_card : ElementData :=
  {| tag_name := "nav"; aria_role := None; classes := ["card"];
     element_id := None |}.

(** A bare [div]: no role, no class, no id. *)
Definition bare_div : ElementData :=
  {| tag_name := "div"; aria_role := None; classes := [];
     element_id := None |}.

End Classifier.

(* ===================================================================== *)
(** ** analyzer.py: query interpreter *)
(* ===================================================================== *)

Module Query.
Import Py.

Definition QUERY_KEYWORDS : list (string * list string) :=
  [ ("navbar", ["navbar"; "navigation"; "nav"; "menu"; "top bar"; "topbar";
                "main menu"]);
    ("header", ["header"; "top"; "banner"; "head"; "title area"]);
    ("footer", ["footer"; "bottom"; "foot"; "copyright"]);
    ("hero", ["hero"; "banner"; "splash"; "intro"; "landing"; "main banner";
              "first section"; "top section"]);
    ("button", ["button"; "btn"; "cta"; "call to action"; "click"; "submit"]);
    ("form", ["form"; "input"; "field"; "textbox"; "login"; "signup";
              "register"; "contact form"]);
    ("card", ["card"; "tile"; "box"; "panel"; "item"]);
    ("sidebar", ["sidebar"; "side bar"; "side menu"; "aside"; "left menu";
                 "right menu"]);
    ("modal", ["modal"; "popup"; "dialog"; "overlay"; "lightbox"]);
    ("heading", ["heading"; "title"; "h1"; "h2"; "headline"]);
    ("image", ["image"; "img"; "picture"; "photo"; "icon"; "logo"]);
    ("section", ["section"; "area"; "part"; "block"; "div"]);
    ("layout", ["layout"; "grid"; "flex"; "spacing"; "alignment"; "margin";
                "padding"]);
    ("responsive", ["mobile"; "responsive"; "breakpoint"; "screen size";
                    "viewport"; "tablet"; "phone"; "desktop"]) ].

Definition issue_keywords : list (string * list string) :=
  [ ("broken", ["broken"; "messed up"; "messed"; "wrong"; "bad"; "ugly";
                "terrible"]);
    ("alignment", ["aligned"; "alignment"; "align"; "center"; "centered";
                   "left"; "right"; "off"]);
    ("spacing", ["spacing"; "space"; "gap"; "margin"; "padding"; "too close";
                 "too far"; "crowded"]);
    ("overlap", ["overlap"; "overlapping"; "on top of"; "behind"; "in front"]);
    ("size", ["too big"; "too small"; "size"; "width"; "height"; "narrow";
              "wide"]);
    ("visibility", ["hidden"; "invisible"; "can't see"; "not showing";
                    "missing"; "disappeared"]);
    ("color", ["color"; "colour"; "dark"; "light"; "contrast"; "faded";
               "bright"]);
    ("responsive", ["mobile"; "phone"; "tablet"; "responsive"; "screen size";
                    "shrink"]);
    ("layout", ["layout"; "grid"; "flex"; "row"; "column"; "side by side";
                "stacked"]);
    ("text", ["text"; "font"; "readable"; "unreadable"; "too small";
              "too big"]);
    ("position", ["position"; "moved"; "shifted"; "wrong place"; "top";
                  "bottom"]) ].

(** [if name not in acc: acc.append(name)] *)
Definition append_if_absent (name : string) (acc : list string)
  : list string :=
  if list_in name acc then acc else acc ++ [name].

(** the inner loop [for keyword in keywords: if keyword in query_lower: ...] *)
Definition scan_keywords (query_lower : string) (name : string)
  (keywords : list string) (acc : list string) : list string :=
  fold_left
    (fun acc keyword =>
       if str_in keyword query_lower then append_if_absent name acc else acc)
    keywords acc.

(** the outer loop [for name, keywords in table.items(): ...], starting
    from the empty list *)
Definition scan_table (table : list (string * list string))
  (query_lower : string) : list string :=
  fold_left
    (fun acc entry => scan_keywords query_lower (fst entry) (snd entry) acc)
    table [].

(** some keyword of the table entry occurs in the query *)
Definition entry_matches (query_lower : string)
  (entry : string * list string) : bool :=
  existsb (fun keyword => str_in keyword query_lower) (snd entry).

Record QueryInfo := mkQueryInfo {
  element_types : list string;
  issue_hints : list string;
  interpreted_meaning : string
}.

Definition interpret_user_query (query : string) : QueryInfo :=
  let query_lower := lower query in
  let element_types := scan_table QUERY_KEYWORDS query_lower in
  let issue_hints := scan_table issue_keywords query_lower in
  let elements_str :=
    if nonempty element_types then join ", " element_types
    else "general UI" in
  let issues_str :=
    if nonempty issue_hints then join ", " issue_hints
    else "unknown issues" in
  {| element_types := element_types;
     issue_hints := issue_hints;
     interpreted_meaning :=
       "User is reporting " ^^ issues_str ^^ " with the " ^^ elements_str |}.

End Query.

(* ===================================================================== *)
(** ** analyzer.py: issue detector *)
(* ===================================================================== *)

Module Issues.
Import Py Models.

(** The value of [el.className].  It is a string on an HTML element.  On
    an SVG element it is an [SVGAnimatedString]: an object, so truthy
    whatever the [class] attribute holds, and without a [split] method. *)
Inductive ClassName :=
| ClassString (className : string)
| ClassObject.

(** What the in-page script reads from one element.  [el.id] and [el.alt]
    are strings.  Lengths are in pixels.  [style_zIndex] is
    [parseInt(style.zIndex)], with [None] for [NaN] (the computed value
    [auto]). *)
Record DomElement := mkDomElement {
  dom_tag : string;             (* el.tagName.toLowerCase() *)
  dom_id : string;              (* el.id *)
  dom_className : ClassName;    (* el.className *)
  rect_right : Z;
  rect_height : Z;
  style_position : string;
  style_overflowX : string;
  scrollWidth : Z;
  clientWidth : Z;
  style_zIndex : option Z;
  children_length : nat;
  textContent : string;
  dom_alt : string;             (* el.alt, the empty string when unset *)
  dom_aria_label : option string (* el.getAttribute('aria-label') *)
}.

(** The page the script runs in: the viewport width and the elements in
    document order. *)
Record Page := mkPage {
  innerWidth : Z;
  dom : list DomElement
}.

(** One object of the array the script returns. *)
Record IssueData := mkIssueData {
  id_selector : string;
  id_type : string;
  id_description : string;
  id_element_type : string;
  id_current_value : option string
}.

(** A step of the script completes with a value or throws a [TypeError]
    ([None]).  The script catches nothing, so it ends there, and
    [page.evaluate] raises in Python, where nothing catches it either. *)
Definition js_bind {A B} (step : option A) (next : A -> option B)
  : option B :=
  match step with
  | Some a => next a
  | None => None
  end.

Notation "'let*' x ':=' step 'in' next" :=
  (js_bind step (fun x => next))
  (at level 10, x name, step at level 100, next at level 200).

(** [s.split(' ')[0]] *)
Fixpoint first_word (s : string) : string :=
  match s with
  | EmptyString => EmptyString
  | String c s' =>
      if Ascii.eqb c " "%char then EmptyString else String c (first_word s')
  end.

(** the white space [trim] removes from ASCII text *)
Definition is_space (c : ascii) : bool :=
  let n := nat_of_ascii c in
  Nat.eqb n 32 || (Nat.leb 9 n && Nat.leb n 13).

(** [s.trim() === ''] *)
Fixpoint trim_is_empty (s : string) : bool :=
  match s with
  | EmptyString => true
  | String c s' => is_space c && trim_is_empty s'
  end.

(** [el.id ? '#' + el.id : el.className ? '.' + el.className.split(' ')[0] : fallback].
    When [el.id] is empty and [el.className] is an object, the call of
    [el.className.split] throws: the object has no such method. *)
Definition js_selector (el : DomElement) (fallback : string)
  : option string :=
  if truthy (dom_id el) then Some ("#" ^^ dom_id el)
  else match dom_className el with
       | ClassString className =>
           if truthy className then Some ("." ^^ first_word className)
           else Some fallback
       | ClassObject => None
       end.

(** the body of the first [querySelectorAll('*').forEach]; [issues] is the
    array the script pushes to *)
Definition check_overflow_and_zindex (w : Z) (el : DomElement)
  (issues : list IssueData) : option (list IssueData) :=
  let* issues :=
    if Z.ltb w (rect_right el)
       && negb (String.eqb (style_position el) "fixed")
    then
      if Z.ltb (clientWidth el) (scrollWidth el)
         && String.eqb (style_overflowX el) "visible"
      then
        let* selector := js_selector el (dom_tag el) in
        Some (issues
              ++ [ {| id_selector := selector;
                      id_type := "overflow_hidden";
                      id_description :=
                        "Element extends beyond viewport causing horizontal scroll";
                      id_element_type := dom_tag el;
                      id_current_value := None |} ])
      else Some issues
    else Some issues in
  match style_zIndex el with
  | Some zIndex =>
      if Z.ltb 9999 zIndex
      then
        let* selector := js_selector el (dom_tag el) in
        Some (issues
              ++ [ {| id_selector := selector;
                      id_type := "z_index_conflict";
                      id_description :=
                        "Element has extremely high z-index ("
                        ^^ str_of_Z zIndex
                        ^^ ") which may cause stacking issues";
                      id_element_type := dom_tag el;
                      id_current_value := Some (str_of_Z zIndex) |} ])
      else Some issues
  | None => Some issues
  end.

(** the body of [querySelectorAll('div, section, main, article').forEach] *)
Definition check_empty_container (el : DomElement)
  (issues : list IssueData) : option (list IssueData) :=
  if Nat.eqb (children_length el) 0 && trim_is_empty (textContent el)
  then
    if Z.ltb 50 (rect_height el)
    then
      let* selector := js_selector el (dom_tag el) in
      Some (issues
            ++ [ {| id_selector := selector;
                    id_type := "empty_container";
                    id_description := "Empty container taking up space";
                    id_element_type := "container";
                    id_current_value := None |} ])
    else Some issues
  else Some issues.

(** the body of [querySelectorAll('img').forEach] *)
Definition check_image (el : DomElement) (issues : list IssueData)
  : option (list IssueData) :=
  if negb (truthy (dom_alt el)) && negb (truthy_opt (dom_aria_label el))
  then
    let* selector := js_selector el "img" in
    Some (issues
          ++ [ {| id_selector := selector;
                  id_type := "accessibility_missing";
                  id_description := "Image missing alt text";
                  id_element_type := "image";
                  id_current_value := None |} ])
  else Some issues.

(** the body of [querySelectorAll('button, a').forEach] *)
Definition check_interactive (el : DomElement) (issues : list IssueData)
  : option (list IssueData) :=
  if trim_is_empty (textContent el) && negb (truthy_opt (dom_aria_label el))
  then
    let* selector := js_selector el (dom_tag el) in
    Some (issues
          ++ [ {| id_selector := selector;
                  id_type := "accessibility_missing";
                  id_description :=
                    "Interactive element missing accessible name";
                  id_element_type :=
                    if String.eqb (dom_tag el) "button" then "button"
                    else "link";
                  id_current_value := None |} ])
  else Some issues.

(** [document.querySelectorAll] for a list of tag selectors *)
Definition query_tags (tags : list string) (p : Page) : list DomElement :=
  filter (fun el => list_in (dom_tag el) tags) (dom p).

(** [els.forEach(el => ...)]: the body runs on each element in turn; an
    error thrown by the body ends the loop and the script *)
Fixpoint for_each
  (body : DomElement -> list IssueData -> option (list IssueData))
  (els : list DomElement) (issues : list IssueData)
  : option (list IssueData) :=
  match els with
  | [] => Some issues
  | el :: rest =>
      let* issues := body el issues in
      for_each body rest issues
  end.

(** the whole in-page script, ending in [issues.slice(0, 20)] *)
Definition page_script (p : Page) : option (list IssueData) :=
  let* issues :=
    for_each (check_overflow_and_zindex (innerWidth p)) (dom p) [] in
  let* issues :=
    for_each check_empty_container
      (query_tags ["div"; "section"; "main"; "article"] p) issues in
  let* issues := for_each check_image (query_tags ["img"] p) issues in
  let* issues :=
    for_each check_interactive (query_tags ["button"; "a"] p) issues in
  Some (firstn 20 issues).

Definition suggestions (selector : string) : list (string * string) :=
  [ ("overflow_hidden",
     "Add 'overflow-x: hidden' to the parent container or 'max-width: 100%' to "
       ^^ selector);
    ("z_index_conflict",
     "Reduce z-index on " ^^ selector
       ^^ " to a reasonable value (10-100 for most UI elements)");
    ("empty_container",
     "Remove the empty " ^^ selector ^^ " element or add content to it");
    ("accessibility_missing",
     "Add appropriate alt text or aria-label to " ^^ selector);
    ("element_overlap",
     "Adjust position or z-index of " ^^ selector ^^ " to prevent overlap");
    ("spacing_inconsistent",
     "Standardize padding/margin values on " ^^ selector) ].

Definition generate_fix_suggestion (issue_data : IssueData) : string :=
  let issue_type := id_type issue_data in
  let selector := id_selector issue_data in
  match dict_get (suggestions selector) issue_type with
  | Some s => s
  | None => "Review and fix the " ^^ issue_type ^^ " issue on " ^^ selector
  end.

(** the keyword arguments of [UIIssue(severity="warning", ...)] once
    [issue_type] is known to be the member [kind] of its [Literal] *)
Definition issue_record (kind : IssueKind) (issue_data : IssueData)
  : UIIssue :=
  {| severity := SevWarning;
     element_selector := id_selector issue_data;
     element_type := id_element_type issue_data;
     issue_type := kind;
     description := id_description issue_data;
     suggested_fix := generate_fix_suggestion issue_data;
     css_property := None;
     current_value := id_current_value issue_data;
     recommended_value := None;
     code_snippet := None |}.

(** [UIIssue(severity="warning", ...)]: the constructor validates
    [issue_type] against its [Literal] and raises when it is no member
    ([None] here). *)
Definition make_issue (issue_data : IssueData) : option UIIssue :=
  match issue_kind_of_string (id_type issue_data) with
  | Some kind => Some (issue_record kind issue_data)
  | None => None
  end.

(** [for issue_data in detected_issues: issues.append(UIIssue(...))] *)
Fixpoint build_issues (detected : list IssueData) (issues : list UIIssue)
  : option (list UIIssue) :=
  match detected with
  | [] => Some issues
  | issue_data :: rest =>
      match make_issue issue_data with
      | Some i => build_issues rest (issues ++ [i])
      | None => None
      end
  end.

(** The [elements] argument is accepted and never read.  The result is
    [None] when the call raises: the script threw, or a constructor
    refused its arguments. *)
Definition detect_ui_issues (page : Page) (elements : list UIElement)
  : option (list UIIssue) :=
  match page_script page with
  | Some detected_issues => build_issues detected_issues []
  | None => None
  end.

(** the [type] strings the script can put in an issue object *)
Definition script_types : list string :=
  [ "overflow_hidden"; "z_index_conflict"; "empty_container";
    "accessibility_missing" ].

(** the selector expression throws on the element: its id is empty and
    its class name is an object *)
Definition selector_throws (el : DomElement) : bool :=
  negb (truthy (dom_id el))
  && match dom_className el with
     | ClassString _ => false
     | ClassObject => true
     end.

(** the element has an id or a string for class name *)
Definition selectable (el : DomElement) : Prop :=
  selector_throws el = false.

(** what a loop body pushes for one element; nothing when it throws *)
Definition findings
  (body : DomElement -> list IssueData -> option (list IssueData))
  (el : DomElement) : list IssueData :=
  match body el [] with
  | Some found => found
  | None => []
  end.

(** the loop body throws on the element *)
Definition throws
  (body : DomElement -> list IssueData -> option (list IssueData))
  (el : DomElement) : bool :=
  match body el [] with
  | Some _ => false
  | None => true
  end.

(** a loop body only pushes: run on an array, it throws or gives the
    array followed by what it pushes on the empty one *)
Definition pushes
  (body : DomElement -> list IssueData -> option (list IssueData)) : Prop :=
  forall el issues, body el issues = option_map (app issues) (body el []).

(** the objects the script collects before [slice(0, 20)], when no loop
    body throws *)
Definition collected (p : Page) : list IssueData :=
  flat_map (findings (check_overflow_and_zindex (innerWidth p))) (dom p)
  ++ flat_map (findings check_empty_container)
       (query_tags ["div"; "section"; "main"; "article"] p)
  ++ flat_map (findings check_image) (query_tags ["img"] p)
  ++ flat_map (findings check_interactive) (query_tags ["button"; "a"] p).

(** some loop body throws on an element it runs on *)
Definition script_throws (p : Page) : bool :=
  existsb (throws (check_overflow_and_zindex (innerWidth p))) (dom p)
  || existsb (throws check_empty_container)
       (query_tags ["div"; "section"; "main"; "article"] p)
  || existsb (throws check_image) (query_tags ["img"] p)
  || existsb (throws check_interactive) (query_tags ["button"; "a"] p).

(** an image without [alt] and without [aria-label] *)
Definition bare_img : DomElement :=
  {| dom_tag := "img"; dom_id := ""; dom_className := ClassString "";
     rect_right := 100; rect_height := 100;
     style_position := "static"; style_overflowX := "visible";
     scrollWidth := 100; clientWidth := 100; style_zIndex := None;
     children_length := 0; textContent := "";
     dom_alt := ""; dom_aria_label := None |}.

(** the issue the detector reports for such an image *)
Definition bare_img_issue : UIIssue :=
  {| severity := SevWarning;
     element_selector := "img";
     element_type := "image";
     issue_type := accessibility_missing;
     description := "Image missing alt text";
     suggested_fix := "Add appropriate alt text or aria-label to img";
     css_property := None;
     current_value := None;
     recommended_value := None;
     code_snippet := None |}.

(** a page of [n] such images *)
Definition gallery (n : nat) : Page :=
  {| innerWidth := 1920; dom := repeat bare_img n |}.

(** an SVG element with the given tag, without id, text or label *)
Definition svg_element (tag : string) : DomElement :=
  {| dom_tag := tag; dom_id := ""; dom_className := ClassObject;
     rect_right := 100; rect_height := 100;
     style_position := "static"; style_overflowX := "visible";
     scrollWidth := 100; clientWidth := 100; style_zIndex := None;
     children_length := 1; textContent := "";
     dom_alt := ""; dom_aria_label := None |}.

(** [<svg><a href="#"><circle/></a></svg>]: a link drawn as a circle *)
Definition svg_link : list DomElement :=
  [ svg_element "svg"; svg_element "a"; svg_element "circle" ].

(** the page of that drawing alone *)
Definition svg_link_page : Page :=
  {| innerWidth := 1920; dom := svg_link |}.

(** 25 images followed by that drawing *)
Definition gallery_with_svg_link : Page :=
  {| innerWidth := 1920; dom := repeat bare_img 25 ++ svg_link |}.

End Issues.

(* ===================================================================== *)
(** ** analyzer.py: fix synthesizer *)
(* ===================================================================== *)

Module Fixes.
Import Py Models Query.

Definition action_map : list (string * Action) :=
  [ ("layout_broken", modify_css); ("overflow_hidden", modify_css);
    ("z_index_conflict", modify_css); ("spacing_inconsistent", modify_css);
    ("alignment_off", modify_css); ("element_overlap", modify_css);
    ("broken_flexbox", modify_css); ("broken_grid", modify_css);
    ("accessibility_missing", modify_html); ("empty_container", remove_html) ].

(** the [elif] branches filling [property_changes] by issue kind *)
Definition kind_property_changes (kind : IssueKind) : list (string * string) :=
  match kind with
  | overflow_hidden => [ ("overflow-x", "hidden"); ("max-width", "100%") ]
  | z_index_conflict => [ ("z-index", "10") ]
  | spacing_inconsistent => [ ("padding", "1rem"); ("margin", "0") ]
  | _ => []
  end.

(** [if issue.css_property and issue.recommended_value: ... elif ...] *)
Definition issue_property_changes (issue : UIIssue) : list (string * string) :=
  match css_property issue, recommended_value issue with
  | Some p, Some v =>
      if truthy p && truthy v then [ (p, v) ]
      else kind_property_changes (issue_type issue)
  | _, _ => kind_property_changes (issue_type issue)
  end.

(** [action_map.get(issue.issue_type, "modify_css")] *)
Definition issue_action (issue : UIIssue) : Action :=
  match dict_get action_map (issue_kind_name (issue_type issue)) with
  | Some a => a
  | None => modify_css
  end.

(** [FixInstruction] has no [code_snippet] field; the keyword argument is
    dropped by the model class. *)
Definition create_fix_instruction (issue : UIIssue) (priority : nat)
  : FixInstruction :=
  {| priority := priority;
     target_description :=
       "Fix " ^^ issue_kind_name (issue_type issue) ^^ " on "
       ^^ element_type issue;
     selector := element_selector issue;
     file_hint := None;
     action := issue_action issue;
     property_changes := issue_property_changes issue;
     before_code := None;
     after_code := None;
     explanation := suggested_fix issue |}.

(** The three accumulators the two loops of
    [generate_fix_instructions_for_query] update. *)
Record Acc := mkAcc {
  acc_fixes : list FixInstruction;
  acc_css : list string;
  acc_priority : nat
}.

(** [not target_types or any(t in issue.element_type for t in target_types)] *)
Definition issue_selected (target_types : list string) (issue : UIIssue)
  : bool :=
  negb (nonempty target_types)
  || existsb (fun t => str_in t (element_type issue)) target_types.

(** [selector {\n    prop: value;\n ... }] *)
Definition css_rule (sel : string) (changes : list (string * string))
  : string :=
  fold_left
    (fun rule pv => rule ^^ "    " ^^ fst pv ^^ ": " ^^ snd pv ^^ ";" ^^ nl)
    changes (sel ^^ " {" ^^ nl)
  ^^ "}".

(** body of [for issue in issues] *)
Definition issue_step (target_types : list string) (a : Acc) (issue : UIIssue)
  : Acc :=
  if issue_selected target_types issue then
    let instruction := create_fix_instruction issue (acc_priority a) in
    {| acc_fixes := acc_fixes a ++ [instruction];
       acc_css :=
         if nonempty (property_changes instruction)
         then acc_css a ++ [css_rule (element_selector issue)
                                     (property_changes instruction)]
         else acc_css a;
       acc_priority := acc_priority a + 1 |}
  else a.

Definition spacing_fix (el : UIElement) (priority : nat) : FixInstruction :=
  {| priority := priority;
     target_description := "Adjust spacing on " ^^ el_element_type el;
     selector := el_selector el;
     file_hint := None;
     action := modify_css;
     property_changes :=
       [ ("padding", "1rem"); ("margin", "0 auto"); ("gap", "1rem") ];
     before_code := None;
     after_code := None;
     explanation :=
       "Standardize spacing on the " ^^ el_element_type el
       ^^ " element to fix layout issues" |}.

Definition alignment_fix (el : UIElement) (priority : nat) : FixInstruction :=
  {| priority := priority;
     target_description := "Fix alignment on " ^^ el_element_type el;
     selector := el_selector el;
     file_hint := None;
     action := modify_css;
     property_changes :=
       [ ("display", "flex"); ("align-items", "center");
         ("justify-content", "center") ];
     before_code := None;
     after_code := None;
     explanation :=
       "Use flexbox to properly align content within " ^^ el_element_type el |}.

Definition layout_fix (el : UIElement) (priority : nat) : FixInstruction :=
  {| priority := priority;
     target_description := "Fix layout on " ^^ el_element_type el;
     selector := el_selector el;
     file_hint := None;
     action := modify_css;
     property_changes :=
       [ ("display", "flex"); ("flex-direction", "row");
         ("flex-wrap", "wrap"); ("gap", "1rem") ];
     before_code := None;
     after_code := None;
     explanation :=
       "Apply proper flexbox layout to " ^^ el_element_type el |}.

(** [for el in els: fix_instructions.append(mk(el, priority)); priority += 1] *)
Definition append_fixes (mk : UIElement -> nat -> FixInstruction)
  (els : list UIElement) (a : Acc) : Acc :=
  fold_left
    (fun a el =>
       {| acc_fixes := acc_fixes a ++ [mk el (acc_priority a)];
          acc_css := acc_css a;
          acc_priority := acc_priority a + 1 |})
    els a.

(** body of [for hint in issue_hints] *)
Definition hint_step (affected : list UIElement) (a : Acc) (hint : string)
  : Acc :=
  if String.eqb hint "spacing" && nonempty affected then
    append_fixes spacing_fix (take 3 affected) a
  else if String.eqb hint "alignment" && nonempty affected then
    append_fixes alignment_fix (take 3 affected) a
  else if String.eqb hint "layout" && nonempty affected then
    append_fixes layout_fix (take 2 affected) a
  else a.

Definition generate_recommendations (query_info : QueryInfo)
  (elements : list UIElement) : list string :=
  let element_types := map el_element_type elements in
  let issue_hints := Query.issue_hints query_info in
  (if list_in "navbar" element_types then []
   else [ "Consider adding a proper <nav> element with role='navigation' for better accessibility" ])
  ++ (if list_in "footer" element_types then []
      else [ "Consider adding a <footer> element for site information and links" ])
  ++ (if list_in "responsive" issue_hints
      then [ "Add CSS media queries to handle different screen sizes";
             "Use relative units (rem, %, vw) instead of fixed pixels for better responsiveness" ]
      else [])
  ++ (if list_in "layout" issue_hints
      then [ "Consider using CSS Grid or Flexbox for complex layouts";
             "Use a consistent spacing system (e.g., 0.5rem, 1rem, 2rem)" ]
      else []).

(** [affected_elements] *)
Definition select_affected (target_types : list string)
  (elements : list UIElement) : list UIElement :=
  if nonempty target_types
  then filter (fun el => list_in (el_element_type el) target_types) elements
  else take 10 elements.

(** The accumulators after both loops. *)
Definition run_loops (user_query : string) (elements : list UIElement)
  (issues : list UIIssue) : Acc :=
  let query_info := interpret_user_query user_query in
  let target_types := Query.element_types query_info in
  let affected_elements := select_affected target_types elements in
  let a0 := {| acc_fixes := []; acc_css := []; acc_priority := 1 |} in
  let a1 := fold_left (issue_step target_types) issues a0 in
  fold_left (hint_step affected_elements) (Query.issue_hints query_info) a1.

(** The [page] argument is accepted and never read. *)
Definition generate_fix_instructions_for_query (url user_query : string)
  (elements : list UIElement) (issues : list UIIssue)
  : FixInstructionsResult :=
  let query_info := interpret_user_query user_query in
  let target_types := Query.element_types query_info in
  let affected_elements := select_affected target_types elements in
  let a := run_loops user_query elements issues in
  let fix_instructions := acc_fixes a in
  let css_changes := acc_css a in
  let summary_parts :=
    (if nonempty fix_instructions
     then [ "Found " ^^ str_of_nat (length fix_instructions)
            ^^ " fixes to apply" ]
     else [])
    ++ (if nonempty affected_elements
        then [ "Affects " ^^ str_of_nat (length affected_elements)
               ^^ " elements" ]
        else []) in
  {| url := url;
     user_query := user_query;
     interpreted_problem := Query.interpreted_meaning query_info;
     affected_elements := affected_elements;
     fix_instructions := fix_instructions;
     summary :=
       if nonempty summary_parts then join ". " summary_parts
       else "No specific fixes identified";
     css_changes :=
       if nonempty css_changes then join (nl ^^ nl) css_changes else "";
     html_changes := "";
     additional_recommendations :=
       generate_recommendations query_info elements |}.

(** Declarative reading of the two loops, used to state what they
    compute. *)

(** consecutive priorities, from [start], for a list of instructions that
    still await their priority *)
Fixpoint number_from (start : nat) (makers : list (nat -> FixInstruction))
  : list FixInstruction :=
  match makers with
  | [] => []
  | mk :: makers' => mk start :: number_from (S start) makers'
  end.

(** a maker stores the priority it is given *)
Definition keeps_priority (mk : nat -> FixInstruction) : Prop :=
  forall p, priority (mk p) = p.

(** the instructions the first loop derives from the issues *)
Definition issue_makers (target_types : list string) (issues : list UIIssue)
  : list (nat -> FixInstruction) :=
  map create_fix_instruction (filter (issue_selected target_types) issues).

(** the instructions the second loop derives from one hint *)
Definition hint_makers (affected : list UIElement) (hint : string)
  : list (nat -> FixInstruction) :=
  if String.eqb hint "spacing" && nonempty affected then
    map spacing_fix (take 3 affected)
  else if String.eqb hint "alignment" && nonempty affected then
    map alignment_fix (take 3 affected)
  else if String.eqb hint "layout" && nonempty affected then
    map layout_fix (take 2 affected)
  else [].

(** The selection of an issue as the specification words it: the issue's
    element type equals one of the interpreted types, or no type was
    interpreted. *)
Definition selected_by_equality (target_types : list string)
  (issue : UIIssue) : bool :=
  negb (nonempty target_types)
  || list_in (element_type issue) target_types.

(** A custom element [<app-header>] wider than the viewport. *)
Definition wide_app_header : Issues.DomElement :=
  {| Issues.dom_tag := "app-header"; Issues.dom_id := "";
     Issues.dom_className := Issues.ClassString "";
     Issues.rect_right := 2400; Issues.rect_height := 80;
     Issues.style_position := "static";
     Issues.style_overflowX := "visible";
     Issues.scrollWidth := 2400; Issues.clientWidth := 1920;
     Issues.style_zIndex := None;
     Issues.children_length := 3; Issues.textContent := "Home About";
     Issues.dom_alt := ""; Issues.dom_aria_label := None |}.

Definition wide_header_page : Issues.Page :=
  {| Issues.innerWidth := 1920; Issues.dom := [wide_app_header] |}.

(** the issue the detector reports for that page *)
Definition wide_header_issue : UIIssue :=
  {| severity := SevWarning;
     element_selector := "app-header";
     element_type := "app-header";
     issue_type := overflow_hidden;
     description :=
       "Element extends beyond viewport causing horizontal scroll";
     suggested_fix :=
       "Add 'overflow-x: hidden' to the parent container or 'max-width: 100%' to app-header";
     css_property := None;
     current_value := None;
     recommended_value := None;
     code_snippet := None |}.

(** an issue of a kind that [action_map] does not list *)
Definition low_contrast_issue : UIIssue :=
  {| severity := SevWarning;
     element_selector := ".caption";
     element_type := "heading";
     issue_type := contrast_low;
     description := "Text contrast is too low";
     suggested_fix := "Review and fix the contrast_low issue on .caption";
     css_property := None;
     current_value := None;
     recommended_value := None;
     code_snippet := None |}.

(** two buttons and an image, with one issue on a button and one on the
    image *)
Definition sample_elements : list UIElement :=
  [ {| el_element_type := "button"; el_tag_name := "button";
       el_selector := "#buy"; el_text_content := Some "Buy";
       el_aria_role := None; el_aria_label := None; el_classes := [];
       el_element_id := Some "buy"; el_children_count := 0;
       el_is_visible := true |};
    {| el_element_type := "image"; el_tag_name := "img";
       el_selector := "img.logo"; el_text_content := None;
       el_aria_role := None; el_aria_label := None;
       el_classes := ["logo"]; el_element_id := None;
       el_children_count := 0; el_is_visible := true |};
    {| el_element_type := "button"; el_tag_name := "a";
       el_selector := "a.btn"; el_text_content := Some "More";
       el_aria_role := None; el_aria_label := None;
       el_classes := ["btn"]; el_element_id := None;
       el_children_count := 0; el_is_visible := true |} ].

Definition sample_issues : list UIIssue :=
  [ {| severity := SevWarning; element_selector := "img.logo";
       element_type := "image"; issue_type := accessibility_missing;
       description := "Image missing alt text";
       suggested_fix := "Add appropriate alt text or aria-label to img.logo";
       css_property := None; current_value := None;
       recommended_value := None; code_snippet := None |};
    {| severity := SevWarning; element_selector := "#buy";
       element_type := "button"; issue_type := z_index_conflict;
       description := "Element has extremely high z-index (10000) which may cause stacking issues";
       suggested_fix := "Reduce z-index on #buy to a reasonable value (10-100 for most UI elements)";
       css_property := None; current_value := Some "10000";
       recommended_value := None; code_snippet := None |} ].

End Fixes.

(* ===================================================================== *)
(** ** framework_detector.py *)
(* ===================================================================== *)

Module TechStack.
Import Py.

Inductive Confidence := High | Medium | Low.

Inductive Category :=
| cat_js_framework | cat_css_framework | cat_ui_library | cat_build_tool
| cat_meta_framework | cat_state_management | cat_animation
| cat_icon_library | cat_other.

Record FrameworkInfo := mkFrameworkInfo {
  name : string;
  version : option string;
  confidence : Confidence;
  category : Category;
  indicators : list string
}.

(** The boolean fields of [TechStackResult]. *)
Inductive Flag :=
| has_react | has_vue | has_angular | has_svelte | has_nextjs | has_nuxt
| has_remix | has_astro | has_gatsby | has_vite
| has_tailwind | has_bootstrap | has_material_ui | has_chakra_ui | has_shadcn
| has_ant_design | has_bulma | has_foundation
| has_vanilla_js | has_jquery | has_typescript
| uses_css_modules | uses_styled_components | uses_emotion | uses_sass
| uses_inline_styles | uses_css_variables.

Scheme Equality for Flag.

(** [TechStackResult]: the boolean fields are kept as one total map from
    field name to value, the other fields as they are declared. *)
Record TechStackResult := mkTechStackResult {
  primary_framework : option string;
  meta_framework : option string;
  css_approach : option string;
  frameworks : list FrameworkInfo;
  flag : Flag -> bool;
  bundler_hints : list string;
  summary : string;
  fix_approach : string
}.

(** [TechStackResult()] *)
Definition empty_result : TechStackResult :=
  {| primary_framework := None; meta_framework := None; css_approach := None;
     frameworks := []; flag := fun _ => false; bundler_hints := [];
     summary := ""; fix_approach := "" |}.

(** The object the in-page detection script returns.  [globals] lists the
    keys of the script's [globals] object; every key it stores maps to
    [true]. *)
Record DetectionData := mkDetectionData {
  scripts : list string;
  stylesheets : list string;
  metas : list (string * string);
  globals : list string;
  attributes : list string;
  classNames : list string;
  dataAttributes : list string;
  inlineStylesCount : nat;
  cssVariables : list string;
  htmlHints : list string
}.

(** [detection_data["globals"].get(g)] as a truth value *)
Definition has_global (d : DetectionData) (g : string) : bool :=
  list_in g (globals d).

(** [h in detection_data["htmlHints"]] *)
Definition has_hint (d : DetectionData) (h : string) : bool :=
  list_in h (htmlHints d).

(** [any(p in x for x in xs)] *)
Definition any_contains (p : string) (xs : list string) : bool :=
  existsb (str_in p) xs.

(** [any(p in x.lower() for x in xs)] *)
Definition any_lower_contains (p : string) (xs : list string) : bool :=
  existsb (fun x => str_in p (lower x)) xs.

(** [set(detection_data["classNames"])]; only membership tests and counts
    are taken of it, so the order kept here is immaterial. *)
Definition class_names (d : DetectionData) : list string :=
  nodup string_dec (classNames d).

(** [sum(1 for p in patterns if any(p in c for c in class_names))] *)
Definition count_patterns (patterns : list string) (d : DetectionData) : nat :=
  length (filter (fun p => any_contains p (class_names d)) patterns).

(** The state of [detect_tech_stack] between two checks: the result under
    construction and the local list [frameworks]. *)
Record State := mkState {
  result : TechStackResult;
  fws : list FrameworkInfo
}.

(** [result.<f> = v] *)
Definition set_flag (f : Flag) (v : bool) (s : State) : State :=
  let r := result s in
  {| result :=
       {| primary_framework := primary_framework r;
          meta_framework := meta_framework r;
          css_approach := css_approach r;
          frameworks := frameworks r;
          flag := fun g => if Flag_beq g f then v else flag r g;
          bundler_hints := bundler_hints r;
          summary := summary r;
          fix_approach := fix_approach r |};
     fws := fws s |}.

(** [frameworks.append(info)] *)
Definition append_framework (info : FrameworkInfo) (s : State) : State :=
  {| result := result s; fws := fws s ++ [info] |}.

(** [result.bundler_hints.append(h)] *)
Definition append_bundler_hint (h : string) (s : State) : State :=
  let r := result s in
  {| result :=
       {| primary_framework := primary_framework r;
          meta_framework := meta_framework r;
          css_approach := css_approach r;
          frameworks := frameworks r;
          flag := flag r;
          bundler_hints := bundler_hints r ++ [h];
          summary := summary r;
          fix_approach := fix_approach r |};
     fws := fws s |}.

(** [result.css_approach = a] *)
Definition set_css_approach (a : string) (s : State) : State :=
  let r := result s in
  {| result :=
       {| primary_framework := primary_framework r;
          meta_framework := meta_framework r;
          css_approach := Some a;
          frameworks := frameworks r;
          flag := flag r;
          bundler_hints := bundler_hints r;
          summary := summary r;
          fix_approach := fix_approach r |};
     fws := fws s |}.

(** reading a flag of the result under construction *)
Definition get (f : Flag) (s : State) : bool := flag (result s) f.

(* ---- JS frameworks ---- *)

Definition react_detected (d : DetectionData) : bool :=
  has_global d "React" || has_global d "ReactDOM"
  || has_global d "__REACT_DEVTOOLS_GLOBAL_HOOK__"
  || has_hint d "react_root"
  || any_lower_contains "react" (scripts d).

(** the [FrameworkInfo] appended by the check below *)
Definition react_info (d : DetectionData) : FrameworkInfo :=
  {| name := "React"; version := None;
     category := cat_js_framework;
     confidence := if has_global d "React" then High else Medium;
     indicators :=
       if has_global d "React" then [ "Global React object found" ]
       else [ "React patterns detected" ] |}.

Definition check_react (d : DetectionData) (s : State) : State :=
  if react_detected d then
    let s := set_flag has_react true s in
    append_framework (react_info d) s
  else s.

Definition vue_detected (d : DetectionData) : bool :=
  has_global d "Vue" || has_global d "__VUE__"
  || any_contains "v-" (attributes d)
  || any_lower_contains "vue" (scripts d).

(** the [FrameworkInfo] appended by the check below *)
Definition vue_info (d : DetectionData) : FrameworkInfo :=
  {| name := "Vue.js"; version := None;
     category := cat_js_framework;
     confidence := if has_global d "Vue" then High else Medium;
     indicators :=
       if has_global d "Vue" then [ "Global Vue object found" ]
       else [ "Vue patterns detected" ] |}.

Definition check_vue (d : DetectionData) (s : State) : State :=
  if vue_detected d then
    let s := set_flag has_vue true s in
    append_framework (vue_info d) s
  else s.

Definition angular_detected (d : DetectionData) : bool :=
  has_global d "ng" || has_global d "Zone"
  || has_hint d "angular_version"
  || existsb (fun attr => str_in "ng-" attr || str_in "_ng" attr)
       (attributes d).

(** the [FrameworkInfo] appended by the check below *)
Definition angular_info (d : DetectionData) : FrameworkInfo :=
  {| name := "Angular"; version := None;
     category := cat_js_framework;
     confidence := if has_hint d "angular_version" then High else Medium;
     indicators := [ "Angular attributes detected" ] |}.

Definition check_angular (d : DetectionData) (s : State) : State :=
  if angular_detected d then
    let s := set_flag has_angular true s in
    append_framework (angular_info d) s
  else s.

Definition svelte_classes (d : DetectionData) : list string :=
  filter (fun c => startswith c "svelte-") (classNames d).

Definition svelte_detected (d : DetectionData) : bool :=
  nonempty (svelte_classes d) || has_global d "Svelte".

(** the [FrameworkInfo] appended by the check below *)
Definition svelte_info (d : DetectionData) : FrameworkInfo :=
  {| name := "Svelte"; version := None;
     category := cat_js_framework;
     confidence := if nonempty (svelte_classes d) then High else Medium;
     indicators :=
       [ "Found " ^^ str_of_nat (length (svelte_classes d))
       ^^ " Svelte-scoped classes" ] |}.

Definition check_svelte (d : DetectionData) (s : State) : State :=
  if svelte_detected d then
    let s := set_flag has_svelte true s in
    append_framework (svelte_info d) s
  else s.

(* ---- meta frameworks ---- *)

Definition nextjs_detected (d : DetectionData) : bool :=
  has_global d "__NEXT_DATA__"
  || has_hint d "nextjs_data" || has_hint d "nextjs_root"
  || any_contains "_next/" (scripts d).

(** the [FrameworkInfo] appended by the check below *)
Definition nextjs_info (d : DetectionData) : FrameworkInfo :=
  {| name := "Next.js"; version := None;
     category := cat_meta_framework; confidence := High;
     indicators := [ "__NEXT_DATA__ found"; "_next/ assets detected" ] |}.

Definition check_nextjs (d : DetectionData) (s : State) : State :=
  if nextjs_detected d then
    let s := set_flag has_nextjs true s in
    let s := set_flag has_react true s in
    append_framework (nextjs_info d) s
  else s.

Definition nuxt_detected (d : DetectionData) : bool :=
  has_global d "__NUXT__" || has_global d "$nuxt"
  || has_hint d "nuxt_data" || has_hint d "nuxt_root".

(** the [FrameworkInfo] appended by the check below *)
Definition nuxt_info (d : DetectionData) : FrameworkInfo :=
  {| name := "Nuxt"; version := None;
     category := cat_meta_framework; confidence := High;
     indicators := [ "__NUXT__ global found" ] |}.

Definition check_nuxt (d : DetectionData) (s : State) : State :=
  if nuxt_detected d then
    let s := set_flag has_nuxt true s in
    let s := set_flag has_vue true s in
    append_framework (nuxt_info d) s
  else s.

Definition remix_detected (d : DetectionData) : bool :=
  has_global d "__remixContext" || has_hint d "remix_data".

(** the [FrameworkInfo] appended by the check below *)
Definition remix_info (d : DetectionData) : FrameworkInfo :=
  {| name := "Remix"; version := None;
     category := cat_meta_framework; confidence := High;
     indicators := [ "Remix context found" ] |}.

Definition check_remix (d : DetectionData) (s : State) : State :=
  if remix_detected d then
    let s := set_flag has_remix true s in
    let s := set_flag has_react true s in
    append_framework (remix_info d) s
  else s.

Definition astro_detected (d : DetectionData) : bool :=
  has_hint d "astro_island" || any_contains "data-astro" (dataAttributes d).

(** the [FrameworkInfo] appended by the check below *)
Definition astro_info (d : DetectionData) : FrameworkInfo :=
  {| name := "Astro"; version := None;
     category := cat_meta_framework; confidence := High;
     indicators := [ "Astro islands detected" ] |}.

Definition check_astro (d : DetectionData) (s : State) : State :=
  if astro_detected d then
    let s := set_flag has_astro true s in
    append_framework (astro_info d) s
  else s.

Definition gatsby_detected (d : DetectionData) : bool :=
  has_global d "___gatsby" || has_hint d "gatsby_data".

(** the [FrameworkInfo] appended by the check below *)
Definition gatsby_info (d : DetectionData) : FrameworkInfo :=
  {| name := "Gatsby"; version := None;
     category := cat_meta_framework; confidence := High;
     indicators := [ "Gatsby globals found" ] |}.

Definition check_gatsby (d : DetectionData) (s : State) : State :=
  if gatsby_detected d then
    let s := set_flag has_gatsby true s in
    let s := set_flag has_react true s in
    append_framework (gatsby_info d) s
  else s.

Definition vite_detected (d : DetectionData) : bool :=
  has_global d "__vite__".

Definition check_vite (d : DetectionData) (s : State) : State :=
  if vite_detected d then
    let s := set_flag has_vite true s in
    append_bundler_hint "Vite" s
  else s.

Definition jquery_detected (d : DetectionData) : bool :=
  has_global d "jQuery" || has_global d "$".

(** the [FrameworkInfo] appended by the check below *)
Definition jquery_info (d : DetectionData) : FrameworkInfo :=
  {| name := "jQuery"; version := None;
     category := cat_js_framework; confidence := High;
     indicators := [ "jQuery global found" ] |}.

Definition check_jquery (d : DetectionData) (s : State) : State :=
  if jquery_detected d then
    let s := set_flag has_jquery true s in
    append_framework (jquery_info d) s
  else s.

(* ---- CSS frameworks and UI libraries ---- *)

Definition tailwind_patterns : list string :=
  [ "flex"; "grid"; "hidden"; "block"; "inline-flex"; "items-center";
    "justify-center"; "space-x-"; "space-y-"; "gap-"; "rounded-";
    "bg-"; "text-"; "font-"; "p-"; "m-"; "px-"; "py-"; "mx-"; "my-";
    "w-"; "h-"; "min-"; "max-"; "border-"; "shadow-"; "hover:";
    "focus:"; "sm:"; "md:"; "lg:"; "xl:"; "dark:" ].

Definition tailwind_indicators (d : DetectionData) : nat :=
  count_patterns tailwind_patterns d.

Definition tailwind_detected (d : DetectionData) : bool :=
  Nat.leb 10 (tailwind_indicators d).

(** the [FrameworkInfo] appended by the check below *)
Definition tailwind_info (d : DetectionData) : FrameworkInfo :=
  {| name := "Tailwind CSS"; version := None;
     category := cat_css_framework;
     confidence :=
       if Nat.leb 15 (tailwind_indicators d) then High else Medium;
     indicators :=
       [ "Found " ^^ str_of_nat (tailwind_indicators d)
       ^^ " Tailwind utility class patterns" ] |}.

Definition check_tailwind (d : DetectionData) (s : State) : State :=
  if tailwind_detected d then
    let s := set_flag has_tailwind true s in
    append_framework (tailwind_info d) s
  else s.

Definition bootstrap_classes : list string :=
  [ "container"; "container-fluid"; "row"; "col-"; "btn"; "btn-";
    "navbar"; "nav-"; "card"; "modal"; "form-control"; "table-" ].

Definition bootstrap_count (d : DetectionData) : nat :=
  count_patterns bootstrap_classes d.

Definition bootstrap_detected (d : DetectionData) : bool :=
  Nat.leb 5 (bootstrap_count d)
  || any_lower_contains "bootstrap" (scripts d ++ stylesheets d).

(** the [FrameworkInfo] appended by the check below *)
Definition bootstrap_info (d : DetectionData) : FrameworkInfo :=
  {| name := "Bootstrap"; version := None;
     category := cat_css_framework;
     confidence := if Nat.leb 8 (bootstrap_count d) then High else Medium;
     indicators :=
       [ "Found " ^^ str_of_nat (bootstrap_count d)
       ^^ " Bootstrap class patterns" ] |}.

Definition check_bootstrap (d : DetectionData) (s : State) : State :=
  if bootstrap_detected d then
    let s := set_flag has_bootstrap true s in
    append_framework (bootstrap_info d) s
  else s.

Definition mui_classes (d : DetectionData) : list string :=
  filter (fun c => startswith c "Mui" || startswith c "css-") (class_names d).

Definition material_ui_detected (d : DetectionData) : bool :=
  Nat.leb 5 (length (mui_classes d)).

(** the [FrameworkInfo] appended by the check below *)
Definition material_ui_info (d : DetectionData) : FrameworkInfo :=
  {| name := "Material UI"; version := None;
     category := cat_ui_library; confidence := High;
     indicators :=
       [ "Found " ^^ str_of_nat (length (mui_classes d))
       ^^ " MUI classes" ] |}.

Definition check_material_ui (d : DetectionData) (s : State) : State :=
  if material_ui_detected d then
    let s := set_flag has_material_ui true s in
    append_framework (material_ui_info d) s
  else s.

Definition chakra_classes (d : DetectionData) : list string :=
  filter (fun c => startswith c "chakra-") (class_names d).

Definition chakra_ui_detected (d : DetectionData) : bool :=
  nonempty (chakra_classes d) || any_contains "data-chakra" (dataAttributes d).

(** the [FrameworkInfo] appended by the check below *)
Definition chakra_ui_info (d : DetectionData) : FrameworkInfo :=
  {| name := "Chakra UI"; version := None;
     category := cat_ui_library; confidence := High;
     indicators := [ "Chakra UI classes detected" ] |}.

Definition check_chakra_ui (d : DetectionData) (s : State) : State :=
  if chakra_ui_detected d then
    let s := set_flag has_chakra_ui true s in
    append_framework (chakra_ui_info d) s
  else s.

Definition radix_attrs (d : DetectionData) : list string :=
  filter
    (fun attr => str_in "data-state" attr || str_in "data-radix" attr
                 || str_in "data-side" attr)
    (dataAttributes d).

(** the [FrameworkInfo] appended by the check below *)
Definition shadcn_info (d : DetectionData) : FrameworkInfo :=
  {| name := "shadcn/ui"; version := None;
     category := cat_ui_library; confidence := Medium;
     indicators := [ "Radix UI primitives + Tailwind detected" ] |}.

(** [if radix_attrs and result.has_tailwind] reads the flag set above *)
Definition check_shadcn (d : DetectionData) (s : State) : State :=
  if nonempty (radix_attrs d) && get has_tailwind s then
    let s := set_flag has_shadcn true s in
    append_framework (shadcn_info d) s
  else s.

Definition ant_classes (d : DetectionData) : list string :=
  filter (fun c => startswith c "ant-" || startswith c "anticon")
    (class_names d).

Definition ant_design_detected (d : DetectionData) : bool :=
  Nat.leb 3 (length (ant_classes d)).

(** the [FrameworkInfo] appended by the check below *)
Definition ant_design_info (d : DetectionData) : FrameworkInfo :=
  {| name := "Ant Design"; version := None;
     category := cat_ui_library; confidence := High;
     indicators :=
       [ "Found " ^^ str_of_nat (length (ant_classes d))
       ^^ " Ant Design classes" ] |}.

Definition check_ant_design (d : DetectionData) (s : State) : State :=
  if ant_design_detected d then
    let s := set_flag has_ant_design true s in
    append_framework (ant_design_info d) s
  else s.

Definition bulma_patterns : list string :=
  [ "column"; "columns"; "is-"; "has-text-"; "has-background-" ].

Definition bulma_detected (d : DetectionData) : bool :=
  Nat.leb 3 (count_patterns bulma_patterns d).

(** the [FrameworkInfo] appended by the check below *)
Definition bulma_info (d : DetectionData) : FrameworkInfo :=
  {| name := "Bulma"; version := None;
     category := cat_css_framework; confidence := Medium;
     indicators := [ "Bulma class patterns detected" ] |}.

Definition check_bulma (d : DetectionData) (s : State) : State :=
  if bulma_detected d then
    let s := set_flag has_bulma true s in
    append_framework (bulma_info d) s
  else s.

Definition foundation_patterns : list string :=
  [ "grid-x"; "grid-y"; "cell"; "small-"; "medium-"; "large-" ].

Definition foundation_detected (d : DetectionData) : bool :=
  Nat.leb 3 (count_patterns foundation_patterns d).

(** the [FrameworkInfo] appended by the check below *)
Definition foundation_info (d : DetectionData) : FrameworkInfo :=
  {| name := "Foundation"; version := None;
     category := cat_css_framework; confidence := Medium;
     indicators := [ "Foundation class patterns detected" ] |}.

Definition check_foundation (d : DetectionData) (s : State) : State :=
  if foundation_detected d then
    let s := set_flag has_foundation true s in
    append_framework (foundation_info d) s
  else s.

(* ---- resolution ---- *)

(** [any("css-" in c for c in class_names)] *)
Definition hashed_class_names (d : DetectionData) : bool :=
  any_contains "css-" (class_names d).

(** the [if]/[elif] chain under [# CSS approach detection] *)
Definition resolve_css_approach (d : DetectionData) (s : State) : State :=
  if get has_tailwind s then set_css_approach "tailwind" s
  else if get has_bootstrap s then set_css_approach "bootstrap" s
  else if get has_material_ui s || get has_chakra_ui s
          || get has_ant_design s
  then set_css_approach "component-library" s
  else if hashed_class_names d then
    set_css_approach "css-modules" (set_flag uses_css_modules true s)
  else if Nat.ltb 20 (inlineStylesCount d) then
    set_css_approach "inline-styles" (set_flag uses_inline_styles true s)
  else set_css_approach "traditional-css" s.

Definition check_css_variables (d : DetectionData) (s : State) : State :=
  if Nat.ltb 5 (length (cssVariables d))
  then set_flag uses_css_variables true s
  else s.

(** the [FrameworkInfo] appended by the check below *)
Definition vanilla_js_info (d : DetectionData) : FrameworkInfo :=
  {| name := "Vanilla JavaScript"; version := None;
     category := cat_js_framework; confidence := Low;
     indicators := [ "No major JS framework detected" ] |}.

Definition check_vanilla_js (d : DetectionData) (s : State) : State :=
  if negb (get has_react s || get has_vue s || get has_angular s
           || get has_svelte s || get has_jquery s)
  then
    let s := set_flag has_vanilla_js true s in
    append_framework (vanilla_js_info d) s
  else s.

(** [result.frameworks = frameworks] followed by the [if]/[elif] chain
    under [# Determine primary framework] *)
Definition resolve_primary (s : State) : TechStackResult :=
  let r := result s in
  let pick (primary : string) (is_meta : bool) : TechStackResult :=
    {| primary_framework := Some primary;
       meta_framework := if is_meta then Some primary else meta_framework r;
       css_approach := css_approach r;
       frameworks := fws s;
       flag := flag r;
       bundler_hints := bundler_hints r;
       summary := summary r;
       fix_approach := fix_approach r |} in
  if flag r has_nextjs then pick "Next.js" true
  else if flag r has_nuxt then pick "Nuxt" true
  else if flag r has_remix then pick "Remix" true
  else if flag r has_gatsby then pick "Gatsby" true
  else if flag r has_astro then pick "Astro" true
  else if flag r has_react then pick "React" false
  else if flag r has_vue then pick "Vue.js" false
  else if flag r has_angular then pick "Angular" false
  else if flag r has_svelte then pick "Svelte" false
  else pick "Vanilla JS/HTML" false.

Definition css_names : list (string * string) :=
  [ ("tailwind", "Tailwind CSS"); ("bootstrap", "Bootstrap");
    ("component-library", "Component Library CSS");
    ("css-modules", "CSS Modules"); ("inline-styles", "Inline Styles");
    ("traditional-css", "Traditional CSS") ].

Definition generate_tech_summary (r : TechStackResult) : string :=
  let parts :=
    (if truthy_opt (meta_framework r)
     then [ "Meta Framework: " ^^ opt_str (meta_framework r) ]
     else if truthy_opt (primary_framework r)
     then [ "JS Framework: " ^^ opt_str (primary_framework r) ]
     else [])
    ++ (if truthy_opt (css_approach r)
        then [ "CSS: " ^^ match dict_get css_names
                                  (opt_str (css_approach r)) with
                          | Some n => n
                          | None => opt_str (css_approach r)
                          end ]
        else [])
    ++ (let ui_libs :=
          (if flag r has_shadcn then [ "shadcn/ui" ] else [])
          ++ (if flag r has_material_ui then [ "Material UI" ] else [])
          ++ (if flag r has_chakra_ui then [ "Chakra UI" ] else [])
          ++ (if flag r has_ant_design then [ "Ant Design" ] else []) in
        if nonempty ui_libs then [ "UI Library: " ^^ join ", " ui_libs ]
        else [])
    ++ (if flag r uses_css_variables then [ "Uses CSS Variables" ] else []) in
  if nonempty parts then join " | " parts else "Standard HTML/CSS/JS".

Definition generate_fix_approach (r : TechStackResult) : string :=
  let approaches :=
    (if flag r has_nextjs then
       [ "Next.js: Use className prop for styling. Check globals.css for base styles. Component files are typically in /components or /app directories. For Tailwind issues, check tailwind.config.js for theme customization." ]
     else if flag r has_nuxt then
       [ "Nuxt: Check <style scoped> sections in .vue files. Global styles in assets/css or nuxt.config styles array. Use Nuxt DevTools to inspect component hierarchy." ]
     else if flag r has_react then
       [ "React: Styles can be in CSS files, CSS modules (.module.css), styled-components, or inline style objects. Check the component file imports." ]
     else if flag r has_vue then
       [ "Vue: Check <style> or <style scoped> in .vue files. Scoped styles only affect current component." ]
     else if flag r has_angular then
       [ "Angular: Check component.css/scss files alongside component.ts. Use ::ng-deep for child component styling (deprecated but common)." ]
     else if flag r has_svelte then
       [ "Svelte: Styles are scoped by default in <style> tags. Use :global() for unscoped styles." ]
     else [])
    ++ (if flag r has_tailwind then
          [ "Tailwind: Modify classes directly in JSX/HTML. For custom values, use arbitrary values like w-[200px] or extend theme in tailwind.config.js. Use @apply in CSS for reusable class combinations." ]
        else if flag r has_bootstrap then
          [ "Bootstrap: Use Bootstrap utility classes for quick fixes. Override in custom CSS with higher specificity. Check Bootstrap version for available classes." ]
        else [])
    ++ (if flag r has_shadcn then
          [ "shadcn/ui: Components are in /components/ui. Modify the component source directly or override with className. Theme colors defined in globals.css CSS variables." ]
        else if flag r has_material_ui then
          [ "Material UI: Use sx prop for inline styles or styled() API. Theme customization in ThemeProvider. Use MUI system props like m, p, display." ]
        else if flag r has_chakra_ui then
          [ "Chakra UI: Use style props directly on components. Theme in ChakraProvider. Supports responsive arrays." ]
        else []) in
  if nonempty approaches then join " " approaches
  else "Standard CSS: Edit stylesheets directly. Use browser DevTools to identify the exact CSS rules to modify. Check for !important rules that might override changes.".

(** [result.summary = ...; result.fix_approach = ...] *)
Definition finish (r : TechStackResult) : TechStackResult :=
  let r1 :=
    {| primary_framework := primary_framework r;
       meta_framework := meta_framework r;
       css_approach := css_approach r;
       frameworks := frameworks r;
       flag := flag r;
       bundler_hints := bundler_hints r;
       summary := generate_tech_summary r;
       fix_approach := fix_approach r |} in
  {| primary_framework := primary_framework r1;
     meta_framework := meta_framework r1;
     css_approach := css_approach r1;
     frameworks := frameworks r1;
     flag := flag r1;
     bundler_hints := bundler_hints r1;
     summary := summary r1;
     fix_approach := generate_fix_approach r1 |}.

(** The checks in the order [detect_tech_stack] runs them. *)
Definition run_checks (d : DetectionData) : State :=
  let s := {| result := empty_result; fws := [] |} in
  let s := check_react d s in
  let s := check_vue d s in
  let s := check_angular d s in
  let s := check_svelte d s in
  let s := check_nextjs d s in
  let s := check_nuxt d s in
  let s := check_remix d s in
  let s := check_astro d s in
  let s := check_gatsby d s in
  let s := check_vite d s in
  let s := check_jquery d s in
  let s := check_tailwind d s in
  let s := check_bootstrap d s in
  let s := check_material_ui d s in
  let s := check_chakra_ui d s in
  let s := check_shadcn d s in
  let s := check_ant_design d s in
  let s := check_bulma d s in
  let s := check_foundation d s in
  let s := resolve_css_approach d s in
  let s := check_css_variables d s in
  check_vanilla_js d s.

Definition detect_tech_stack (d : DetectionData) : TechStackResult :=
  finish (resolve_primary (run_checks d)).

(** Declarative reading of the checks: the value each boolean field has
    in the result, as a function of the detection data. *)
Definition flag_spec (d : DetectionData) (f : Flag) : bool :=
  let react := react_detected d || nextjs_detected d || remix_detected d
               || gatsby_detected d in
  let vue := vue_detected d || nuxt_detected d in
  let component_library :=
    material_ui_detected d || chakra_ui_detected d || ant_design_detected d in
  match f with
  | has_react => react
  | has_vue => vue
  | has_angular => angular_detected d
  | has_svelte => svelte_detected d
  | has_nextjs => nextjs_detected d
  | has_nuxt => nuxt_detected d
  | has_remix => remix_detected d
  | has_astro => astro_detected d
  | has_gatsby => gatsby_detected d
  | has_vite => vite_detected d
  | has_tailwind => tailwind_detected d
  | has_bootstrap => bootstrap_detected d
  | has_material_ui => material_ui_detected d
  | has_chakra_ui => chakra_ui_detected d
  | has_shadcn => nonempty (radix_attrs d) && tailwind_detected d
  | has_ant_design => ant_design_detected d
  | has_bulma => bulma_detected d
  | has_foundation => foundation_detected d
  | has_vanilla_js =>
      negb (react || vue || angular_detected d || svelte_detected d
            || jquery_detected d)
  | has_jquery => jquery_detected d
  | has_typescript => false
  | uses_css_modules =>
      negb (tailwind_detected d) && negb (bootstrap_detected d)
      && negb component_library && hashed_class_names d
  | uses_styled_components => false
  | uses_emotion => false
  | uses_sass => false
  | uses_inline_styles =>
      negb (tailwind_detected d) && negb (bootstrap_detected d)
      && negb component_library && negb (hashed_class_names d)
      && Nat.ltb 20 (inlineStylesCount d)
  | uses_css_variables => Nat.ltb 5 (length (cssVariables d))
  end.

(** the entry a check contributes to [frameworks]: its record if the
    check fires, nothing otherwise *)
Definition entry (fires : bool) (info : FrameworkInfo) : list FrameworkInfo :=
  if fires then [info] else [].

(** Declarative reading of [frameworks]: the entries in the order of the
    checks. *)
Definition frameworks_spec (d : DetectionData) : list FrameworkInfo :=
  entry (react_detected d) (react_info d)
  ++ entry (vue_detected d) (vue_info d)
  ++ entry (angular_detected d) (angular_info d)
  ++ entry (svelte_detected d) (svelte_info d)
  ++ entry (nextjs_detected d) (nextjs_info d)
  ++ entry (nuxt_detected d) (nuxt_info d)
  ++ entry (remix_detected d) (remix_info d)
  ++ entry (astro_detected d) (astro_info d)
  ++ entry (gatsby_detected d) (gatsby_info d)
  ++ entry (jquery_detected d) (jquery_info d)
  ++ entry (tailwind_detected d) (tailwind_info d)
  ++ entry (bootstrap_detected d) (bootstrap_info d)
  ++ entry (material_ui_detected d) (material_ui_info d)
  ++ entry (chakra_ui_detected d) (chakra_ui_info d)
  ++ entry (flag_spec d has_shadcn) (shadcn_info d)
  ++ entry (ant_design_detected d) (ant_design_info d)
  ++ entry (bulma_detected d) (bulma_info d)
  ++ entry (foundation_detected d) (foundation_info d)
  ++ entry (flag_spec d has_vanilla_js) (vanilla_js_info d).

(** detection data of a page on which nothing was found *)
Definition no_signals : DetectionData :=
  {| scripts := []; stylesheets := []; metas := []; globals := [];
     attributes := []; classNames := []; dataAttributes := [];
     inlineStylesCount := 0; cssVariables := []; htmlHints := [] |}.

(** only the React DevTools hook global was seen *)
Definition devtools_hook_only : DetectionData :=
  {| scripts := []; stylesheets := []; metas := [];
     globals := [ "__REACT_DEVTOOLS_GLOBAL_HOOK__" ];
     attributes := []; classNames := []; dataAttributes := [];
     inlineStylesCount := 0; cssVariables := []; htmlHints := [] |}.

(** only the [react_root] structural hint was set *)
Definition react_root_only : DetectionData :=
  {| scripts := []; stylesheets := []; metas := []; globals := [];
     attributes := []; classNames := []; dataAttributes := [];
     inlineStylesCount := 0; cssVariables := [];
     htmlHints := [ "react_root" ] |}.

(** only the [nextjs_root] structural hint was set *)
Definition nextjs_root_only : DetectionData :=
  {| scripts := []; stylesheets := []; metas := []; globals := [];
     attributes := []; classNames := []; dataAttributes := [];
     inlineStylesCount := 0; cssVariables := [];
     htmlHints := [ "nextjs_root" ] |}.

(** only a script served from [_next/] was seen *)
Definition next_script_only : DetectionData :=
  {| scripts := [ "https://example.com/_next/static/chunks/main.js" ];
     stylesheets := []; metas := []; globals := [];
     attributes := []; classNames := []; dataAttributes := [];
     inlineStylesCount := 0; cssVariables := []; htmlHints := [] |}.

End TechStack.

(* ===================================================================== *)
(** ** analyzer.py: element identification *)
(* ===================================================================== *)

Module Identify.
Import Py Models Classifier.

Definition ELEMENT_SELECTORS : list (string * list string) :=
  [ ("navbar", [ "nav"; "[role='navigation']"; ".navbar"; ".nav"; "#navbar";
                 "#nav"; ".navigation"; "header nav" ]);
    ("header", [ "header"; "[role='banner']"; ".header"; "#header";
                 ".site-header"; ".page-header" ]);
    ("footer", [ "footer"; "[role='contentinfo']"; ".footer"; "#footer";
                 ".site-footer"; ".page-footer" ]);
    ("hero", [ ".hero"; ".hero-section"; "[data-section='hero']"; ".banner";
               ".jumbotron"; ".masthead"; "section:first-of-type"; ".intro";
               ".landing" ]);
    ("button", [ "button"; "[role='button']"; "input[type='submit']";
                 "input[type='button']"; ".btn"; ".button"; "a.btn";
                 "a.button" ]);
    ("link", [ "a[href]"; "[role='link']" ]);
    ("heading", [ "h1"; "h2"; "h3"; "h4"; "h5"; "h6"; "[role='heading']" ]);
    ("form", [ "form"; "[role='form']"; ".form" ]);
    ("input", [ "input:not([type='hidden'])"; "textarea"; "select";
                "[role='textbox']"; "[role='combobox']" ]);
    ("card", [ ".card"; ".card-container"; "[class*='card']"; ".tile";
               ".panel" ]);
    ("sidebar", [ "aside"; "[role='complementary']"; ".sidebar"; "#sidebar";
                  ".side-nav" ]);
    ("modal", [ "[role='dialog']"; ".modal"; ".dialog"; ".popup";
                "[aria-modal='true']" ]);
    ("dropdown", [ "[role='menu']"; "[role='listbox']"; ".dropdown";
                   ".dropdown-menu"; "select" ]);
    ("image", [ "img"; "[role='img']"; "picture"; "svg"; ".image" ]);
    ("section", [ "section"; "[role='region']"; ".section"; "main > div" ]);
    ("container", [ ".container"; ".wrapper"; ".content"; "main";
                    "[role='main']" ]) ].

(** the selectors of the branch [element_type == "all"] *)
Definition SIGNIFICANT_SELECTORS : list string :=
  [ "header"; "nav"; "main"; "section"; "article"; "aside"; "footer";
    "h1"; "h2"; "h3"; "h4"; "h5"; "h6";
    "button"; "a[href]"; "form"; "input"; "textarea"; "select";
    "img"; "picture"; "svg";
    "div[class]"; "div[id]";
    "[role]" ].

(** [for sel_list in ELEMENT_SELECTORS.values(): selectors.extend(sel_list)] *)
Definition every_selector : list string :=
  flat_map snd ELEMENT_SELECTORS.

(** the [if]/[elif]/[else] choosing [selectors] *)
Definition choose_selectors (element_type : option string) : list string :=
  match element_type with
  | Some t =>
      match (if truthy t then dict_get ELEMENT_SELECTORS t else None) with
      | Some selectors => selectors
      | None => if String.eqb t "all" then SIGNIFICANT_SELECTORS
                else every_selector
      end
  | None => every_selector
  end.

(** [list(dict.fromkeys(xs))]: the first occurrence of each string, in
    order; [seen] holds the keys already inserted *)
Fixpoint fromkeys_from (seen : list string) (xs : list string)
  : list string :=
  match xs with
  | [] => []
  | x :: xs' =>
      if list_in x seen then fromkeys_from seen xs'
      else x :: fromkeys_from (x :: seen) xs'
  end.

Definition fromkeys (xs : list string) : list string := fromkeys_from [] xs.

(** [list(dict.fromkeys(selectors))[:30]] *)
Definition limited_selectors (element_type : option string) : list string :=
  take 30 (fromkeys (choose_selectors element_type)).

Definition combined_selector (element_type : option string) : string :=
  join ", " (limited_selectors element_type).

(** What the in-page script reads from an element matched by the
    selector.  Lengths are in pixels. *)
Record RawElement := mkRawElement {
  raw_tagName : string;          (* el.tagName *)
  raw_id : string;               (* el.id *)
  raw_classList : list string;   (* Array.from(el.classList) *)
  raw_width : Z;                 (* rect.width *)
  raw_height : Z;                (* rect.height *)
  raw_display : string;          (* computedStyle.display *)
  raw_visibility : string;
  raw_opacity : string;
  raw_role : option string;      (* el.getAttribute('role') *)
  raw_aria_label : option string;
  raw_textContent : string;
  raw_children : nat             (* el.children.length *)
}.

(** One object of the array the script returns ([xpath] and
    [bounding_box] are left to the caller, as in [UIElement]). *)
Record ElementDict := mkElementDict {
  ed_tag_name : string;
  ed_selector : string;
  ed_text_content : option string;
  ed_aria_role : option string;
  ed_aria_label : option string;
  ed_classes : list string;
  ed_element_id : option string;
  ed_children_count : nat;
  ed_is_visible : bool
}.

(** [s.trim()]: white space removed at both ends *)
Fixpoint trim_start (s : string) : string :=
  match s with
  | EmptyString => EmptyString
  | String c s' => if Issues.is_space c then trim_start s' else s
  end.

Fixpoint trim_end (s : string) : string :=
  match s with
  | EmptyString => EmptyString
  | String c s' =>
      match trim_end s' with
      | EmptyString => if Issues.is_space c then EmptyString
                       else String c EmptyString
      | rest => String c rest
      end
  end.

Definition js_trim (s : string) : string := trim_end (trim_start s).

(** [x || null] for a string [x] *)
Definition or_null (s : string) : option string :=
  if truthy s then Some s else None.

(** the unique selector built for an element *)
Definition unique_selector (el : RawElement) : string :=
  if truthy (raw_id el) then "#" ^^ raw_id el
  else if nonempty (raw_classList el)
  then lower (raw_tagName el) ^^ "." ^^ join "." (raw_classList el)
  else lower (raw_tagName el).

(** the object pushed for an element *)
Definition describe (el : RawElement) : ElementDict :=
  {| ed_tag_name := lower (raw_tagName el);
     ed_selector := unique_selector el;
     ed_text_content :=
       or_null (String.substring 0 100 (js_trim (raw_textContent el)));
     ed_aria_role := raw_role el;
     ed_aria_label := raw_aria_label el;
     ed_classes := raw_classList el;
     ed_element_id := or_null (raw_id el);
     ed_children_count := raw_children el;
     ed_is_visible :=
       negb (String.eqb (raw_display el) "none")
       && negb (String.eqb (raw_visibility el) "hidden")
       && negb (String.eqb (raw_opacity el) "0") |}.

(** [rect.width === 0 && rect.height === 0] *)
Definition zero_sized (el : RawElement) : bool :=
  Z.eqb (raw_width el) 0 && Z.eqb (raw_height el) 0.

(** the loop [for (const el of elements)] with its [break] and
    [continue] *)
Fixpoint collect (elements : list RawElement) (results : list ElementDict)
  : list ElementDict :=
  match elements with
  | [] => results
  | el :: rest =>
      if Nat.leb 50 (length results) then results
      else if zero_sized el then collect rest results
      else collect rest (results ++ [describe el])
  end.

(** The page as [identify_elements] uses it: the elements, in document
    order, that [querySelectorAll] returns for a selector. *)
Record Page := mkPage {
  query_selector_all : string -> list RawElement
}.

(** [xs[:n]] for any integer [n]: a negative [n] counts from the end *)
Definition slice_to {A} (n : Z) (xs : list A) : list A :=
  if Z.leb 0 n then firstn (Z.to_nat n) xs
  else firstn (length xs - Z.to_nat (- n)) xs.

(** the argument [detect_element_type] is given *)
Definition element_data (data : ElementDict) : ElementData :=
  {| tag_name := ed_tag_name data;
     aria_role := ed_aria_role data;
     classes := ed_classes data;
     element_id := ed_element_id data |}.

(** the keyword arguments of [UIElement(...)] for a given type *)
Definition element_record (element_type : string) (data : ElementDict)
  : UIElement :=
  {| el_element_type := element_type;
     el_tag_name := ed_tag_name data;
     el_selector := ed_selector data;
     el_text_content := ed_text_content data;
     el_aria_role := ed_aria_role data;
     el_aria_label := ed_aria_label data;
     el_classes := ed_classes data;
     el_element_id := ed_element_id data;
     el_children_count := ed_children_count data;
     el_is_visible := ed_is_visible data |}.

(** [UIElement(element_type=detected_type, ...)]: the constructor
    validates [element_type] against its [Literal] and raises when it is
    no member ([None] here). *)
Definition make_element (data : ElementDict) : option UIElement :=
  let detected_type := detect_element_type (element_data data) in
  if list_in detected_type ELEMENT_TYPES
  then Some (element_record detected_type data)
  else None.

(** [for data in elements_data[:max_elements]: elements.append(...)] *)
Fixpoint build_elements (datas : list ElementDict) (elements : list UIElement)
  : option (list UIElement) :=
  match datas with
  | [] => Some elements
  | data :: rest =>
      match make_element data with
      | Some el => build_elements rest (elements ++ [el])
      | None => None
      end
  end.

Definition identify_elements (page : Page) (element_type : option string)
  (max_elements : Z) : option (list UIElement) :=
  let elements_data :=
    collect (query_selector_all page (combined_selector element_type)) [] in
  build_elements (slice_to max_elements elements_data) [].

(** The element-gathering step shared by [analyze_page_full] and the
    server tool [get_fix_instructions]: one call per interpreted type, the
    results concatenated, or one call without a type. *)
Fixpoint extend_each (page : Page) (target_types : list string)
  (elements : list UIElement) : option (list UIElement) :=
  match target_types with
  | [] => Some elements
  | element_type :: rest =>
      match identify_elements page (Some element_type) 50 with
      | Some found => extend_each page rest (elements ++ found)
      | None => None
      end
  end.

Definition gather_elements (page : Page) (target_types : list string)
  : option (list UIElement) :=
  if nonempty target_types then extend_each page target_types []
  else identify_elements page None 50.

(** [summary[k] = summary.get(k, 0) + 1] on a dictionary kept in
    insertion order *)
Fixpoint bump (k : string) (summary : list (string * nat))
  : list (string * nat) :=
  match summary with
  | [] => [ (k, 1) ]
  | (k', n) :: summary' =>
      if String.eqb k' k then (k', n + 1) :: summary'
      else (k', n) :: bump k summary'
  end.

(** the loop filling [elements_summary] in [analyze_page_full] *)
Definition elements_summary (elements : list UIElement)
  : list (string * nat) :=
  fold_left (fun summary el => bump (el_element_type el) summary)
    elements [].

(** an [element_type] argument that takes the [else] branch: none, or a
    string that is neither a catalogue type nor ["all"] *)
Definition unlisted (element_type : option string) : Prop :=
  match element_type with
  | Some t => dict_get ELEMENT_SELECTORS t = None /\ t <> "all"
  | None => True
  end.

(** the catalogue types whose selectors all come after the thirtieth *)
Definition late_types : list string :=
  [ "link"; "heading"; "form"; "input"; "card"; "sidebar"; "modal";
    "dropdown"; "image"; "section"; "container" ].

(** the element the constructor is given for a script object *)
Definition classify (data : ElementDict) : UIElement :=
  element_record (detect_element_type (element_data data)) data.

(** the script objects of the elements that are not zero-sized *)
Definition sized (elements : list RawElement) : list ElementDict :=
  map describe (filter (fun el => negb (zero_sized el)) elements).

(** the number of elements of a type *)
Definition count_type (t : string) (elements : list UIElement) : nat :=
  count_occ string_dec (map el_element_type elements) t.

(** the text kept for an element: absent, or non-empty and of at most 100
    characters *)
Definition text_ok (text : option string) : Prop :=
  match text with
  | Some t => t <> "" /\ String.length t <= 100
  | None => True
  end.

(** an element the script skips and two it keeps *)
Definition sample_raw : list RawElement :=
  [ {| raw_tagName := "DIV"; raw_id := ""; raw_classList := [ "spacer" ];
       raw_width := 0; raw_height := 0; raw_display := "block";
       raw_visibility := "visible"; raw_opacity := "1";
       raw_role := None; raw_aria_label := None;
       raw_textContent := ""; raw_children := 0 |};
    {| raw_tagName := "NAV"; raw_id := "top"; raw_classList := [ "card" ];
       raw_width := 1200; raw_height := 60; raw_display := "flex";
       raw_visibility := "visible"; raw_opacity := "1";
       raw_role := None; raw_aria_label := None;
       raw_textContent := "  Home  "; raw_children := 3 |};
    {| raw_tagName := "DIV"; raw_id := ""; raw_classList := [ "hero"; "dark" ];
       raw_width := 1200; raw_height := 400; raw_display := "none";
       raw_visibility := "visible"; raw_opacity := "1";
       raw_role := None; raw_aria_label := None;
       raw_textContent := ""; raw_children := 1 |} ].

Definition sample_page : Page :=
  {| query_selector_all := fun _ => sample_raw |}.

End Identify.

(* ===================================================================== *)
(** ** Readings used to state what the detector and the synthesizer do *)
(* ===================================================================== *)

Module Readings.
Import Py Models.

(** the issue built from a script object whose [type] the model accepts *)
Definition to_issue (d : Issues.IssueData) : UIIssue :=
  match issue_kind_of_string (Issues.id_type d) with
  | Some kind => Issues.issue_record kind d
  | None => Issues.issue_record other_issue d
  end.

(** the objects the script collects before [slice(0, 20)], pass by pass *)
Definition layout_pass (p : Issues.Page) : list Issues.IssueData :=
  flat_map
    (Issues.findings (Issues.check_overflow_and_zindex (Issues.innerWidth p)))
    (Issues.dom p).

Definition later_passes (p : Issues.Page) : list Issues.IssueData :=
  flat_map (Issues.findings Issues.check_empty_container)
    (Issues.query_tags ["div"; "section"; "main"; "article"] p)
  ++ flat_map (Issues.findings Issues.check_image)
       (Issues.query_tags ["img"] p)
  ++ flat_map (Issues.findings Issues.check_interactive)
       (Issues.query_tags ["button"; "a"] p).

(** the suggestion a detector issue carries, by kind *)
Definition suggestion_for (kind : IssueKind) (sel : string) : string :=
  match kind with
  | overflow_hidden =>
      "Add 'overflow-x: hidden' to the parent container or 'max-width: 100%' to "
      ^^ sel
  | z_index_conflict =>
      "Reduce z-index on " ^^ sel
      ^^ " to a reasonable value (10-100 for most UI elements)"
  | empty_container =>
      "Remove the empty " ^^ sel ^^ " element or add content to it"
  | _ => "Add appropriate alt text or aria-label to " ^^ sel
  end.

(** a script object is one of the five literals of the script *)
Definition script_object (d : Issues.IssueData) : Prop :=
  (Issues.id_type d = "overflow_hidden" /\ Issues.id_current_value d = None)
  \/ (Issues.id_type d = "z_index_conflict" /\ Issues.id_current_value d <> None)
  \/ (Issues.id_type d = "empty_container" /\ Issues.id_current_value d = None)
  \/ (Issues.id_type d = "accessibility_missing" /\ Issues.id_current_value d = None).

(** what one issue of the detector looks like *)
Definition detector_issue (i : UIIssue) : Prop :=
  In (issue_type i)
    [ overflow_hidden; z_index_conflict; empty_container;
      accessibility_missing ]
  /\ css_property i = None
  /\ recommended_value i = None
  /\ code_snippet i = None
  /\ (current_value i <> None <-> issue_type i = z_index_conflict)
  /\ suggested_fix i = suggestion_for (issue_type i) (element_selector i).

(** the instruction the synthesizer derives from a detector issue, by
    kind: its action and its property changes *)
Definition detector_fix (kind : IssueKind)
  : Action * list (string * string) :=
  match kind with
  | overflow_hidden =>
      (modify_css, [ ("overflow-x", "hidden"); ("max-width", "100%") ])
  | z_index_conflict => (modify_css, [ ("z-index", "10") ])
  | empty_container => (remove_html, [])
  | _ => (modify_html, [])
  end.

(** the CSS rule block of an issue *)
Definition rule_of (issue : UIIssue) : string :=
  Fixes.css_rule (element_selector issue) (Fixes.issue_property_changes issue).

(** the issue gives property changes *)
Definition has_changes (issue : UIIssue) : bool :=
  nonempty (Fixes.issue_property_changes issue).

(** an element stacked far above the page *)
Definition floating_div : Issues.DomElement :=
  {| Issues.dom_tag := "div"; Issues.dom_id := "";
     Issues.dom_className := Issues.ClassString "toast";
     Issues.rect_right := 300; Issues.rect_height := 40;
     Issues.style_position := "fixed";
     Issues.style_overflowX := "visible";
     Issues.scrollWidth := 300; Issues.clientWidth := 300;
     Issues.style_zIndex := Some 99999%Z;
     Issues.children_length := 1; Issues.textContent := "Saved";
     Issues.dom_alt := ""; Issues.dom_aria_label := None |}.

(** twenty such elements followed by an image without a text
    alternative *)
Definition crowded_page : Issues.Page :=
  {| Issues.innerWidth := 1920;
     Issues.dom := repeat floating_div 20 ++ [ Issues.bare_img ] |}.

(** the kinds the first pass of the script reports *)
Definition layout_kind (i : UIIssue) : Prop :=
  issue_type i = overflow_hidden \/ issue_type i = z_index_conflict.

End Readings.

(* ===================================================================== *)
(** ** framework_detector.py: the summary returned to the caller *)
(* ===================================================================== *)

Module StackSummary.
Import Py TechStack.

(** [f.category == "ui_library"] *)
Definition is_ui_library (f : FrameworkInfo) : bool :=
  match category f with cat_ui_library => true | _ => false end.

(** The dictionary [get_tech_stack_summary] returns, with the nested
    [details] dictionary flattened. *)
Record TechSummary := mkTechSummary {
  ts_primary_framework : option string;
  ts_meta_framework : option string;
  ts_css_approach : option string;
  ts_ui_library : option string;
  ts_frameworks : list (string * Category * Confidence);
  ts_summary : string;
  ts_fix_approach : string;
  ts_has_tailwind : bool;
  ts_has_bootstrap : bool;
  ts_uses_css_modules : bool;
  ts_uses_css_variables : bool;
  ts_uses_inline_styles : bool
}.

Definition get_tech_stack_summary (d : DetectionData) : TechSummary :=
  let result := detect_tech_stack d in
  {| ts_primary_framework := primary_framework result;
     ts_meta_framework := meta_framework result;
     ts_css_approach := css_approach result;
     (* next((f.name for f in result.frameworks
              if f.category == "ui_library"), None) *)
     ts_ui_library :=
       option_map name (find is_ui_library (frameworks result));
     ts_frameworks :=
       map (fun f => (name f, category f, confidence f)) (frameworks result);
     ts_summary := summary result;
     ts_fix_approach := fix_approach result;
     ts_has_tailwind := flag result has_tailwind;
     ts_has_bootstrap := flag result has_bootstrap;
     ts_uses_css_modules := flag result uses_css_modules;
     ts_uses_css_variables := flag result uses_css_variables;
     ts_uses_inline_styles := flag result uses_inline_styles |}.

(** the checks and their records, in the order they run *)
Definition check_table (d : DetectionData) : list (bool * FrameworkInfo) :=
  [ (react_detected d, react_info d); (vue_detected d, vue_info d);
    (angular_detected d, angular_info d); (svelte_detected d, svelte_info d);
    (nextjs_detected d, nextjs_info d); (nuxt_detected d, nuxt_info d);
    (remix_detected d, remix_info d); (astro_detected d, astro_info d);
    (gatsby_detected d, gatsby_info d); (jquery_detected d, jquery_info d);
    (tailwind_detected d, tailwind_info d);
    (bootstrap_detected d, bootstrap_info d);
    (material_ui_detected d, material_ui_info d);
    (chakra_ui_detected d, chakra_ui_info d);
    (flag_spec d has_shadcn, shadcn_info d);
    (ant_design_detected d, ant_design_info d);
    (bulma_detected d, bulma_info d);
    (foundation_detected d, foundation_info d);
    (flag_spec d has_vanilla_js, vanilla_js_info d) ].

(** the six values [css_approach] can take *)
Definition CSS_APPROACHES : list string :=
  [ "tailwind"; "bootstrap"; "component-library"; "css-modules";
    "inline-styles"; "traditional-css" ].

(** the primary framework, by precedence *)
Definition primary_spec (d : DetectionData) : string :=
  if nextjs_detected d then "Next.js"
  else if nuxt_detected d then "Nuxt"
  else if remix_detected d then "Remix"
  else if gatsby_detected d then "Gatsby"
  else if astro_detected d then "Astro"
  else if react_detected d then "React"
  else if vue_detected d then "Vue.js"
  else if angular_detected d then "Angular"
  else if svelte_detected d then "Svelte"
  else "Vanilla JS/HTML".

(** one of the five meta-frameworks is detected *)
Definition meta_detected (d : DetectionData) : bool :=
  nextjs_detected d || nuxt_detected d || remix_detected d
  || gatsby_detected d || astro_detected d.

(** the name shown for a CSS approach *)
Definition css_display (approach : string) : string :=
  match dict_get css_names approach with
  | Some shown => shown
  | None => approach
  end.

(** the checks of [run_checks], in order *)
Definition check_steps (d : DetectionData) : list (State -> State) :=
  [ check_react d; check_vue d; check_angular d; check_svelte d;
    check_nextjs d; check_nuxt d; check_remix d; check_astro d;
    check_gatsby d; check_vite d; check_jquery d; check_tailwind d;
    check_bootstrap d; check_material_ui d; check_chakra_ui d;
    check_shadcn d; check_ant_design d; check_bulma d; check_foundation d;
    resolve_css_approach d; check_css_variables d; check_vanilla_js d ].

(** a step leaves the two framework names of the result alone *)
Definition keeps_names (step : State -> State) : Prop :=
  forall s,
    meta_framework (result (step s)) = meta_framework (result s)
    /\ primary_framework (result (step s)) = primary_framework (result s).

(** the first library of category [ui_library], in the order of the
    checks *)
Definition ui_library_spec (d : DetectionData) : option string :=
  if material_ui_detected d then Some "Material UI"
  else if chakra_ui_detected d then Some "Chakra UI"
  else if flag_spec d has_shadcn then Some "shadcn/ui"
  else if ant_design_detected d then Some "Ant Design"
  else None.

(** the names [generate_tech_summary] shows for the CSS approaches *)
Definition CSS_DISPLAY_NAMES : list string := map snd css_names.

(** the advice [generate_fix_approach] gives when no other applies *)
Definition standard_css_advice : string :=
  "Standard CSS: Edit stylesheets directly. Use browser DevTools to identify the exact CSS rules to modify. Check for !important rules that might override changes.".

(** the first words of each piece of advice of [generate_fix_approach] *)
Definition ADVICE_HEADS : list string :=
  [ "Next.js: "; "Nuxt: "; "React: "; "Vue: "; "Angular: "; "Svelte: ";
    "Tailwind: "; "Bootstrap: "; "shadcn/ui: "; "Material UI: ";
    "Chakra UI: " ].

(** one of the fields [generate_fix_approach] reads is set *)
Definition guided (r : TechStackResult) : bool :=
  flag r has_nextjs || flag r has_nuxt || flag r has_react
  || flag r has_vue || flag r has_angular || flag r has_svelte
  || flag r has_tailwind || flag r has_bootstrap || flag r has_shadcn
  || flag r has_material_ui || flag r has_chakra_ui.

(** one of the detections that bring advice fired *)
Definition advised (d : DetectionData) : bool :=
  react_detected d || vue_detected d || angular_detected d
  || svelte_detected d || nextjs_detected d || nuxt_detected d
  || remix_detected d || gatsby_detected d || tailwind_detected d
  || bootstrap_detected d || material_ui_detected d
  || chakra_ui_detected d.

(** only the global [jQuery] was seen *)
Definition jquery_only : DetectionData :=
  {| scripts := []; stylesheets := []; metas := [];
     globals := [ "jQuery" ];
     attributes := []; classNames := []; dataAttributes := [];
     inlineStylesCount := 0; cssVariables := []; htmlHints := [] |}.

(** only an [astro-island] element was found *)
Definition astro_only : DetectionData :=
  {| scripts := []; stylesheets := []; metas := []; globals := [];
     attributes := []; classNames := []; dataAttributes := [];
     inlineStylesCount := 0; cssVariables := [];
     htmlHints := [ "astro_island" ] |}.

(** a Tailwind page with Material UI classes and Radix attributes *)
Definition mixed_ui_page : DetectionData :=
  {| scripts := []; stylesheets := []; metas := []; globals := [];
     attributes := [];
     classNames :=
       [ "flex"; "grid"; "hidden"; "block"; "gap-2"; "rounded-md";
         "bg-white"; "text-sm"; "font-bold"; "p-4";
         "MuiButton-root"; "MuiBox-root"; "MuiGrid-item"; "MuiPaper-root";
         "MuiCard-root" ];
     dataAttributes := [ "data-state" ];
     inlineStylesCount := 0; cssVariables := []; htmlHints := [] |}.

End StackSummary.

(* ===================================================================== *)
(** ** analyzer.py: DOM outline *)
(* ===================================================================== *)

Module Outline.
Import Py.

(** An element of the page with what the outline script reads from it. *)
#[warnings="-register-all"]
Inductive DomNode :=
| Node (tagName : string) (id : string) (classList : list string)
       (role : option string) (children : list DomNode).

Definition node_tag (el : DomNode) : string :=
  match el with Node tagName _ _ _ _ => lower tagName end.

Definition node_id (el : DomNode) : string :=
  match el with Node _ id _ _ _ => id end.

Definition node_classes (el : DomNode) : list string :=
  match el with Node _ _ classList _ _ => classList end.

Definition node_role (el : DomNode) : option string :=
  match el with Node _ _ _ role _ => role end.

(** the double-quote character of [[role="..."]] *)
Definition dq : string := String (ascii_of_nat 34) EmptyString.

Definition significantTags : list string :=
  [ "header"; "nav"; "main"; "section"; "article"; "aside"; "footer";
    "div"; "form" ].

(** ['  '.repeat(depth)] *)
Fixpoint indent (depth : nat) : string :=
  match depth with
  | O => ""
  | S depth' => "  " ^^ indent depth'
  end.

(** the line written for an element at a depth *)
Definition line (depth : nat) (el : DomNode) : string :=
  let id := if truthy (node_id el) then "#" ^^ node_id el else "" in
  let classes :=
    if nonempty (node_classes el)
    then "." ^^ join "." (firstn 3 (node_classes el)) else "" in
  let role :=
    if truthy_opt (node_role el)
    then "[role=" ^^ dq ^^ opt_str (node_role el) ^^ dq ^^ "]" else "" in
  indent depth ^^ node_tag el ^^ id ^^ classes ^^ role ^^ nl.

(** the test under which a child is descended into *)
Definition shown (child : DomNode) : bool :=
  list_in (node_tag child) significantTags
  || truthy (node_id child)
  || nonempty (node_classes child).

(** [getStructure(element, depth)]; the inner loop is
    [for (const child of children) ... result += ...] *)
Fixpoint getStructure (maxDepth : Z) (depth : nat) (element : DomNode)
  {struct element} : string :=
  if Z.ltb maxDepth (Z.of_nat depth) then ""
  else
    match element with
    | Node _ _ _ _ children =>
        (fix loop (children : list DomNode) (result : string) : string :=
           match children with
           | [] => result
           | child :: rest =>
               loop rest
                 (if shown child
                  then result ^^ getStructure maxDepth (S depth) child
                  else result)
           end) children (line depth element)
    end.

(** [get_dom_structure(page, max_depth)], the page given by its [body] *)
Definition get_dom_structure (body : DomNode) (max_depth : Z) : string :=
  let structure := getStructure max_depth 0 body in
  if truthy structure then structure else "".

(** Declarative reading: the elements written, with their depth, in the
    order they are written. *)
Fixpoint outline (maxDepth : Z) (depth : nat) (element : DomNode)
  {struct element} : list (nat * DomNode) :=
  if Z.ltb maxDepth (Z.of_nat depth) then []
  else
    match element with
    | Node _ _ _ _ children =>
        (depth, element)
        :: flat_map
             (fun child =>
                if shown child then outline maxDepth (S depth) child else [])
             children
    end.

(** the text of a list of written elements *)
Definition render (written : list (nat * DomNode)) : string :=
  String.concat "" (map (fun w => line (fst w) (snd w)) written).

(** the number of elements of a tree *)
Fixpoint size (element : DomNode) : nat :=
  match element with
  | Node _ _ _ _ children => S (list_sum (map size children))
  end.

(** a body with a header holding a nav, and a bare [span] holding a
    section *)
Definition sample_body : DomNode :=
  Node "BODY" "" [] None
    [ Node "HEADER" "top" [ "a"; "b"; "c"; "d" ] (Some "banner")
        [ Node "NAV" "" [] None [] ];
      Node "SPAN" "" [] None
        [ Node "SECTION" "" [] None [] ] ].

End Outline.

(* ===================================================================== *)
(** ** analyzer.py: the recommendations, by their texts *)
(* ===================================================================== *)

Module Advice.
Import Py Models Query Fixes.

Definition nav_advice : string :=
  "Consider adding a proper <nav> element with role='navigation' for better accessibility".

Definition footer_advice : string :=
  "Consider adding a <footer> element for site information and links".

Definition media_advice : string :=
  "Add CSS media queries to handle different screen sizes".

Definition units_advice : string :=
  "Use relative units (rem, %, vw) instead of fixed pixels for better responsiveness".

Definition grid_advice : string :=
  "Consider using CSS Grid or Flexbox for complex layouts".

Definition spacing_advice : string :=
  "Use a consistent spacing system (e.g., 0.5rem, 1rem, 2rem)".

(** the keywords of the hint [responsive] *)
Definition responsive_keywords : list string :=
  [ "mobile"; "phone"; "tablet"; "responsive"; "screen size"; "shrink" ].

(** the keywords of the hint [layout] *)
Definition layout_keywords : list string :=
  [ "layout"; "grid"; "flex"; "row"; "column"; "side by side"; "stacked" ].

(** one of the keywords occurs in the query, whatever its case *)
Definition mentions (keywords : list string) (query : string) : bool :=
  existsb (fun keyword => str_in keyword (lower query)) keywords.

(** the recommendations of a query on a page *)
Definition recommendations_for (user_query : string)
  (elements : list UIElement) (issues : list UIIssue) : list string :=
  additional_recommendations
    (generate_fix_instructions_for_query "" user_query elements issues).

(** a page on which the classifier found a footer and no navbar *)
Definition footer_page : list UIElement :=
  [ {| el_element_type := "footer"; el_tag_name := "footer";
       el_selector := "footer"; el_text_content := None;
       el_aria_role := None; el_aria_label := None; el_classes := [];
       el_element_id := None; el_children_count := 0;
       el_is_visible := true |} ].

End Advice.

(* ===================================================================== *)
(** * Properties *)
(* ===================================================================== *)

(** ** The string primitives mean what their Python counterparts mean *)

Module PyFacts.
Import Py.

Lemma prefix_iff_append (p s : string) :
  String.prefix p s = true <-> exists rest, s = p ^^ rest.
Proof.
  revert s. induction p as [| a p IH]; intros s.
  - destruct s; simpl; split; eauto.
  - destruct s as [| b s]; simpl.
    + split; [discriminate | intros [rest H]; discriminate].
    + destruct (ascii_dec a b) as [-> | Hne].
      * rewrite IH. split; intros [rest H]; exists rest.
        -- now rewrite H.
        -- now injection H.
      * split; [discriminate |].
        intros [rest H]. injection H as H1 H2. now subst.
Qed.

(** [str_in needle hay] holds exactly when [needle] occurs in [hay]. *)
Lemma str_in_iff_occurs (needle hay : string) :
  str_in needle hay = true <->
  exists before after, hay = before ^^ needle ^^ after.
Proof.
  induction hay as [| c hay IH].
  - change (str_in needle "") with (String.prefix needle "" || false).
    rewrite orb_false_r, prefix_iff_append. split.
    + intros [rest H]. exists "", rest. exact H.
    + intros [before [after H]]. destruct before; simpl in H.
      * now exists after.
      * discriminate.
  - change (str_in needle (String c hay))
      with (String.prefix needle (String c hay) || str_in needle hay).
    rewrite orb_true_iff, IH, prefix_iff_append. split.
    + intros [[rest H] | [before [after H]]].
      * exists "", rest. exact H.
      * exists (String c before), after. simpl. now rewrite H.
    + intros [before [after H]]. destruct before as [| b before]; simpl in H.
      * left. now exists after.
      * right. injection H as _ H. now exists before, after.
Qed.

Lemma str_in_empty_hay (needle : string) :
  truthy needle = true -> str_in needle "" = false.
Proof. destruct needle; [discriminate | reflexivity]. Qed.

Lemma list_in_iff (x : string) (xs : list string) :
  list_in x xs = true <-> In x xs.
Proof.
  unfold list_in. rewrite existsb_exists. split.
  - intros [y [Hy He]]. apply String.eqb_eq in He. now subst.
  - intros H. exists x. split; [assumption | apply String.eqb_refl].
Qed.

Lemma dict_get_member {V} (d : list (string * V)) (k : string) (v : V) :
  dict_get d k = Some v -> In (k, v) d.
Proof.
  induction d as [| [k' v'] d IH]; simpl; [discriminate |].
  destruct (String.eqb k' k) eqn:E.
  - intros [= ->]. apply String.eqb_eq in E. subst. now left.
  - intros H. right. now apply IH.
Qed.

Lemma nonempty_false {A} (l : list A) : nonempty l = false <-> l = [].
Proof. destruct l; simpl; split; congruence. Qed.

End PyFacts.

(* ===================================================================== *)
(** ** Element classifier *)
(* ===================================================================== *)

Module ClassifierFacts.
Import Py PyFacts Models Classifier.

(** A keyword hit names a table entry whose keyword occurs in the string,
    and no earlier entry of the table has a keyword occurring in it. *)
Lemma keyword_scan_first table s t :
  keyword_scan table s = Some t <->
  exists earlier k later,
    table = earlier ++ (k, t) :: later
    /\ str_in k s = true
    /\ Forall (fun e => str_in (fst e) s = false) earlier.
Proof.
  split.
  - induction table as [| [k v] table IH]; simpl; [discriminate |].
    destruct (str_in k s) eqn:E.
    + intros [= ->]. exists [], k, table. repeat split; auto.
    + intros H. destruct (IH H) as (earlier & k' & later & -> & Hk & Hall).
      exists ((k, v) :: earlier), k', later. repeat split; auto.
  - intros (earlier & k & later & -> & Hk & Hall).
    induction Hall as [| [k' v'] earlier Hk' _ IH]; simpl.
    + now rewrite Hk.
    + simpl in Hk'. now rewrite Hk'.
Qed.

Lemma keyword_scan_none table s :
  keyword_scan table s = None <->
  Forall (fun e => str_in (fst e) s = false) table.
Proof.
  induction table as [| [k v] table IH]; simpl.
  - split; auto.
  - destruct (str_in k s) eqn:E.
    + split; [discriminate |]. intros H. inversion H; subst.
      simpl in *. congruence.
    + rewrite IH. split; [now constructor | intros H; now inversion H].
Qed.

Lemma keyword_scan_value table s t :
  keyword_scan table s = Some t -> In t (map snd table).
Proof.
  intros H. apply keyword_scan_first in H.
  destruct H as (e & k & l & -> & _).
  rewrite map_app, in_app_iff. right. now left.
Qed.

Lemma first_keyword_scan s t :
  first_keyword s t <-> keyword_scan class_keywords s = Some t.
Proof. unfold first_keyword. now rewrite keyword_scan_first. Qed.

Lemma no_keyword_scan s :
  no_keyword s <-> keyword_scan class_keywords s = None.
Proof. unfold no_keyword. now rewrite keyword_scan_none. Qed.

(** A class hit comes from the first class, in list order, holding any
    keyword. *)
Lemma class_scan_first cls t :
  class_scan cls = Some t <-> first_class cls t.
Proof.
  unfold first_class. split.
  - induction cls as [| c cls IH]; cbn [class_scan]; [discriminate |].
    destruct (keyword_scan class_keywords c) as [t' |] eqn:E.
    + intros [= ->]. exists [], c, cls.
      repeat split; auto. now apply first_keyword_scan.
    + intros H. destruct (IH H) as (before & c' & after & -> & Hc & Hall).
      exists (c :: before), c', after. repeat split; auto.
      constructor; [now apply no_keyword_scan | assumption].
  - intros (before & c & after & -> & Hc & Hall).
    apply first_keyword_scan in Hc.
    induction Hall as [| c' before Hc' _ IH]; cbn [class_scan app].
    + now rewrite Hc.
    + apply no_keyword_scan in Hc'. now rewrite Hc'.
Qed.

Lemma class_scan_none cls :
  class_scan cls = None <-> Forall no_keyword cls.
Proof.
  induction cls as [| c cls IH]; cbn [class_scan].
  - split; auto.
  - destruct (keyword_scan class_keywords c) as [t |] eqn:E.
    + split; [discriminate |]. intros H. inversion H; subst.
      apply no_keyword_scan in H2. congruence.
    + rewrite IH. split.
      * intros H. constructor; [now apply no_keyword_scan | assumption].
      * intros H. now inversion H.
Qed.

Lemma class_scan_value cls t :
  class_scan cls = Some t -> In t (map snd class_keywords).
Proof.
  intros H. apply class_scan_first in H.
  destruct H as (b & c & a & _ & Hc & _).
  apply first_keyword_scan in Hc. now apply keyword_scan_value in Hc.
Qed.

(** Looking up a key of a dictionary without repeated keys gives the value
    it is listed with. *)
Lemma dict_get_listed {V} (d : list (string * V)) k v :
  NoDup (map fst d) -> In (k, v) d -> dict_get d k = Some v.
Proof.
  induction d as [| [k' v'] d IH]; simpl; [contradiction |].
  intros Hnd [Heq | Hin].
  - injection Heq as -> ->. now rewrite String.eqb_refl.
  - inversion Hnd as [| ? ? Hnotin Hnd']; subst.
    destruct (String.eqb k' k) eqn:E.
    + apply String.eqb_eq in E. subst. exfalso. apply Hnotin.
      apply in_map_iff. now exists (k, v).
    + now apply IH.
Qed.

Lemma dict_get_not_key {V} (d : list (string * V)) k :
  ~ is_key d k -> dict_get d k = None.
Proof.
  intros H. destruct (dict_get d k) as [v |] eqn:E; [| reflexivity].
  exfalso. apply H. exists v. now apply dict_get_member.
Qed.

Lemma tag_type_map_keys : NoDup (map fst tag_type_map).
Proof.
  apply (NoDup_nodup string_dec (map fst tag_type_map)).
Qed.

Lemma role_type_map_keys : NoDup (map fst role_type_map).
Proof.
  apply (NoDup_nodup string_dec (map fst role_type_map)).
Qed.

Lemma dict_get_value (d : list (string * string)) k v :
  dict_get d k = Some v -> In v (map snd d).
Proof.
  intros H. apply dict_get_member in H.
  apply in_map_iff. now exists (k, v).
Qed.

Lemma table_values_in_range :
  forallb (fun t => list_in t classifier_range)
    (map snd tag_type_map ++ map snd role_type_map
     ++ map snd class_keywords ++ ["other"]) = true.
Proof. reflexivity. Qed.

Lemma value_in_range t :
  In t (map snd tag_type_map ++ map snd role_type_map
        ++ map snd class_keywords ++ ["other"]) ->
  In t classifier_range.
Proof.
  intros H. apply list_in_iff.
  pose proof table_values_in_range as Hall.
  rewrite forallb_forall in Hall. now apply Hall.
Qed.

Lemma classifier_range_literal t :
  In t classifier_range <-> In t ELEMENT_TYPES /\ t <> "menu".
Proof.
  unfold classifier_range. rewrite filter_In, negb_true_iff, String.eqb_neq.
  reflexivity.
Qed.

(** C1.  The signals are consulted in the order tag, ARIA role, class
    keywords, id keywords, and the first one that matches decides: a tag
    listed in the tag table fixes the type whatever the role, classes and id
    are; the role table is used only when the tag is not listed; the class
    keywords only when tag and role both miss; the id keywords only when the
    classes miss as well; otherwise the type is ["other"].  In particular an
    element with tag [nav] and a class [card] is a ["navbar"]. *)
Theorem detect_element_type_precedence (e : ElementData) :
  (forall t, In (norm_tag e, t) tag_type_map -> detect_element_type e = t)
  /\ (~ is_key tag_type_map (norm_tag e) ->
      forall t, In (norm_role e, t) role_type_map ->
                detect_element_type e = t)
  /\ (~ is_key tag_type_map (norm_tag e) ->
      ~ is_key role_type_map (norm_role e) ->
      forall t, first_class (norm_classes e) t ->
                detect_element_type e = t)
  /\ (~ is_key tag_type_map (norm_tag e) ->
      ~ is_key role_type_map (norm_role e) ->
      Forall no_keyword (norm_classes e) ->
      forall t, first_keyword (norm_id e) t ->
                detect_element_type e = t)
  /\ (~ is_key tag_type_map (norm_tag e) ->
      ~ is_key role_type_map (norm_role e) ->
      Forall no_keyword (norm_classes e) ->
      no_keyword (norm_id e) ->
      detect_element_type e = "other")
  /\ (tag_name e = "nav" -> In "card" (classes e) ->
      detect_element_type e = "navbar").
Proof.
  unfold detect_element_type.
  repeat split.
  - intros t Ht. apply (dict_get_listed _ _ _ tag_type_map_keys) in Ht.
    now rewrite Ht.
  - intros Htag t Hr. apply dict_get_not_key in Htag.
    apply (dict_get_listed _ _ _ role_type_map_keys) in Hr.
    now rewrite Htag, Hr.
  - intros Htag Hrole t Hc. apply dict_get_not_key in Htag, Hrole.
    apply class_scan_first in Hc. now rewrite Htag, Hrole, Hc.
  - intros Htag Hrole Hc t Hi. apply dict_get_not_key in Htag, Hrole.
    apply class_scan_none in Hc. apply first_keyword_scan in Hi.
    now rewrite Htag, Hrole, Hc, Hi.
  - intros Htag Hrole Hc Hi. apply dict_get_not_key in Htag, Hrole.
    apply class_scan_none in Hc. apply no_keyword_scan in Hi.
    now rewrite Htag, Hrole, Hc, Hi.
  - intros Htag _. unfold norm_tag. rewrite Htag. reflexivity.
Qed.

Lemma detect_element_type_precedence_witness :
  detect_element_type nav_card = "navbar".
Proof.
  apply (proj2 (proj2 (proj2 (proj2 (proj2
           (detect_element_type_precedence nav_card)))))).
  - reflexivity.
  - simpl. left. reflexivity.
Defined.

(** The same class list on a [div] is decided by the class stage. *)
Example div_card_is_card :
  detect_element_type
    {| tag_name := "div"; aria_role := None; classes := ["card"];
       element_id := None |} = "card".
Proof. reflexivity. Qed.

(** The tag is compared after lower-casing, the role table wins over the
    classes, the classes over the id. *)
Example role_beats_class :
  detect_element_type
    {| tag_name := "DIV"; aria_role := Some "Dialog"; classes := ["card"];
       element_id := Some "sidebar" |} = "modal".
Proof. reflexivity. Qed.

Example class_beats_id :
  detect_element_type
    {| tag_name := "div"; aria_role := Some "presentation";
       classes := ["main-footer"]; element_id := Some "sidebar" |} = "footer".
Proof. reflexivity. Qed.

(** C9.  The classifier returns a value for every element, and the value
    is a literal of [UIElement.element_type] (never ["menu"]).  A [div]
    whose role is not in the role table, with no class and no id,
    is ["other"]. *)
Theorem detect_element_type_total (e : ElementData) :
  In (detect_element_type e) ELEMENT_TYPES
  /\ detect_element_type e <> "menu"
  /\ (tag_name e = "div" ->
      dict_get role_type_map (norm_role e) = None ->
      classes e = [] ->
      (element_id e = None \/ element_id e = Some "") ->
      detect_element_type e = "other").
Proof.
  rewrite <- and_assoc, <- classifier_range_literal. split.
  - apply value_in_range. unfold detect_element_type.
    destruct (dict_get tag_type_map (norm_tag e)) as [t |] eqn:Et.
    { apply dict_get_value in Et. rewrite !in_app_iff. auto. }
    destruct (dict_get role_type_map (norm_role e)) as [t |] eqn:Er.
    { apply dict_get_value in Er. rewrite !in_app_iff. auto. }
    destruct (class_scan (norm_classes e)) as [t |] eqn:Ec.
    { apply class_scan_value in Ec. rewrite !in_app_iff. auto. }
    destruct (keyword_scan class_keywords (norm_id e)) as [t |] eqn:Ei.
    { apply keyword_scan_value in Ei. rewrite !in_app_iff. auto. }
    rewrite !in_app_iff. right. right. right. now left.
  - intros Htag Hrole Hcls Hid.
    assert (Ht : dict_get tag_type_map (norm_tag e) = None)
      by (unfold norm_tag; rewrite Htag; reflexivity).
    assert (Hc : class_scan (norm_classes e) = None)
      by (unfold norm_classes; rewrite Hcls; reflexivity).
    assert (Hi : keyword_scan class_keywords (norm_id e) = None)
      by (unfold norm_id; destruct Hid as [-> | ->]; reflexivity).
    unfold detect_element_type. rewrite Ht, Hrole, Hc, Hi. reflexivity.
Qed.

Lemma detect_element_type_total_witness :
  detect_element_type bare_div = "other".
Proof.
  apply (proj2 (proj2 (detect_element_type_total bare_div))).
  - reflexivity.
  - reflexivity.
  - reflexivity.
  - left. reflexivity.
Defined.

End ClassifierFacts.

(* ===================================================================== *)
(** ** Query interpreter *)
(* ===================================================================== *)

Module QueryFacts.
Import Py PyFacts Query.

Lemma list_in_app_last (x : string) (xs : list string) :
  list_in x (xs ++ [x]) = true.
Proof. apply list_in_iff, in_app_iff. right. now left. Qed.

Lemma append_if_absent_idem name acc :
  append_if_absent name (append_if_absent name acc)
  = append_if_absent name acc.
Proof.
  unfold append_if_absent.
  destruct (list_in name acc) eqn:E.
  - now rewrite E.
  - now rewrite list_in_app_last.
Qed.

Lemma append_if_absent_NoDup name acc :
  NoDup acc -> NoDup (append_if_absent name acc).
Proof.
  intros H. unfold append_if_absent.
  destruct (list_in name acc) eqn:E; [assumption |].
  apply NoDup_app; [assumption | repeat constructor; intros [] |].
  intros a Ha [<- | []].
  apply list_in_iff in Ha. congruence.
Qed.

(** The inner loop appends the entry's name once if one of its keywords
    occurs in the query, whatever the number of keywords that occur. *)
Lemma scan_keywords_closed q name kws acc :
  scan_keywords q name kws acc =
  if existsb (fun k => str_in k q) kws then append_if_absent name acc
  else acc.
Proof.
  unfold scan_keywords. revert acc.
  induction kws as [| k kws IH]; intros acc; simpl; [reflexivity |].
  rewrite IH. destruct (str_in k q); simpl.
  - destruct (existsb _ kws); [apply append_if_absent_idem | reflexivity].
  - reflexivity.
Qed.

Lemma scan_from_NoDup table q acc :
  NoDup acc ->
  NoDup (fold_left
           (fun acc entry => scan_keywords q (fst entry) (snd entry) acc)
           table acc).
Proof.
  revert acc. induction table as [| e table IH]; intros acc H; simpl.
  - assumption.
  - apply IH. rewrite scan_keywords_closed.
    destruct (existsb _ (snd e)); [now apply append_if_absent_NoDup | easy].
Qed.

Lemma scan_table_NoDup table q : NoDup (scan_table table q).
Proof. apply scan_from_NoDup. constructor. Qed.

Lemma scan_from_closed table q acc :
  NoDup (map fst table) ->
  (forall n, In n (map fst table) -> ~ In n acc) ->
  fold_left (fun acc entry => scan_keywords q (fst entry) (snd entry) acc)
    table acc
  = acc ++ map fst (filter (entry_matches q) table).
Proof.
  revert acc. induction table as [| e table IH]; intros acc Hnd Hfresh.
  - simpl. now rewrite app_nil_r.
  - cbn [fold_left filter map]. inversion Hnd as [| ? ? Hhead Hnd']; subst.
    rewrite scan_keywords_closed. unfold entry_matches at 1.
    destruct (existsb _ (snd e)) eqn:E.
    + unfold append_if_absent.
      assert (Hnew : list_in (fst e) acc = false).
      { destruct (list_in (fst e) acc) eqn:Hin; [| reflexivity].
        apply list_in_iff in Hin. exfalso.
        apply (Hfresh (fst e)); [now left | assumption]. }
      rewrite Hnew, IH; [| assumption |].
      * cbn [map]. now rewrite <- app_assoc.
      * intros n Hn Hin. apply in_app_iff in Hin as [Hin | [<- | []]].
        -- apply (Hfresh n); [now right | assumption].
        -- contradiction.
    + apply IH; [assumption |].
      intros n Hn. apply Hfresh. now right.
Qed.

(** With distinct names in the table, the result lists, in table order,
    the names of the entries matched by the query. *)
Lemma scan_table_closed table q :
  NoDup (map fst table) ->
  scan_table table q = map fst (filter (entry_matches q) table).
Proof.
  intros H. unfold scan_table. now rewrite scan_from_closed.
Qed.

Lemma QUERY_KEYWORDS_names : NoDup (map fst QUERY_KEYWORDS).
Proof. apply (NoDup_nodup string_dec (map fst QUERY_KEYWORDS)). Qed.

Lemma issue_keywords_names : NoDup (map fst issue_keywords).
Proof. apply (NoDup_nodup string_dec (map fst issue_keywords)). Qed.

(** C7.  Neither list returned by the query interpreter holds a value
    twice.  Each list is the names of the table entries one of whose
    keywords occurs in the lower-cased query, in table order: how often and
    where a keyword occurs has no effect.  The query
    ["navbar navbar navbar"] gives [element_types = ["navbar"]]. *)
Theorem interpret_user_query_no_duplicates (query : string) :
  NoDup (element_types (interpret_user_query query))
  /\ NoDup (issue_hints (interpret_user_query query))
  /\ element_types (interpret_user_query query)
     = map fst (filter (entry_matches (lower query)) QUERY_KEYWORDS)
  /\ issue_hints (interpret_user_query query)
     = map fst (filter (entry_matches (lower query)) issue_keywords)
  /\ element_types (interpret_user_query "navbar navbar navbar")
     = ["navbar"].
Proof.
  cbn [interpret_user_query element_types issue_hints].
  repeat split.
  - apply scan_table_NoDup.
  - apply scan_table_NoDup.
  - apply scan_table_closed, QUERY_KEYWORDS_names.
  - apply scan_table_closed, issue_keywords_names.
Qed.

Example navbar_is_broken :
  element_types (interpret_user_query "the navbar is broken") = ["navbar"]
  /\ issue_hints (interpret_user_query "the navbar is broken") = ["broken"].
Proof. split; reflexivity. Qed.

Example buttons_not_aligned :
  element_types (interpret_user_query "Buttons are not aligned")
  = ["button"]
  /\ issue_hints (interpret_user_query "Buttons are not aligned")
     = ["alignment"].
Proof. split; reflexivity. Qed.

End QueryFacts.

(* ===================================================================== *)
(** ** Issue detector *)
(* ===================================================================== *)

Module IssuesFacts.
Import Py PyFacts Models Issues.

Lemma Forall_firstn_of {A} (P : A -> Prop) n (l : list A) :
  Forall P l -> Forall P (firstn n l).
Proof.
  intros H. revert n. induction H; intros [| n]; simpl; auto.
Qed.

(** *** When the script throws *)

(** The selector expression throws exactly on an element without id whose
    class name is an object. *)
Lemma js_selector_throws (el : DomElement) (fallback : string) :
  js_selector el fallback = None <-> selector_throws el = true.
Proof.
  unfold js_selector, selector_throws.
  destruct (truthy (dom_id el)); cbn [negb andb].
  - split; discriminate.
  - destruct (dom_className el) as [className |].
    + destruct (truthy className); split; discriminate.
    + split; reflexivity.
Qed.

Lemma js_selector_selectable (el : DomElement) (fallback : string) :
  selectable el -> exists selector, js_selector el fallback = Some selector.
Proof.
  intros H. destruct (js_selector el fallback) as [selector |] eqn:E.
  - now exists selector.
  - apply js_selector_throws in E. unfold selectable in H. congruence.
Qed.

(** the four loop bodies *)
Ltac body_cases el :=
  unfold check_overflow_and_zindex, check_empty_container, check_image,
    check_interactive;
  repeat match goal with
         | |- context [if ?c then _ else _] =>
             lazymatch c with
             | andb _ _ => destruct c
             | Z.ltb _ _ => destruct c
             end
         | |- context [match style_zIndex el with _ => _ end] =>
             destruct (style_zIndex el)
         end.

Lemma check_overflow_and_zindex_pushes w : pushes (check_overflow_and_zindex w).
Proof.
  intros el issues. body_cases el;
    destruct (js_selector el (dom_tag el)); cbn [js_bind option_map app];
    rewrite <- ?app_assoc, ?app_nil_r; reflexivity.
Qed.

Lemma check_empty_container_pushes : pushes check_empty_container.
Proof.
  intros el issues. body_cases el;
    destruct (js_selector el (dom_tag el)); cbn [js_bind option_map app];
    rewrite ?app_nil_r; reflexivity.
Qed.

Lemma check_image_pushes : pushes check_image.
Proof.
  intros el issues. body_cases el;
    destruct (js_selector el "img"); cbn [js_bind option_map app];
    rewrite ?app_nil_r; reflexivity.
Qed.

Lemma check_interactive_pushes : pushes check_interactive.
Proof.
  intros el issues. body_cases el;
    destruct (js_selector el (dom_tag el)); cbn [js_bind option_map app];
    rewrite ?app_nil_r; reflexivity.
Qed.

(** A loop over a body that only pushes throws when the body throws on
    one of the elements, and otherwise pushes what the body pushes for
    each element, in order. *)
Lemma for_each_closed body (els : list DomElement) :
  pushes body ->
  forall issues,
    for_each body els issues
    = if existsb (throws body) els then None
      else Some (issues ++ flat_map (findings body) els).
Proof.
  intros Hbody. induction els as [| el rest IH]; intros issues.
  - cbn [for_each existsb flat_map]. now rewrite app_nil_r.
  - cbn [for_each existsb flat_map]. rewrite (Hbody el issues).
    unfold throws at 1, findings at 1.
    destruct (body el []) as [found |]; cbn [option_map js_bind orb].
    + rewrite IH. now rewrite <- app_assoc.
    + reflexivity.
Qed.

(** The script throws when one of its loop bodies does; otherwise it
    returns the first 20 of the collected objects. *)
Lemma page_script_closed (p : Page) :
  page_script p
  = if script_throws p then None else Some (firstn 20 (collected p)).
Proof.
  unfold page_script, script_throws, collected.
  rewrite (for_each_closed _ _ (check_overflow_and_zindex_pushes _)).
  destruct (existsb _ (dom p)); cbn [js_bind orb app]; [reflexivity |].
  rewrite (for_each_closed _ _ check_empty_container_pushes).
  destruct (existsb _ (query_tags _ p)); cbn [js_bind orb]; [reflexivity |].
  rewrite (for_each_closed _ _ check_image_pushes).
  destruct (existsb _ (query_tags _ p)); cbn [js_bind orb]; [reflexivity |].
  rewrite (for_each_closed _ _ check_interactive_pushes).
  destruct (existsb _ (query_tags _ p)); cbn [js_bind orb]; [reflexivity |].
  now rewrite <- !app_assoc.
Qed.

(** No loop body throws on an element that has an id or a string for
    class name. *)
Lemma selectable_no_throw (el : DomElement) :
  selectable el ->
  (forall w, throws (check_overflow_and_zindex w) el = false)
  /\ throws check_empty_container el = false
  /\ throws check_image el = false
  /\ throws check_interactive el = false.
Proof.
  intros H.
  destruct (js_selector_selectable el (dom_tag el) H) as [s Hs].
  destruct (js_selector_selectable el "img" H) as [s' Hs'].
  unfold throws. repeat split; try intros w; body_cases el;
    rewrite ?Hs, ?Hs'; reflexivity.
Qed.

Lemma existsb_none {A} (f : A -> bool) (l : list A) :
  Forall (fun x => f x = false) l -> existsb f l = false.
Proof.
  induction 1 as [| x l Hx _ IH]; cbn [existsb]; [reflexivity |].
  now rewrite Hx, IH.
Qed.

Lemma Forall_query_tags (P : DomElement -> Prop) tags (p : Page) :
  Forall P (dom p) -> Forall P (query_tags tags p).
Proof.
  unfold query_tags. rewrite !Forall_forall. intros H el Hin.
  apply filter_In in Hin. now apply H.
Qed.

(** The script does not throw on a page whose elements all have an id or
    a string for class name. *)
Lemma selectable_page (p : Page) :
  Forall selectable (dom p) -> script_throws p = false.
Proof.
  intros H. unfold script_throws.
  rewrite !existsb_none; [reflexivity | | | |].
  - apply Forall_query_tags. eapply Forall_impl; [| exact H].
    intros el Hel. apply (selectable_no_throw el Hel).
  - apply Forall_query_tags. eapply Forall_impl; [| exact H].
    intros el Hel. apply (selectable_no_throw el Hel).
  - apply Forall_query_tags. eapply Forall_impl; [| exact H].
    intros el Hel. apply (selectable_no_throw el Hel).
  - eapply Forall_impl; [| exact H].
    intros el Hel. apply (selectable_no_throw el Hel).
Qed.

(** *** What the script returns *)

Lemma Forall_findings (P : IssueData -> Prop) body :
  (forall el found, body el [] = Some found -> Forall P found) ->
  forall els, Forall P (flat_map (findings body) els).
Proof.
  intros H els. apply Forall_flat_map, Forall_forall. intros el _.
  unfold findings. destruct (body el []) as [found |] eqn:E.
  - now apply (H el).
  - constructor.
Qed.

(** a property of each object a loop body can push holds of what the
    bodies push *)
Ltac pushed_objects el H :=
  revert H; body_cases el;
  repeat match goal with
         | |- context [js_selector el ?fallback] =>
             destruct (js_selector el fallback)
         end;
  cbn [js_bind app]; intros H; try discriminate H;
  injection H as <-; repeat first [apply Forall_nil | apply Forall_cons].

(** Every object the script collects carries one of four [type]
    strings. *)
Lemma collected_types (p : Page) :
  Forall (fun i => In (id_type i) script_types) (collected p).
Proof.
  unfold collected. rewrite !Forall_app. repeat split;
    apply Forall_findings; intros el found H; pushed_objects el H;
    cbn [id_type script_types]; simpl; auto 6.
Qed.

(** Every object the script returns carries one of four [type] strings. *)
Lemma page_script_types (p : Page) (detected : list IssueData) :
  page_script p = Some detected ->
  Forall (fun i => In (id_type i) script_types) detected.
Proof.
  rewrite page_script_closed. destruct (script_throws p); [discriminate |].
  intros H. assert (detected = firstn 20 (collected p)) by congruence.
  subst detected. apply Forall_firstn_of, collected_types.
Qed.

(** Each of the four strings is a member of the [issue_type] literal, so
    the model constructor accepts it. *)
Lemma make_issue_accepts (d : IssueData) :
  In (id_type d) script_types ->
  exists i, make_issue d = Some i /\ severity i = SevWarning.
Proof.
  unfold make_issue. intros H. simpl in H.
  destruct H as [H | [H | [H | [H | []]]]]; rewrite <- H; simpl;
    eexists; split; reflexivity.
Qed.

Lemma build_issues_returns (ds : list IssueData) (acc : list UIIssue) :
  Forall (fun i => In (id_type i) script_types) ds ->
  exists out,
    build_issues ds acc = Some (acc ++ out)
    /\ length out = length ds
    /\ Forall (fun i => severity i = SevWarning) out.
Proof.
  intros H. revert acc. induction H as [| d ds Hd _ IH]; intros acc.
  - exists []. simpl. rewrite app_nil_r. auto.
  - destruct (make_issue_accepts d Hd) as (i & Hi & Hsev).
    destruct (IH (acc ++ [i])) as (out & Hout & Hlen & Hall).
    exists (i :: out). cbn [build_issues]. rewrite Hi, Hout.
    rewrite <- app_assoc. simpl. repeat split; auto.
Qed.

(** When the script returns, the detector returns, and what it returns
    has the length of the script's answer and only warnings.  When the
    script throws, the detector raises. *)
Lemma detect_ui_issues_returns (page : Page) (elements : list UIElement) :
  if script_throws page
  then detect_ui_issues page elements = None
  else exists issues,
         detect_ui_issues page elements = Some issues
         /\ length issues = length (firstn 20 (collected page))
         /\ Forall (fun i => severity i = SevWarning) issues.
Proof.
  unfold detect_ui_issues.
  pose proof (page_script_types page) as Htypes.
  rewrite page_script_closed in *.
  destruct (script_throws page); [reflexivity |].
  destruct (build_issues_returns _ [] (Htypes _ eq_refl))
    as (out & Hout & Hlen & Hall).
  exists out. auto.
Qed.

(** C8.  Every list the issue detector returns has at most 20 issues,
    however many elements of the page violate a detection rule.  It
    returns on every page whose elements all have an id or a string for
    class name; it raises, and returns nothing, exactly when the in-page
    script throws. *)
Theorem detect_ui_issues_cap (page : Page) (elements : list UIElement) :
  (forall issues,
      detect_ui_issues page elements = Some issues -> length issues <= 20)
  /\ (Forall selectable (dom page) ->
      exists issues,
        detect_ui_issues page elements = Some issues
        /\ length issues <= 20)
  /\ (detect_ui_issues page elements = None <-> script_throws page = true).
Proof.
  pose proof (detect_ui_issues_returns page elements) as H.
  assert (Hcap : forall issues,
             detect_ui_issues page elements = Some issues ->
             length issues <= 20).
  { intros issues Hret. destruct (script_throws page); [congruence |].
    destruct H as (issues' & H & Hlen & _).
    assert (issues' = issues) by congruence. subst issues'.
    rewrite Hlen. apply firstn_le_length. }
  split; [exact Hcap |]. split.
  - intros Hdom. rewrite (selectable_page page Hdom) in H.
    destruct H as (issues & H & _). exists issues.
    split; [exact H | now apply Hcap].
  - destruct (script_throws page).
    + split; [reflexivity | intros _; exact H].
    + destruct H as (issues & H & _). split; [congruence | discriminate].
Qed.

Lemma detect_ui_issues_cap_witness :
  length [bare_img_issue] <= 20
  /\ exists issues,
       detect_ui_issues (gallery 25) [] = Some issues
       /\ length issues <= 20.
Proof.
  split.
  - apply (proj1 (detect_ui_issues_cap (gallery 1) []) [bare_img_issue]).
    vm_compute. reflexivity.
  - apply (proj1 (proj2 (detect_ui_issues_cap (gallery 25) []))).
    unfold gallery, dom. simpl repeat. repeat constructor.
Defined.

(** The cap is reached: 25 images without a text alternative give 20
    issues. *)
Example gallery_25_gives_20 :
  option_map (@length UIIssue) (detect_ui_issues (gallery 25) []) = Some 20.
Proof. vm_compute. reflexivity. Qed.

(** A link drawn inside an [<svg>] has no id, no text and an object for
    class name: the script throws on it and the detector raises, also when
    the link comes after 25 images that alone fill the cap. *)
Example svg_link_raises :
  detect_ui_issues svg_link_page [] = None
  /\ detect_ui_issues gallery_with_svg_link [] = None.
Proof. vm_compute. split; reflexivity. Qed.

(** C10.  Every issue of every list the detector returns has severity
    [warning], never [error] or [info]; and the detector returns on every
    page whose elements all have an id or a string for class name. *)
Theorem detect_ui_issues_all_warnings (page : Page)
  (elements : list UIElement) :
  (forall issues,
      detect_ui_issues page elements = Some issues ->
      Forall (fun i => severity i = SevWarning) issues
      /\ Forall (fun i => severity i <> SevError /\ severity i <> SevInfo)
           issues)
  /\ (Forall selectable (dom page) ->
      exists issues,
        detect_ui_issues page elements = Some issues
        /\ Forall (fun i => severity i = SevWarning) issues).
Proof.
  pose proof (detect_ui_issues_returns page elements) as H.
  assert (Hall : forall issues,
             detect_ui_issues page elements = Some issues ->
             Forall (fun i => severity i = SevWarning) issues).
  { intros issues Hret. destruct (script_throws page); [congruence |].
    destruct H as (issues' & H & _ & Hall).
    assert (issues' = issues) by congruence. now subst issues'. }
  split.
  - intros issues Hret. split; [now apply Hall |].
    eapply Forall_impl; [| exact (Hall _ Hret)].
    intros i Hi. rewrite Hi. split; discriminate.
  - intros Hdom. rewrite (selectable_page page Hdom) in H.
    destruct H as (issues & H & _). exists issues.
    split; [exact H | now apply Hall].
Qed.

Lemma detect_ui_issues_all_warnings_witness :
  Forall (fun i => severity i = SevWarning) [bare_img_issue]
  /\ exists issues,
       detect_ui_issues (gallery 2) [] = Some issues
       /\ Forall (fun i => severity i = SevWarning) issues.
Proof.
  split.
  - apply (proj1 (detect_ui_issues_all_warnings (gallery 1) [])
             [bare_img_issue]).
    vm_compute. reflexivity.
  - apply (proj2 (detect_ui_issues_all_warnings (gallery 2) [])).
    unfold gallery, dom. simpl repeat. repeat constructor.
Defined.

End IssuesFacts.

(* ===================================================================== *)
(** ** Fix synthesizer *)
(* ===================================================================== *)

Module FixesFacts.
Import Py PyFacts Models Query Fixes.

Lemma number_from_app start ms1 ms2 :
  number_from start (ms1 ++ ms2)
  = number_from start ms1 ++ number_from (start + length ms1) ms2.
Proof.
  revert start. induction ms1 as [| m ms1 IH]; intros start; simpl.
  - now rewrite Nat.add_0_r.
  - rewrite IH. now rewrite Nat.add_succ_r.
Qed.

Lemma length_number_from start ms :
  length (number_from start ms) = length ms.
Proof.
  revert start. induction ms as [| m ms IH]; intros start; simpl; auto.
Qed.

Lemma number_from_priorities start ms :
  Forall keeps_priority ms ->
  map priority (number_from start ms) = seq start (length ms).
Proof.
  intros H. revert start.
  induction H as [| m ms Hm _ IH]; intros start; simpl.
  - reflexivity.
  - now rewrite Hm, IH.
Qed.

Lemma issue_makers_keep tt issues :
  Forall keeps_priority (issue_makers tt issues).
Proof.
  unfold issue_makers. apply Forall_map, Forall_forall.
  intros issue _ p. reflexivity.
Qed.

Lemma hint_makers_keep affected hint :
  Forall keeps_priority (hint_makers affected hint).
Proof.
  unfold hint_makers.
  repeat (destruct (_ && _)); try apply Forall_nil;
    apply Forall_map, Forall_forall; intros el _ p; reflexivity.
Qed.

Lemma all_hint_makers_keep affected hints :
  Forall keeps_priority (flat_map (hint_makers affected) hints).
Proof.
  apply Forall_flat_map, Forall_forall. intros hint _.
  apply hint_makers_keep.
Qed.

(** The inner loops of the second phase. *)
Lemma append_fixes_closed mk els a :
  append_fixes mk els a =
  {| acc_fixes := acc_fixes a ++ number_from (acc_priority a) (map mk els);
     acc_css := acc_css a;
     acc_priority := acc_priority a + length els |}.
Proof.
  unfold append_fixes. revert a.
  induction els as [| el els IH]; intros a; simpl.
  - rewrite app_nil_r, Nat.add_0_r. now destruct a.
  - rewrite IH. simpl. rewrite <- app_assoc. simpl.
    now rewrite Nat.add_1_r, Nat.add_succ_r.
Qed.

Lemma hint_step_closed affected a hint :
  acc_fixes (hint_step affected a hint)
  = acc_fixes a ++ number_from (acc_priority a) (hint_makers affected hint)
  /\ acc_priority (hint_step affected a hint)
     = acc_priority a + length (hint_makers affected hint).
Proof.
  unfold hint_step, hint_makers.
  repeat (destruct (_ && _)); rewrite ?append_fixes_closed; simpl;
    rewrite ?length_map, ?app_nil_r, ?Nat.add_0_r; auto.
Qed.

Lemma hint_loop_closed affected hints a :
  acc_fixes (fold_left (hint_step affected) hints a)
  = acc_fixes a
    ++ number_from (acc_priority a) (flat_map (hint_makers affected) hints).
Proof.
  revert a. induction hints as [| h hints IH]; intros a; simpl.
  - now rewrite app_nil_r.
  - rewrite IH. destruct (hint_step_closed affected a h) as [-> ->].
    now rewrite number_from_app, app_assoc.
Qed.

Lemma issue_loop_closed tt issues a :
  acc_fixes (fold_left (issue_step tt) issues a)
  = acc_fixes a ++ number_from (acc_priority a) (issue_makers tt issues)
  /\ acc_priority (fold_left (issue_step tt) issues a)
     = acc_priority a + length (issue_makers tt issues).
Proof.
  unfold issue_makers. revert a.
  induction issues as [| i issues IH]; intros a; simpl.
  - now rewrite app_nil_r, Nat.add_0_r.
  - destruct (IH (issue_step tt a i)) as [-> ->].
    unfold issue_step. destruct (issue_selected tt i); simpl.
    + rewrite <- app_assoc. simpl.
      now rewrite Nat.add_1_r, Nat.add_succ_r.
    + auto.
Qed.

(** The instruction list of the result: the issue-derived instructions
    followed by the hint-derived ones, numbered from 1. *)
Lemma fix_instructions_closed url q elements issues :
  let info := interpret_user_query q in
  let tt := Query.element_types info in
  fix_instructions (generate_fix_instructions_for_query url q elements issues)
  = number_from 1
      (issue_makers tt issues
       ++ flat_map (hint_makers (select_affected tt elements))
            (Query.issue_hints info)).
Proof.
  intros info tt.
  cbn [generate_fix_instructions_for_query fix_instructions].
  unfold run_loops. fold info. fold tt.
  rewrite hint_loop_closed.
  destruct (issue_loop_closed tt issues
              {| acc_fixes := []; acc_css := []; acc_priority := 1 |})
    as [-> ->].
  simpl. now rewrite number_from_app.
Qed.

Lemma issue_selected_iff tt issue :
  issue_selected tt issue = true <->
  tt = [] \/
  exists t, In t tt /\
    exists before after, element_type issue = before ^^ t ^^ after.
Proof.
  unfold issue_selected.
  rewrite orb_true_iff, negb_true_iff, nonempty_false, existsb_exists.
  split; intros [H | [t [Hin Hsub]]]; auto; right; exists t; split; auto;
    now apply str_in_iff_occurs.
Qed.

Lemma issue_action_by_kind issue :
  issue_action issue =
  match issue_type issue with
  | accessibility_missing => modify_html
  | empty_container => remove_html
  | _ => modify_css
  end.
Proof. unfold issue_action. destruct (issue_type issue); reflexivity. Qed.

(** C2, as the code has it.  The instructions derived from the issues are,
    in the order of the issue list, one per issue that is selected (the
    loop body appends exactly one instruction for a selected issue), where
    an issue is selected when no element type was interpreted from the
    query or one of the interpreted types occurs as a substring of the
    issue's element type (equality is not required).  An unselected issue
    gives no instruction.  The action is [modify_html] for
    [accessibility_missing], [remove_html] for [empty_container] and
    [modify_css] for every other kind, those absent from the table
    included. *)
Theorem issue_fixes_one_per_selected_issue (url q : string)
  (elements : list UIElement) (issues : list UIIssue) :
  let tt := Query.element_types (interpret_user_query q) in
  let selected := filter (issue_selected tt) issues in
  firstn (length selected)
    (fix_instructions
       (generate_fix_instructions_for_query url q elements issues))
  = number_from 1 (map create_fix_instruction selected)
  /\ (forall a issue,
        length (acc_fixes (issue_step tt a issue))
        = length (acc_fixes a) + (if issue_selected tt issue then 1 else 0))
  /\ (forall issue,
        issue_selected tt issue = true <->
        tt = [] \/
        exists t, In t tt /\
          exists before after, element_type issue = before ^^ t ^^ after)
  /\ (forall issue p,
        action (create_fix_instruction issue p) =
        match issue_type issue with
        | accessibility_missing => modify_html
        | empty_container => remove_html
        | _ => modify_css
        end)
  /\ (forall k, dict_get action_map (issue_kind_name k) = None ->
        forall issue p, issue_type issue = k ->
        action (create_fix_instruction issue p) = modify_css).
Proof.
  intros tt selected. repeat split.
  - rewrite fix_instructions_closed. fold tt.
    rewrite number_from_app.
    replace (length selected)
      with (length (number_from 1 (issue_makers tt issues)) + 0)
      by (rewrite length_number_from, Nat.add_0_r; unfold issue_makers;
          now rewrite length_map).
    rewrite firstn_app_2. simpl. now rewrite app_nil_r.
  - intros a issue. unfold issue_step.
    destruct (issue_selected tt issue); simpl.
    + now rewrite length_app.
    + now rewrite Nat.add_0_r.
  - apply issue_selected_iff.
  - apply issue_selected_iff.
  - intros issue p. apply issue_action_by_kind.
  - intros k Hk issue p Hi. simpl. unfold issue_action.
    now rewrite Hi, Hk.
Qed.

Lemma issue_fixes_one_per_selected_issue_witness :
  action (create_fix_instruction low_contrast_issue 1) = modify_css.
Proof.
  apply (proj2 (proj2 (proj2 (proj2
           (issue_fixes_one_per_selected_issue "" "header" []
              [low_contrast_issue])))) contrast_low).
  - reflexivity.
  - reflexivity.
Defined.

(** C2 as stated fails.  The detector reports the overflowing
    [<app-header>] with element type ["app-header"]; the query ["header"]
    is interpreted as the single type ["header"]; the issue's element type
    equals no interpreted type, yet one instruction is synthesized for
    it. *)
Lemma issue_selection_is_not_equality :
  Issues.detect_ui_issues wide_header_page [] = Some [wide_header_issue]
  /\ Query.element_types (interpret_user_query "header") = ["header"]
  /\ selected_by_equality ["header"] wide_header_issue = false
  /\ length (filter (selected_by_equality ["header"]) [wide_header_issue])
     = 0
  /\ map selector
       (fix_instructions
          (generate_fix_instructions_for_query "" "header" []
             [wide_header_issue]))
     = ["app-header"].
Proof. repeat split; vm_compute; reflexivity. Qed.

(** C6.  The priorities of the returned instructions are 1, 2, ..., n in
    list order.  The list is the issue-derived instructions, in the order
    of the issue list, followed by the hint-derived ones, in the order of
    the hints and, within a hint, of the affected elements. *)
Theorem fix_priorities_gapless_issues_first (url q : string)
  (elements : list UIElement) (issues : list UIIssue) :
  let info := interpret_user_query q in
  let tt := Query.element_types info in
  let r := generate_fix_instructions_for_query url q elements issues in
  let from_issues := number_from 1 (issue_makers tt issues) in
  let from_hints :=
    number_from (1 + length from_issues)
      (flat_map (hint_makers (affected_elements r)) (Query.issue_hints info)) in
  map priority (fix_instructions r) = seq 1 (length (fix_instructions r))
  /\ fix_instructions r = from_issues ++ from_hints.
Proof.
  intros info tt r from_issues from_hints.
  unfold r at 1 2 3. rewrite fix_instructions_closed. fold info. fold tt.
  split.
  - rewrite length_number_from. apply number_from_priorities.
    apply Forall_app. split.
    + apply issue_makers_keep.
    + apply all_hint_makers_keep.
  - rewrite number_from_app. unfold from_hints, from_issues.
    now rewrite length_number_from.
Qed.

(** A run with both kinds of instruction: the z-index issue on the button
    comes first, then the three-property spacing template on each of the
    two buttons; the issue on the image is not selected. *)
Example button_spacing_run :
  let r := generate_fix_instructions_for_query "" "Button spacing"
             sample_elements sample_issues in
  map (fun f => (priority f, selector f, target_description f))
    (fix_instructions r)
  = [ (1, "#buy", "Fix z_index_conflict on button");
      (2, "#buy", "Adjust spacing on button");
      (3, "a.btn", "Adjust spacing on button") ]
  /\ summary r = "Found 3 fixes to apply. Affects 2 elements".
Proof. vm_compute. split; reflexivity. Qed.

End FixesFacts.

(* ===================================================================== *)
(** ** Technology-stack fingerprinter *)
(* ===================================================================== *)

Module TechStackFacts.
Import Py PyFacts TechStack.

(** *** One step at a time: flags *)

(** unfold a check, split on whether it fires, then on the flag read *)
Ltac flag_step chk :=
  unfold chk, get;
  match goal with
  | |- context [if ?c then _ else _] => destruct c
  end;
  match goal with
  | f : Flag |- _ => destruct f; reflexivity
  end.

Lemma get_check_react f d s :
  get f (check_react d s)
  = (Flag_beq f has_react && react_detected d) || get f s.
Proof. flag_step check_react. Qed.

Lemma get_check_vue f d s :
  get f (check_vue d s) = (Flag_beq f has_vue && vue_detected d) || get f s.
Proof. flag_step check_vue. Qed.

Lemma get_check_angular f d s :
  get f (check_angular d s)
  = (Flag_beq f has_angular && angular_detected d) || get f s.
Proof. flag_step check_angular. Qed.

Lemma get_check_svelte f d s :
  get f (check_svelte d s)
  = (Flag_beq f has_svelte && svelte_detected d) || get f s.
Proof. flag_step check_svelte. Qed.

Lemma get_check_nextjs f d s :
  get f (check_nextjs d s)
  = ((Flag_beq f has_nextjs || Flag_beq f has_react) && nextjs_detected d)
    || get f s.
Proof. flag_step check_nextjs. Qed.

Lemma get_check_nuxt f d s :
  get f (check_nuxt d s)
  = ((Flag_beq f has_nuxt || Flag_beq f has_vue) && nuxt_detected d)
    || get f s.
Proof. flag_step check_nuxt. Qed.

Lemma get_check_remix f d s :
  get f (check_remix d s)
  = ((Flag_beq f has_remix || Flag_beq f has_react) && remix_detected d)
    || get f s.
Proof. flag_step check_remix. Qed.

Lemma get_check_astro f d s :
  get f (check_astro d s)
  = (Flag_beq f has_astro && astro_detected d) || get f s.
Proof. flag_step check_astro. Qed.

Lemma get_check_gatsby f d s :
  get f (check_gatsby d s)
  = ((Flag_beq f has_gatsby || Flag_beq f has_react) && gatsby_detected d)
    || get f s.
Proof. flag_step check_gatsby. Qed.

Lemma get_check_vite f d s :
  get f (check_vite d s)
  = (Flag_beq f has_vite && vite_detected d) || get f s.
Proof. flag_step check_vite. Qed.

Lemma get_check_jquery f d s :
  get f (check_jquery d s)
  = (Flag_beq f has_jquery && jquery_detected d) || get f s.
Proof. flag_step check_jquery. Qed.

Lemma get_check_tailwind f d s :
  get f (check_tailwind d s)
  = (Flag_beq f has_tailwind && tailwind_detected d) || get f s.
Proof. flag_step check_tailwind. Qed.

Lemma get_check_bootstrap f d s :
  get f (check_bootstrap d s)
  = (Flag_beq f has_bootstrap && bootstrap_detected d) || get f s.
Proof. flag_step check_bootstrap. Qed.

Lemma get_check_material_ui f d s :
  get f (check_material_ui d s)
  = (Flag_beq f has_material_ui && material_ui_detected d) || get f s.
Proof. flag_step check_material_ui. Qed.

Lemma get_check_chakra_ui f d s :
  get f (check_chakra_ui d s)
  = (Flag_beq f has_chakra_ui && chakra_ui_detected d) || get f s.
Proof. flag_step check_chakra_ui. Qed.

Lemma get_check_shadcn f d s :
  get f (check_shadcn d s)
  = (Flag_beq f has_shadcn
     && (nonempty (radix_attrs d) && get has_tailwind s))
    || get f s.
Proof. flag_step check_shadcn. Qed.

Lemma get_check_ant_design f d s :
  get f (check_ant_design d s)
  = (Flag_beq f has_ant_design && ant_design_detected d) || get f s.
Proof. flag_step check_ant_design. Qed.

Lemma get_check_bulma f d s :
  get f (check_bulma d s)
  = (Flag_beq f has_bulma && bulma_detected d) || get f s.
Proof. flag_step check_bulma. Qed.

Lemma get_check_foundation f d s :
  get f (check_foundation d s)
  = (Flag_beq f has_foundation && foundation_detected d) || get f s.
Proof. flag_step check_foundation. Qed.

Lemma get_check_css_variables f d s :
  get f (check_css_variables d s)
  = (Flag_beq f uses_css_variables && Nat.ltb 5 (length (cssVariables d)))
    || get f s.
Proof. flag_step check_css_variables. Qed.

Lemma get_check_vanilla_js f d s :
  get f (check_vanilla_js d s)
  = (Flag_beq f has_vanilla_js
     && negb (get has_react s || get has_vue s || get has_angular s
              || get has_svelte s || get has_jquery s))
    || get f s.
Proof. flag_step check_vanilla_js. Qed.

Lemma get_resolve_css_approach f d s :
  get f (resolve_css_approach d s)
  = (Flag_beq f uses_css_modules
     && (negb (get has_tailwind s) && negb (get has_bootstrap s)
         && negb (get has_material_ui s || get has_chakra_ui s
                  || get has_ant_design s)
         && hashed_class_names d))
    || (Flag_beq f uses_inline_styles
        && (negb (get has_tailwind s) && negb (get has_bootstrap s)
            && negb (get has_material_ui s || get has_chakra_ui s
                     || get has_ant_design s)
            && negb (hashed_class_names d)
            && Nat.ltb 20 (inlineStylesCount d)))
    || get f s.
Proof.
  unfold resolve_css_approach, get.
  destruct (flag (result s) has_tailwind),
    (flag (result s) has_bootstrap), (flag (result s) has_material_ui),
    (flag (result s) has_chakra_ui), (flag (result s) has_ant_design),
    (hashed_class_names d), (Nat.ltb 20 (inlineStylesCount d));
  destruct f; reflexivity.
Qed.

Lemma get_initial f :
  get f {| result := empty_result; fws := [] |} = false.
Proof. reflexivity. Qed.

(** *** One step at a time: the local list [frameworks] *)

(** unfold a check and split on whether it fires *)
Ltac fws_step chk :=
  unfold chk, entry;
  match goal with
  | |- context [if ?c then _ else _] => destruct c
  end;
  simpl; rewrite ?app_nil_r; reflexivity.

Lemma fws_check_react d s :
  fws (check_react d s) = fws s ++ entry (react_detected d) (react_info d).
Proof. fws_step check_react. Qed.

Lemma fws_check_vue d s :
  fws (check_vue d s) = fws s ++ entry (vue_detected d) (vue_info d).
Proof. fws_step check_vue. Qed.

Lemma fws_check_angular d s :
  fws (check_angular d s)
  = fws s ++ entry (angular_detected d) (angular_info d).
Proof. fws_step check_angular. Qed.

Lemma fws_check_svelte d s :
  fws (check_svelte d s) = fws s ++ entry (svelte_detected d) (svelte_info d).
Proof. fws_step check_svelte. Qed.

Lemma fws_check_nextjs d s :
  fws (check_nextjs d s) = fws s ++ entry (nextjs_detected d) (nextjs_info d).
Proof. fws_step check_nextjs. Qed.

Lemma fws_check_nuxt d s :
  fws (check_nuxt d s) = fws s ++ entry (nuxt_detected d) (nuxt_info d).
Proof. fws_step check_nuxt. Qed.

Lemma fws_check_remix d s :
  fws (check_remix d s) = fws s ++ entry (remix_detected d) (remix_info d).
Proof. fws_step check_remix. Qed.

Lemma fws_check_astro d s :
  fws (check_astro d s) = fws s ++ entry (astro_detected d) (astro_info d).
Proof. fws_step check_astro. Qed.

Lemma fws_check_gatsby d s :
  fws (check_gatsby d s) = fws s ++ entry (gatsby_detected d) (gatsby_info d).
Proof. fws_step check_gatsby. Qed.

Lemma fws_check_vite d s : fws (check_vite d s) = fws s.
Proof. unfold check_vite. now destruct (vite_detected d). Qed.

Lemma fws_check_jquery d s :
  fws (check_jquery d s) = fws s ++ entry (jquery_detected d) (jquery_info d).
Proof. fws_step check_jquery. Qed.

Lemma fws_check_tailwind d s :
  fws (check_tailwind d s)
  = fws s ++ entry (tailwind_detected d) (tailwind_info d).
Proof. fws_step check_tailwind. Qed.

Lemma fws_check_bootstrap d s :
  fws (check_bootstrap d s)
  = fws s ++ entry (bootstrap_detected d) (bootstrap_info d).
Proof. fws_step check_bootstrap. Qed.

Lemma fws_check_material_ui d s :
  fws (check_material_ui d s)
  = fws s ++ entry (material_ui_detected d) (material_ui_info d).
Proof. fws_step check_material_ui. Qed.

Lemma fws_check_chakra_ui d s :
  fws (check_chakra_ui d s)
  = fws s ++ entry (chakra_ui_detected d) (chakra_ui_info d).
Proof. fws_step check_chakra_ui. Qed.

Lemma fws_check_shadcn d s :
  fws (check_shadcn d s)
  = fws s ++ entry (nonempty (radix_attrs d) && get has_tailwind s)
               (shadcn_info d).
Proof. fws_step check_shadcn. Qed.

Lemma fws_check_ant_design d s :
  fws (check_ant_design d s)
  = fws s ++ entry (ant_design_detected d) (ant_design_info d).
Proof. fws_step check_ant_design. Qed.

Lemma fws_check_bulma d s :
  fws (check_bulma d s) = fws s ++ entry (bulma_detected d) (bulma_info d).
Proof. fws_step check_bulma. Qed.

Lemma fws_check_foundation d s :
  fws (check_foundation d s)
  = fws s ++ entry (foundation_detected d) (foundation_info d).
Proof. fws_step check_foundation. Qed.

Lemma fws_resolve_css_approach d s : fws (resolve_css_approach d s) = fws s.
Proof.
  unfold resolve_css_approach.
  repeat match goal with
         | |- context [if ?c then _ else _] => destruct c
         end; reflexivity.
Qed.

Lemma fws_check_css_variables d s : fws (check_css_variables d s) = fws s.
Proof. unfold check_css_variables. now destruct (Nat.ltb _ _). Qed.

Lemma fws_check_vanilla_js d s :
  fws (check_vanilla_js d s)
  = fws s ++ entry (negb (get has_react s || get has_vue s
                          || get has_angular s || get has_svelte s
                          || get has_jquery s))
               (vanilla_js_info d).
Proof. fws_step check_vanilla_js. Qed.

(** *** One step at a time: the CSS approach *)

Lemma css_approach_resolve d s :
  css_approach (result (resolve_css_approach d s))
  = Some (if get has_tailwind s then "tailwind"
          else if get has_bootstrap s then "bootstrap"
          else if get has_material_ui s || get has_chakra_ui s
                  || get has_ant_design s
          then "component-library"
          else if hashed_class_names d then "css-modules"
          else if Nat.ltb 20 (inlineStylesCount d) then "inline-styles"
          else "traditional-css").
Proof.
  unfold resolve_css_approach.
  repeat match goal with
         | |- context [if ?c then _ else _] => destruct c
         end; reflexivity.
Qed.

Lemma css_approach_check_css_variables d s :
  css_approach (result (check_css_variables d s)) = css_approach (result s).
Proof. unfold check_css_variables. now destruct (Nat.ltb _ _). Qed.

Lemma css_approach_check_vanilla_js d s :
  css_approach (result (check_vanilla_js d s)) = css_approach (result s).
Proof. unfold check_vanilla_js. now destruct (negb _). Qed.

(** *** The last two stages keep what the checks computed *)

Lemma resolve_primary_keeps s :
  flag (resolve_primary s) = flag (result s)
  /\ frameworks (resolve_primary s) = fws s
  /\ css_approach (resolve_primary s) = css_approach (result s).
Proof.
  unfold resolve_primary.
  repeat match goal with
         | |- context [if ?c then _ else _] => destruct c
         end; auto.
Qed.

(** From here on the checks are used through the lemmas above only. *)
#[local] Opaque check_react check_vue check_angular check_svelte
  check_nextjs check_nuxt check_remix check_astro check_gatsby check_vite
  check_jquery check_tailwind check_bootstrap check_material_ui
  check_chakra_ui check_shadcn check_ant_design check_bulma
  check_foundation resolve_css_approach check_css_variables
  check_vanilla_js.

(** push [get] through the checks down to the initial state, dropping at
    each step the flags the check does not write *)
Ltac push_get :=
  repeat
   (first
    [ rewrite get_check_vanilla_js | rewrite get_check_css_variables
    | rewrite get_resolve_css_approach | rewrite get_check_foundation
    | rewrite get_check_bulma | rewrite get_check_ant_design
    | rewrite get_check_shadcn | rewrite get_check_chakra_ui
    | rewrite get_check_material_ui | rewrite get_check_bootstrap
    | rewrite get_check_tailwind | rewrite get_check_jquery
    | rewrite get_check_vite | rewrite get_check_gatsby
    | rewrite get_check_astro | rewrite get_check_remix
    | rewrite get_check_nuxt | rewrite get_check_nextjs
    | rewrite get_check_svelte | rewrite get_check_angular
    | rewrite get_check_vue | rewrite get_check_react
    | rewrite get_initial ];
    cbn [Flag_beq andb orb]).

(** Every boolean field after all checks, as a function of the input. *)
Lemma run_checks_flag (d : DetectionData) (f : Flag) :
  get f (run_checks d) = flag_spec d f.
Proof.
  unfold run_checks; lazy zeta.
  destruct f; push_get; cbn [Flag_beq andb orb flag_spec];
    rewrite ?orb_false_r; try reflexivity;
    destruct (react_detected d), (nextjs_detected d), (remix_detected d),
      (gatsby_detected d), (vue_detected d), (nuxt_detected d);
    reflexivity.
Qed.

(** The local list after all checks. *)
Lemma run_checks_fws (d : DetectionData) :
  fws (run_checks d) = frameworks_spec d.
Proof.
  unfold run_checks; lazy zeta.
  rewrite fws_check_vanilla_js, fws_check_css_variables,
    fws_resolve_css_approach, fws_check_foundation, fws_check_bulma,
    fws_check_ant_design, fws_check_shadcn, fws_check_chakra_ui,
    fws_check_material_ui, fws_check_bootstrap, fws_check_tailwind,
    fws_check_jquery, fws_check_vite, fws_check_gatsby, fws_check_astro,
    fws_check_remix, fws_check_nuxt, fws_check_nextjs, fws_check_svelte,
    fws_check_angular, fws_check_vue, fws_check_react.
  cbn [fws app]. unfold frameworks_spec.
  repeat rewrite <- app_assoc. repeat f_equal.
  - push_get. cbn [Flag_beq andb orb flag_spec]. now rewrite orb_false_r.
  - f_equal. f_equal.
    change (get has_react ?s || get has_vue ?s || get has_angular ?s
            || get has_svelte ?s || get has_jquery ?s)
      with (get has_react s || get has_vue s || get has_angular s
            || get has_svelte s || get has_jquery s).
    push_get. cbn [Flag_beq andb orb flag_spec]. rewrite ?orb_false_r.
    destruct (react_detected d), (nextjs_detected d), (remix_detected d),
      (gatsby_detected d), (vue_detected d), (nuxt_detected d);
      reflexivity.
Qed.

Lemma detect_tech_stack_flag (d : DetectionData) (f : Flag) :
  flag (detect_tech_stack d) f = flag_spec d f.
Proof.
  unfold detect_tech_stack, finish. cbn [flag].
  destruct (resolve_primary_keeps (run_checks d)) as (-> & _ & _).
  apply run_checks_flag.
Qed.

Lemma detect_tech_stack_frameworks (d : DetectionData) :
  frameworks (detect_tech_stack d) = frameworks_spec d.
Proof.
  unfold detect_tech_stack, finish. cbn [frameworks].
  destruct (resolve_primary_keeps (run_checks d)) as (_ & -> & _).
  apply run_checks_fws.
Qed.

Lemma detect_tech_stack_css_approach (d : DetectionData) :
  css_approach (detect_tech_stack d)
  = Some (if tailwind_detected d then "tailwind"
          else if bootstrap_detected d then "bootstrap"
          else if material_ui_detected d || chakra_ui_detected d
                  || ant_design_detected d
          then "component-library"
          else if hashed_class_names d then "css-modules"
          else if Nat.ltb 20 (inlineStylesCount d) then "inline-styles"
          else "traditional-css").
Proof.
  unfold detect_tech_stack, finish. cbn [css_approach].
  destruct (resolve_primary_keeps (run_checks d)) as (_ & _ & ->).
  unfold run_checks; lazy zeta.
  rewrite css_approach_check_vanilla_js, css_approach_check_css_variables,
    css_approach_resolve.
  push_get. now rewrite !orb_false_r.
Qed.

(** An entry of [frameworks] is the record of a check that fired. *)
Lemma in_entry fires info f :
  In f (entry fires info) -> fires = true /\ f = info.
Proof.
  unfold entry. destruct fires; simpl; [| contradiction].
  intros [<- | []]. auto.
Qed.

(** C3, as the code has it.  [frameworks] holds, in the order of the
    checks, the record of each check that fired.  The confidence recorded
    for React is [high] exactly when the global [React] was seen, for
    Vue.js when the global [Vue] was seen, for Angular when the
    [angular_version] hint is set, for Svelte when a class starts with
    [svelte-]; it is [medium] otherwise, whatever other globals or hints of
    the framework matched.  Every recorded meta-framework and jQuery have
    confidence [high]. *)
Theorem framework_confidence (d : DetectionData) :
  frameworks (detect_tech_stack d) = frameworks_spec d
  /\ forall f, In f (frameworks (detect_tech_stack d)) ->
     (name f = "React" ->
      confidence f = if has_global d "React" then High else Medium)
     /\ (name f = "Vue.js" ->
         confidence f = if has_global d "Vue" then High else Medium)
     /\ (name f = "Angular" ->
         confidence f
         = if has_hint d "angular_version" then High else Medium)
     /\ (name f = "Svelte" ->
         confidence f
         = if nonempty (svelte_classes d) then High else Medium)
     /\ (category f = cat_meta_framework -> confidence f = High)
     /\ (name f = "jQuery" -> confidence f = High).
Proof.
  split; [apply detect_tech_stack_frameworks |].
  intros f. rewrite detect_tech_stack_frameworks. unfold frameworks_spec.
  rewrite !in_app_iff. intros H.
  repeat match type of H with
         | _ \/ _ => destruct H as [H | H]
         end;
    apply in_entry in H; destruct H as [_ ->];
    repeat split; intros Hn; try discriminate Hn; reflexivity.
Qed.

Lemma framework_confidence_witness :
  confidence (react_info devtools_hook_only) = Medium.
Proof.
  apply (proj1 (proj2 (framework_confidence devtools_hook_only)
                  (react_info devtools_hook_only)
                  (or_introl eq_refl))).
  reflexivity.
Defined.

(** C3 as stated fails.  React found through the global
    [__REACT_DEVTOOLS_GLOBAL_HOOK__] alone, or through the [react_root]
    hint alone, is recorded with confidence [medium]; Next.js found through
    a script URL alone, with no global and no hint, is recorded with
    confidence [high]. *)
Lemma strongest_signal_confidence_fails :
  (has_global devtools_hook_only "__REACT_DEVTOOLS_GLOBAL_HOOK__" = true
   /\ map (fun f => (name f, confidence f))
        (frameworks (detect_tech_stack devtools_hook_only))
      = [ ("React", Medium) ])
  /\ (has_hint react_root_only "react_root" = true
      /\ map (fun f => (name f, confidence f))
           (frameworks (detect_tech_stack react_root_only))
         = [ ("React", Medium) ])
  /\ (globals next_script_only = [] /\ htmlHints next_script_only = []
      /\ map (fun f => (name f, confidence f))
           (frameworks (detect_tech_stack next_script_only))
         = [ ("Next.js", High) ]).
Proof. repeat split; vm_compute; reflexivity. Qed.

(** C4.  The CSS approach of the result is fixed by the first of these
    that holds: the result flags Tailwind; it flags Bootstrap; it flags
    Material UI, Chakra UI or Ant Design; a class name contains [css-];
    more than 20 elements carry an inline style; none of them.  Each flag
    is the outcome of the corresponding detection. *)
Theorem css_approach_precedence (d : DetectionData) :
  let r := detect_tech_stack d in
  css_approach r
  = Some (if flag r has_tailwind then "tailwind"
          else if flag r has_bootstrap then "bootstrap"
          else if flag r has_material_ui || flag r has_chakra_ui
                  || flag r has_ant_design
          then "component-library"
          else if hashed_class_names d then "css-modules"
          else if Nat.ltb 20 (inlineStylesCount d) then "inline-styles"
          else "traditional-css")
  /\ flag r has_tailwind = tailwind_detected d
  /\ flag r has_bootstrap = bootstrap_detected d
  /\ flag r has_material_ui = material_ui_detected d
  /\ flag r has_chakra_ui = chakra_ui_detected d
  /\ flag r has_ant_design = ant_design_detected d.
Proof.
  intros r. unfold r. rewrite !detect_tech_stack_flag.
  cbn [flag_spec]. split; [apply detect_tech_stack_css_approach |].
  repeat split.
Qed.

(** Tailwind wins over Bootstrap and over hashed class names. *)
Example tailwind_beats_bootstrap :
  let d :=
    {| scripts := [ "https://cdn.example.com/bootstrap.min.js" ];
       stylesheets := []; metas := []; globals := [];
       attributes := [];
       classNames :=
         [ "flex"; "grid"; "hidden"; "block"; "gap-2"; "rounded-md";
           "bg-white"; "text-sm"; "font-bold"; "p-4"; "css-1x2y3z" ];
       dataAttributes := []; inlineStylesCount := 40; cssVariables := [];
       htmlHints := [] |} in
  flag (detect_tech_stack d) has_bootstrap = true
  /\ css_approach (detect_tech_stack d) = Some "tailwind".
Proof. vm_compute. split; reflexivity. Qed.

Example inline_styles_threshold :
  let page n :=
    {| scripts := []; stylesheets := []; metas := []; globals := [];
       attributes := []; classNames := []; dataAttributes := [];
       inlineStylesCount := n; cssVariables := []; htmlHints := [] |} in
  css_approach (detect_tech_stack (page 20)) = Some "traditional-css"
  /\ css_approach (detect_tech_stack (page 21)) = Some "inline-styles".
Proof. vm_compute. split; reflexivity. Qed.

(** C5.  The flags of the meta-frameworks are the outcomes of their
    detections, [has_react] is set when React, Next.js, Remix or Gatsby is
    detected and [has_vue] when Vue or Nuxt is.  So a result that flags
    Next.js, Remix or Gatsby flags React, and one that flags Nuxt flags
    Vue, whether or not a signal of React or Vue itself was present. *)
Theorem meta_framework_implies_base (d : DetectionData) :
  let r := detect_tech_stack d in
  flag r has_nextjs = nextjs_detected d
  /\ flag r has_remix = remix_detected d
  /\ flag r has_gatsby = gatsby_detected d
  /\ flag r has_nuxt = nuxt_detected d
  /\ flag r has_react
     = (react_detected d || nextjs_detected d || remix_detected d
        || gatsby_detected d)
  /\ flag r has_vue = (vue_detected d || nuxt_detected d)
  /\ (flag r has_nextjs = true -> flag r has_react = true)
  /\ (flag r has_remix = true -> flag r has_react = true)
  /\ (flag r has_gatsby = true -> flag r has_react = true)
  /\ (flag r has_nuxt = true -> flag r has_vue = true).
Proof.
  intros r. unfold r. rewrite !detect_tech_stack_flag. cbn [flag_spec].
  repeat split; intros ->; rewrite ?orb_true_r; reflexivity.
Qed.

Lemma meta_framework_implies_base_witness :
  react_detected nextjs_root_only = false
  /\ flag (detect_tech_stack nextjs_root_only) has_react = true.
Proof.
  split.
  - reflexivity.
  - apply (proj1 (proj2 (proj2 (proj2 (proj2 (proj2 (proj2
             (meta_framework_implies_base nextjs_root_only)))))))).
    reflexivity.
Defined.

(** With no signal at all the stack is plain JavaScript. *)
Example nothing_detected_is_vanilla :
  let r := detect_tech_stack no_signals in
  primary_framework r = Some "Vanilla JS/HTML"
  /\ meta_framework r = None
  /\ css_approach r = Some "traditional-css"
  /\ forallb (fun f => Bool.eqb (flag r f)
                         (Flag_beq f has_vanilla_js))
       [ has_react; has_vue; has_angular; has_svelte; has_nextjs; has_nuxt;
         has_remix; has_astro; has_gatsby; has_vite; has_tailwind;
         has_bootstrap; has_material_ui; has_chakra_ui; has_shadcn;
         has_ant_design; has_bulma; has_foundation; has_vanilla_js;
         has_jquery; has_typescript; uses_css_modules;
         uses_styled_components; uses_emotion; uses_sass;
         uses_inline_styles; uses_css_variables ] = true.
Proof. vm_compute. repeat split. Qed.

End TechStackFacts.

(* ===================================================================== *)
(** ** Element identification *)
(* ===================================================================== *)

Module IdentifyFacts.
Import Py PyFacts Models Classifier ClassifierFacts Identify.

(** *** Selector lists *)

Lemma fromkeys_from_spec seen xs :
  NoDup (fromkeys_from seen xs)
  /\ forall x, In x (fromkeys_from seen xs) <-> In x xs /\ ~ In x seen.
Proof.
  revert seen. induction xs as [| y xs IH]; intros seen; simpl.
  - split; [constructor | intros x; tauto].
  - destruct (list_in y seen) eqn:E.
    + apply list_in_iff in E. destruct (IH seen) as [Hnd Hin].
      split; [assumption |]. intros x. rewrite Hin.
      split; [tauto |]. intros [[<- | H] Hs]; tauto.
    + assert (Hy : ~ In y seen)
        by (intros H; apply list_in_iff in H; congruence).
      destruct (IH (y :: seen)) as [Hnd Hin]. split.
      * constructor; [| assumption]. rewrite Hin. simpl. tauto.
      * intros x. simpl. rewrite Hin. simpl.
        destruct (string_dec y x) as [<- | Hne]; tauto.
Qed.

Lemma NoDup_firstn {A} n (l : list A) : NoDup l -> NoDup (firstn n l).
Proof.
  intros H. rewrite <- (firstn_skipn n l) in H.
  now apply NoDup_app_remove_r in H.
Qed.

Lemma In_firstn {A} n (l : list A) x : In x (firstn n l) -> In x l.
Proof.
  intros H. rewrite <- (firstn_skipn n l). apply in_app_iff. now left.
Qed.

(** X1.  The selector list sent to the page never repeats a selector, has
    at most 30 entries and only holds selectors of the chosen list.  For
    each of the sixteen element types of the catalogue, and for ["all"],
    it is the whole list of that type: the limit of 30 removes nothing. *)
Theorem limited_selectors_bounds (element_type : option string) :
  NoDup (limited_selectors element_type)
  /\ length (limited_selectors element_type) <= 30
  /\ (forall s, In s (limited_selectors element_type) ->
                In s (choose_selectors element_type))
  /\ (forall t selectors,
        element_type = Some t -> In (t, selectors) ELEMENT_SELECTORS ->
        limited_selectors element_type = selectors)
  /\ limited_selectors (Some "all") = SIGNIFICANT_SELECTORS.
Proof.
  unfold limited_selectors, take, fromkeys. repeat split.
  - apply NoDup_firstn, fromkeys_from_spec.
  - apply firstn_le_length.
  - intros s H. apply In_firstn in H.
    now apply (proj2 (fromkeys_from_spec [] _)) in H.
  - intros t selectors -> H. simpl in H.
    repeat (destruct H as [H | H]; [injection H as <- <-; reflexivity |]).
    contradiction.
Qed.

Lemma limited_selectors_bounds_witness :
  limited_selectors (Some "card")
  = [ ".card"; ".card-container"; "[class*='card']"; ".tile"; ".panel" ].
Proof.
  apply (proj1 (proj2 (proj2 (proj2
           (limited_selectors_bounds (Some "card"))))) "card").
  - reflexivity.
  - simpl. tauto.
Defined.

Lemma unlisted_chooses_every (element_type : option string) :
  unlisted element_type -> choose_selectors element_type = every_selector.
Proof.
  destruct element_type as [t |]; simpl; [| reflexivity].
  intros [Hkey Hall]. unfold choose_selectors. rewrite Hkey.
  destruct (truthy t); apply String.eqb_neq in Hall; now rewrite Hall.
Qed.

Lemma late_selectors_absent :
  forallb
    (fun entry =>
       negb (list_in (fst entry) late_types)
       || forallb (fun s => negb (list_in s (limited_selectors None)))
            (snd entry))
    ELEMENT_SELECTORS = true.
Proof. vm_compute. reflexivity. Qed.

(** Every name the query interpreter returns as an element type is a
    catalogue type, ["layout"] or ["responsive"]. *)
Lemma interpreted_types_known q t :
  In t (Query.element_types (Query.interpret_user_query q)) ->
  is_key ELEMENT_SELECTORS t \/ t = "layout" \/ t = "responsive".
Proof.
  cbn [Query.interpret_user_query Query.element_types].
  rewrite (QueryFacts.scan_table_closed _ _ QueryFacts.QUERY_KEYWORDS_names).
  intros H. apply in_map_iff in H. destruct H as [[k kws] [<- H]].
  apply filter_In in H. destruct H as [H _]. simpl in H.
  repeat (destruct H as [H | H];
          [injection H as <- <-; simpl;
           first [ right; left; reflexivity
                 | right; right; reflexivity
                 | left; eexists; simpl; tauto ] |]).
  contradiction.
Qed.

(** X2.  Called without an element type, or with a string that is neither
    a catalogue type nor ["all"], [identify_elements] queries the first 30
    distinct selectors of the whole catalogue: all those of navbar, header,
    footer and hero, and the single selector [button].  No selector of the
    other eleven catalogue types is sent to the page.  ["layout"] and
    ["responsive"], the two names the query interpreter returns that are no
    catalogue type, are such strings. *)
Theorem unlisted_type_queries_first_thirty (element_type : option string) :
  unlisted element_type ->
  limited_selectors element_type
  = [ "nav"; "[role='navigation']"; ".navbar"; ".nav"; "#navbar"; "#nav";
      ".navigation"; "header nav";
      "header"; "[role='banner']"; ".header"; "#header"; ".site-header";
      ".page-header";
      "footer"; "[role='contentinfo']"; ".footer"; "#footer"; ".site-footer";
      ".page-footer";
      ".hero"; ".hero-section"; "[data-section='hero']"; ".banner";
      ".jumbotron"; ".masthead"; "section:first-of-type"; ".intro";
      ".landing";
      "button" ]
  /\ (forall t selectors s,
        In (t, selectors) ELEMENT_SELECTORS -> In t late_types ->
        In s selectors -> ~ In s (limited_selectors element_type))
  /\ (forall page max_elements,
        identify_elements page element_type max_elements
        = identify_elements page None max_elements)
  /\ unlisted (Some "layout") /\ unlisted (Some "responsive").
Proof.
  intros H.
  assert (Hsame : limited_selectors element_type = limited_selectors None).
  { unfold limited_selectors. now rewrite (unlisted_chooses_every _ H). }
  repeat split; try discriminate.
  - rewrite Hsame. reflexivity.
  - intros t selectors s Hentry Hlate Hs. rewrite Hsame.
    pose proof late_selectors_absent as Hall.
    rewrite forallb_forall in Hall. specialize (Hall _ Hentry).
    apply orb_true_iff in Hall. destruct Hall as [Hall | Hall].
    + apply negb_true_iff in Hall. apply list_in_iff in Hlate.
      cbn [fst] in Hall. congruence.
    + cbn [snd] in Hall.
      rewrite forallb_forall in Hall. specialize (Hall _ Hs).
      apply negb_true_iff in Hall. intros Hin.
      apply list_in_iff in Hin. congruence.
  - intros page max_elements. unfold identify_elements, combined_selector.
    now rewrite Hsame.
Qed.

Lemma unlisted_type_queries_first_thirty_witness :
  length (limited_selectors (Some "layout")) = 30
  /\ ~ In ".card" (limited_selectors (Some "layout")).
Proof.
  assert (H : unlisted (Some "layout")) by (split; [reflexivity | discriminate]).
  split.
  - rewrite (proj1 (unlisted_type_queries_first_thirty (Some "layout") H)).
    reflexivity.
  - apply (proj1 (proj2 (unlisted_type_queries_first_thirty (Some "layout") H))
             "card" [ ".card"; ".card-container"; "[class*='card']"; ".tile";
                      ".panel" ] ".card").
    + simpl. tauto.
    + simpl. tauto.
    + simpl. tauto.
Defined.

(** *** The extraction loop and the element constructor *)

Lemma collect_closed elements results :
  collect elements results
  = results ++ firstn (50 - length results) (sized elements).
Proof.
  unfold sized. revert results.
  induction elements as [| el rest IH]; intros results.
  - cbn [collect filter map]. now rewrite firstn_nil, app_nil_r.
  - cbn [collect filter].
    destruct (Nat.leb 50 (length results)) eqn:E.
    + apply Nat.leb_le in E.
      replace (50 - length results) with 0 by lia.
      cbn [firstn]. now rewrite app_nil_r.
    + apply Nat.leb_gt in E. destruct (zero_sized el); cbn [negb map].
      * apply IH.
      * rewrite IH, length_app, <- app_assoc. cbn [length app].
        replace (50 - length results) with (S (50 - (length results + 1)))
          by lia.
        reflexivity.
Qed.

Lemma detect_in_literal (e : ElementData) :
  list_in (detect_element_type e) ELEMENT_TYPES = true.
Proof.
  apply list_in_iff.
  assert (H : In (detect_element_type e) classifier_range).
  { apply value_in_range. unfold detect_element_type.
    destruct (dict_get tag_type_map (norm_tag e)) as [t |] eqn:Et.
    { apply dict_get_value in Et. rewrite !in_app_iff. auto. }
    destruct (dict_get role_type_map (norm_role e)) as [t |] eqn:Er.
    { apply dict_get_value in Er. rewrite !in_app_iff. auto. }
    destruct (class_scan (norm_classes e)) as [t |] eqn:Ec.
    { apply class_scan_value in Ec. rewrite !in_app_iff. auto. }
    destruct (keyword_scan class_keywords (norm_id e)) as [t |] eqn:Ei.
    { apply keyword_scan_value in Ei. rewrite !in_app_iff. auto. }
    rewrite !in_app_iff. right. right. right. now left. }
  now apply classifier_range_literal in H.
Qed.

Lemma build_elements_closed datas elements :
  build_elements datas elements = Some (elements ++ map classify datas).
Proof.
  revert elements. induction datas as [| data rest IH]; intros elements.
  - simpl. now rewrite app_nil_r.
  - cbn [build_elements map]. unfold make_element.
    rewrite detect_in_literal, IH, <- app_assoc. reflexivity.
Qed.

Lemma identify_elements_closed page element_type max_elements :
  identify_elements page element_type max_elements
  = Some (map classify
            (slice_to max_elements
               (firstn 50
                  (sized (query_selector_all page
                            (combined_selector element_type)))))).
Proof.
  unfold identify_elements.
  now rewrite build_elements_closed, collect_closed.
Qed.

Lemma length_slice_to {A} n (xs : list A) :
  length (slice_to n xs) <= length xs
  /\ ((0 <= n)%Z -> length (slice_to n xs) <= Z.to_nat n).
Proof.
  unfold slice_to. destruct (Z.leb 0 n) eqn:E.
  - split; [rewrite length_firstn; lia | intros _; apply firstn_le_length].
  - apply Z.leb_gt in E. split; [rewrite length_firstn; lia | lia].
Qed.

Lemma length_substring n s : String.length (String.substring 0 n s) <= n.
Proof.
  revert s. induction n as [| n IH]; intros [| c s]; simpl; auto with arith.
Qed.

Lemma Forall_slice_to {A} (P : A -> Prop) n (xs : list A) :
  Forall P xs -> Forall P (slice_to n xs).
Proof.
  intros H. unfold slice_to.
  destruct (Z.leb 0 n); now apply IssuesFacts.Forall_firstn_of.
Qed.

Lemma describe_text_ok el : text_ok (ed_text_content (describe el)).
Proof.
  unfold describe. cbn [ed_text_content]. unfold or_null, text_ok.
  pose proof (length_substring 100 (js_trim (raw_textContent el))) as Hlen.
  destruct (String.substring 0 100 (js_trim (raw_textContent el)));
    cbn [truthy]; [exact I |].
  split; [discriminate | exact Hlen].
Qed.

(** X3.  [identify_elements] always returns.  It returns, in document
    order, the elements matched by the selector that are not zero-sized,
    cut to the first 50 and then to [max_elements]; so at most 50 elements
    whatever [max_elements] is.  Each carries the type the classifier gives
    it, which is a literal of [UIElement.element_type], and a text that is
    absent or non-empty and at most 100 characters long. *)
Theorem identify_elements_returns_bounded (page : Page)
  (element_type : option string) (max_elements : Z) :
  exists elements,
    identify_elements page element_type max_elements = Some elements
    /\ elements
       = map classify
           (slice_to max_elements
              (firstn 50
                 (sized (query_selector_all page
                           (combined_selector element_type)))))
    /\ length elements <= 50
    /\ ((0 <= max_elements)%Z ->
        length elements <= Z.to_nat max_elements)
    /\ Forall (fun el => In (el_element_type el) ELEMENT_TYPES) elements
    /\ Forall (fun el => text_ok (el_text_content el)) elements.
Proof.
  eexists. split; [apply identify_elements_closed |].
  split; [reflexivity |]. rewrite length_map.
  repeat split.
  - etransitivity;
      [apply (proj1 (length_slice_to _ _)) | apply firstn_le_length].
  - apply (proj2 (length_slice_to _ _)).
  - apply Forall_map, Forall_forall. intros data _.
    unfold classify. cbn [el_element_type element_record].
    apply list_in_iff, detect_in_literal.
  - apply Forall_map, Forall_slice_to, IssuesFacts.Forall_firstn_of.
    unfold sized. apply Forall_map, Forall_forall. intros el _.
    apply describe_text_ok.
Qed.

Lemma identify_elements_returns_bounded_witness :
  exists elements,
    identify_elements sample_page None 1 = Some elements
    /\ length elements <= 1.
Proof.
  destruct (identify_elements_returns_bounded sample_page None 1)
    as (elements & H & _ & _ & Hmax & _).
  exists elements. split; [exact H |].
  apply Hmax. discriminate.
Defined.

(** The zero-sized spacer is skipped, the [nav] is typed by its tag, its
    text is trimmed, and the hidden hero is cut off by [max_elements]. *)
Example identify_sample_page :
  option_map (map (fun el => (el_element_type el, el_selector el,
                              el_text_content el, el_is_visible el)))
    (identify_elements sample_page None 1)
  = Some [ ("navbar", "#top", Some "Home", true) ]
  /\ option_map (map (fun el => (el_element_type el, el_selector el,
                                 el_is_visible el)))
       (identify_elements sample_page None (-1))
     = Some [ ("navbar", "#top", true) ]
  /\ option_map (map (fun el => (el_element_type el, el_selector el,
                                 el_is_visible el)))
       (identify_elements sample_page (Some "hero") 50)
     = Some [ ("navbar", "#top", true); ("hero", "div.hero.dark", false) ].
Proof. vm_compute. repeat split. Qed.

(** *** Counting by type *)

Lemma bump_spec k summary :
  NoDup (map fst summary) ->
  NoDup (map fst (bump k summary))
  /\ (forall k', In k' (map fst (bump k summary))
                 <-> k' = k \/ In k' (map fst summary))
  /\ (forall k', dict_get (bump k summary) k'
                 = if String.eqb k k'
                   then Some (match dict_get summary k with
                              | Some n => n + 1
                              | None => 1
                              end)
                   else dict_get summary k')
  /\ list_sum (map snd (bump k summary)) = list_sum (map snd summary) + 1.
Proof.
  induction summary as [| [k0 n] summary IH]; intros Hnd.
  - simpl. split; [| split; [| split]].
    + repeat constructor. intros [].
    + intros k'. intuition congruence.
    + intros k'. destruct (String.eqb k k'); reflexivity.
    + reflexivity.
  - inversion Hnd as [| ? ? Hhead Hnd']; subst.
    destruct (IH Hnd') as (IH1 & IH2 & IH3 & IH4).
    cbn [bump]. destruct (String.eqb k0 k) eqn:E.
    + apply String.eqb_eq in E. subst k0. simpl.
      split; [| split; [| split]].
      * assumption.
      * intros k'. intuition congruence.
      * intros k'. rewrite String.eqb_refl.
        destruct (String.eqb k k'); reflexivity.
      * lia.
    + simpl. split; [| split; [| split]].
      * constructor; [| assumption]. rewrite IH2.
        apply String.eqb_neq in E. intuition congruence.
      * intros k'. rewrite IH2. intuition congruence.
      * intros k'. rewrite IH3, E.
        destruct (String.eqb k0 k') eqn:E0; [| reflexivity].
        apply String.eqb_eq in E0. subst k'.
        rewrite String.eqb_sym in E. now rewrite E.
      * lia.
Qed.

Lemma summary_from_spec elements summary :
  NoDup (map fst summary) ->
  Forall (fun entry => 1 <= snd entry) summary ->
  let final :=
    fold_left (fun summary el => bump (el_element_type el) summary)
      elements summary in
  NoDup (map fst final)
  /\ Forall (fun entry => 1 <= snd entry) final
  /\ (forall t, match dict_get final t with
                | Some n =>
                    n = match dict_get summary t with
                        | Some m => m | None => 0
                        end + count_type t elements
                | None => dict_get summary t = None
                          /\ count_type t elements = 0
                end)
  /\ list_sum (map snd final)
     = list_sum (map snd summary) + length elements.
Proof.
  revert summary. unfold count_type.
  induction elements as [| el rest IH]; intros summary Hnd Hpos; simpl.
  - split; [| split; [| split]]; auto.
    intros t. destruct (dict_get summary t); auto.
  - destruct (bump_spec (el_element_type el) summary Hnd)
      as (B1 & _ & B3 & B4).
    assert (Bpos : Forall (fun entry => 1 <= snd entry)
                     (bump (el_element_type el) summary)).
    { clear - Hpos. induction Hpos as [| [k n] summary Hn Ht IHp]; simpl.
      - repeat constructor.
      - destruct (String.eqb k (el_element_type el)); constructor;
          simpl in *; solve [lia | assumption]. }
    destruct (IH _ B1 Bpos) as (I1 & Ipos & I2 & I3).
    split; [| split; [| split]].
    + exact I1.
    + exact Ipos.
    + intros t. specialize (I2 t). rewrite B3 in I2.
      destruct (string_dec (el_element_type el) t) as [<- | Hne].
      * rewrite String.eqb_refl in I2.
        destruct (dict_get (fold_left _ rest _) (el_element_type el)).
        -- destruct (dict_get summary (el_element_type el)); lia.
        -- destruct I2 as [I2 _]. discriminate.
      * apply String.eqb_neq in Hne. rewrite Hne in I2.
        destruct (dict_get (fold_left _ rest _) t); exact I2.
    + rewrite I3, B4. lia.
Qed.

(** X4.  [elements_summary] has one entry per element type that occurs,
    its value is the number of elements of that type (at least 1), a type
    that does not occur has no entry, and the values add up to the number
    of elements. *)
Theorem elements_summary_counts (elements : list UIElement) :
  NoDup (map fst (elements_summary elements))
  /\ (forall t,
        dict_get (elements_summary elements) t
        = if Nat.eqb (count_type t elements) 0 then None
          else Some (count_type t elements))
  /\ list_sum (map snd (elements_summary elements)) = length elements.
Proof.
  destruct (summary_from_spec elements [] (NoDup_nil _) (Forall_nil _))
    as (H1 & Hpos & H2 & H3).
  split; [assumption | split; [| assumption]].
  intros t. specialize (H2 t). unfold elements_summary.
  destruct (dict_get (fold_left _ elements []) t) as [n |] eqn:E.
  - simpl in H2. subst n.
    apply dict_get_member in E. rewrite Forall_forall in Hpos.
    specialize (Hpos _ E). simpl in Hpos.
    destruct (count_type t elements); [lia | reflexivity].
  - destruct H2 as [_ ->]. reflexivity.
Qed.

Example elements_summary_example :
  elements_summary Fixes.sample_elements = [ ("button", 2); ("image", 1) ].
Proof. reflexivity. Qed.

End IdentifyFacts.

(* ===================================================================== *)
(** ** Issue detector, continued *)
(* ===================================================================== *)

Module DetectorFacts.
Import Py PyFacts Models Issues IssuesFacts Readings.

Lemma build_issues_closed (ds : list IssueData) (acc : list UIIssue) :
  Forall (fun d => In (id_type d) script_types) ds ->
  build_issues ds acc = Some (acc ++ map to_issue ds).
Proof.
  intros H. revert acc. induction H as [| d ds Hd _ IH]; intros acc.
  - simpl. now rewrite app_nil_r.
  - cbn [build_issues map]. unfold make_issue, to_issue.
    destruct (issue_kind_of_string (id_type d)) as [kind |] eqn:E.
    + rewrite IH, <- app_assoc. reflexivity.
    + exfalso. simpl in Hd.
      destruct Hd as [Hd | [Hd | [Hd | [Hd | []]]]]; rewrite <- Hd in E;
        discriminate E.
Qed.

(** The detector raises when the script throws, and otherwise returns
    the issues built from the first 20 collected objects. *)
Lemma detect_ui_issues_closed (page : Page) (elements : list UIElement) :
  detect_ui_issues page elements
  = if script_throws page then None
    else Some (map to_issue
                 (firstn 20 (layout_pass page ++ later_passes page))).
Proof.
  unfold detect_ui_issues. rewrite page_script_closed.
  destruct (script_throws page); [reflexivity |].
  rewrite build_issues_closed
    by apply Forall_firstn_of, collected_types.
  reflexivity.
Qed.

Lemma collected_objects (p : Page) :
  Forall script_object (layout_pass p ++ later_passes p).
Proof.
  unfold layout_pass, later_passes, script_object.
  rewrite !Forall_app. repeat split;
    apply Forall_findings; intros el found H; pushed_objects el H;
    cbn [id_type id_current_value];
    first [ left; split; reflexivity
          | right; left; split; [reflexivity | discriminate]
          | right; right; left; split; reflexivity
          | right; right; right; split; reflexivity ].
Qed.

Lemma to_issue_shape (d : IssueData) :
  script_object d -> detector_issue (to_issue d).
Proof.
  unfold detector_issue, to_issue.
  intros [[Ht Hv] | [[Ht Hv] | [[Ht Hv] | [Ht Hv]]]]; rewrite Ht;
    cbn [issue_kind_of_string find ALL_ISSUE_KINDS issue_kind_name
         String.eqb Ascii.eqb Bool.eqb];
    unfold issue_record, generate_fix_suggestion;
    cbn [issue_type css_property recommended_value code_snippet
         current_value suggested_fix element_selector];
    rewrite Ht; (repeat split; try discriminate;
                 try (simpl; tauto); try reflexivity;
                 try (intros; assumption); try congruence).
Qed.

Lemma script_issues_shape (page : Page) :
  Forall detector_issue
    (map to_issue (firstn 20 (layout_pass page ++ later_passes page))).
Proof.
  apply Forall_map, Forall_firstn_of.
  eapply Forall_impl; [| apply collected_objects].
  intros d. apply to_issue_shape.
Qed.

(** X5.  Every issue of every list the detector returns is of kind
    [overflow_hidden], [z_index_conflict], [empty_container] or
    [accessibility_missing]; it names no CSS property, recommended value
    or code snippet; it carries a current value exactly when it is a
    [z_index_conflict]; and its suggested fix is the text written for its
    kind around its selector, never the generic "Review and fix" text.
    The detector returns such a list on every page whose elements all
    have an id or a string for class name. *)
Theorem detector_issues_shape (page : Page) (elements : list UIElement) :
  (forall issues,
      detect_ui_issues page elements = Some issues ->
      Forall detector_issue issues)
  /\ (Forall selectable (dom page) ->
      exists issues,
        detect_ui_issues page elements = Some issues
        /\ Forall detector_issue issues).
Proof.
  rewrite detect_ui_issues_closed. split.
  - destruct (script_throws page); [discriminate |].
    intros issues H.
    assert (issues = map to_issue
                       (firstn 20 (layout_pass page ++ later_passes page)))
      by congruence.
    subst issues. apply script_issues_shape.
  - intros Hdom. rewrite (selectable_page page Hdom).
    eexists. split; [reflexivity | apply script_issues_shape].
Qed.

Lemma detector_issues_shape_witness :
  Forall detector_issue [bare_img_issue]
  /\ exists issues,
       detect_ui_issues crowded_page [] = Some issues
       /\ Forall detector_issue issues.
Proof.
  split.
  - apply (proj1 (detector_issues_shape (gallery 1) []) [bare_img_issue]).
    vm_compute. reflexivity.
  - apply (proj2 (detector_issues_shape crowded_page [])).
    unfold crowded_page, dom. simpl repeat. repeat constructor.
Defined.

Lemma layout_pass_kinds (p : Page) :
  Forall (fun d => layout_kind (to_issue d)) (layout_pass p).
Proof.
  unfold layout_pass.
  apply Forall_findings; intros el found H; pushed_objects el H;
    first [left; reflexivity | right; reflexivity].
Qed.

(** X6.  When no loop of the script throws, the detector reports the
    overflow and z-index findings of all elements first, then the empty
    containers, then the images, then the buttons and links, and keeps
    the first 20 of that sequence.  So when the first pass alone gives 20
    findings or more, no empty container and no accessibility issue is
    reported; and when all passes together give at most 20, each finding
    is reported.  When a loop throws, the detector raises and reports
    nothing, wherever in the sequence the throwing element comes.  No
    loop throws on a page whose elements all have an id or a string for
    class name. *)
Theorem detector_keeps_first_twenty (page : Page) (elements : list UIElement) :
  (script_throws page = false ->
   exists issues,
     detect_ui_issues page elements = Some issues
     /\ issues
        = map to_issue (firstn 20 (layout_pass page ++ later_passes page))
     /\ (20 <= length (layout_pass page) -> Forall layout_kind issues)
     /\ (length (layout_pass page ++ later_passes page) <= 20 ->
         issues = map to_issue (layout_pass page ++ later_passes page)))
  /\ (script_throws page = true -> detect_ui_issues page elements = None)
  /\ (Forall selectable (dom page) -> script_throws page = false).
Proof.
  rewrite detect_ui_issues_closed. split; [| split].
  - intros ->. eexists. split; [reflexivity |]. split; [reflexivity |].
    split.
    + intros Hfull. rewrite firstn_app.
      replace (20 - length (layout_pass page)) with 0 by lia.
      change (firstn 0 (later_passes page)) with (@nil IssueData).
      rewrite app_nil_r.
      apply Forall_map, Forall_firstn_of, layout_pass_kinds.
    + intros Hfew. now rewrite firstn_all2.
  - now intros ->.
  - apply selectable_page.
Qed.

Lemma detector_keeps_first_twenty_witness :
  (exists issues,
      detect_ui_issues crowded_page [] = Some issues
      /\ Forall layout_kind issues)
  /\ detect_ui_issues svg_link_page [] = None
  /\ script_throws (gallery 25) = false.
Proof.
  split; [| split].
  - destruct (proj1 (detector_keeps_first_twenty crowded_page []) eq_refl)
      as (issues & H & _ & Hfull & _).
    exists issues. split; [exact H |].
    apply Hfull. vm_compute. repeat constructor.
  - apply (proj1 (proj2 (detector_keeps_first_twenty svg_link_page []))).
    reflexivity.
  - apply (proj2 (proj2 (detector_keeps_first_twenty (gallery 25) []))).
    unfold gallery, dom. simpl repeat. repeat constructor.
Defined.

(** The image of the crowded page has no text alternative, and alone it is
    reported. *)
Example image_reported_alone :
  option_map (map issue_type)
    (detect_ui_issues
       {| innerWidth := 1920; dom := [ bare_img ] |} [])
  = Some [ accessibility_missing ]
  /\ option_map (fun issues => existsb
                   (fun i => match issue_type i with
                             | accessibility_missing => true
                             | _ => false
                             end) issues)
       (detect_ui_issues crowded_page [])
     = Some false.
Proof. vm_compute. split; reflexivity. Qed.

(** The 25 images alone give 20 issues; followed by a link drawn inside
    an [<svg>], whose finding would come 26th, they give none: the
    detector raises. *)
Example throw_beyond_the_cap :
  option_map (@length UIIssue) (detect_ui_issues (gallery 25) []) = Some 20
  /\ length (layout_pass gallery_with_svg_link
             ++ later_passes gallery_with_svg_link) = 25
  /\ detect_ui_issues gallery_with_svg_link [] = None.
Proof. vm_compute. repeat split. Qed.

End DetectorFacts.

(* ===================================================================== *)
(** ** Fix synthesizer, continued *)
(* ===================================================================== *)

Module SynthesisFacts.
Import Py PyFacts Models Query Fixes FixesFacts Readings.

(** X7.  For an issue the detector returned, the synthesized instruction
    is: [modify_css] with [overflow-x: hidden] and [max-width: 100%] for an
    overflow, [modify_css] with [z-index: 10] for a z-index conflict,
    [remove_html] without property change for an empty container,
    [modify_html] without property change for a missing accessible name.
    Its explanation is the issue's suggested fix and its selector the
    issue's selector. *)
Theorem detector_issue_fix (page : Issues.Page) (elements : list UIElement)
  (issues : list UIIssue) (issue : UIIssue) (p : nat) :
  Issues.detect_ui_issues page elements = Some issues ->
  In issue issues ->
  (action (create_fix_instruction issue p),
   property_changes (create_fix_instruction issue p))
  = detector_fix (issue_type issue)
  /\ explanation (create_fix_instruction issue p)
     = suggestion_for (issue_type issue) (element_selector issue)
  /\ selector (create_fix_instruction issue p) = element_selector issue
  /\ priority (create_fix_instruction issue p) = p.
Proof.
  rewrite DetectorFacts.detect_ui_issues_closed.
  destruct (Issues.script_throws page); [discriminate |].
  intros Hret Hin.
  assert (issues
          = map to_issue
              (firstn 20 (layout_pass page ++ later_passes page)))
    by congruence.
  subst issues.
  pose proof (DetectorFacts.script_issues_shape page) as Hall.
  rewrite Forall_forall in Hall. specialize (Hall _ Hin).
  destruct Hall as (Hkind & Hcss & _ & _ & _ & Hfix).
  cbn [create_fix_instruction action property_changes explanation selector
       priority].
  repeat split; try assumption.
  unfold issue_property_changes, issue_action. rewrite Hcss.
  simpl in Hkind.
  destruct Hkind as [<- | [<- | [<- | [<- | []]]]]; reflexivity.
Qed.

Lemma detector_issue_fix_witness :
  (action (create_fix_instruction wide_header_issue 1),
   property_changes (create_fix_instruction wide_header_issue 1))
  = (modify_css, [ ("overflow-x", "hidden"); ("max-width", "100%") ]).
Proof.
  apply (proj1 (detector_issue_fix wide_header_page [] [wide_header_issue]
                  wide_header_issue 1 eq_refl (or_introl eq_refl))).
Defined.

(** *** The CSS text *)

Lemma issue_loop_css tt issues a :
  acc_css (fold_left (issue_step tt) issues a)
  = acc_css a
    ++ map rule_of (filter has_changes (filter (issue_selected tt) issues)).
Proof.
  revert a. induction issues as [| i issues IH]; intros a;
    cbn [fold_left filter].
  - cbn [map]. now rewrite app_nil_r.
  - rewrite IH. unfold issue_step.
    destruct (issue_selected tt i); [| reflexivity].
    cbn [acc_css filter create_fix_instruction property_changes].
    change (has_changes i) with (nonempty (issue_property_changes i)).
    destruct (nonempty (issue_property_changes i)); [| reflexivity].
    cbn [map]. rewrite <- app_assoc. reflexivity.
Qed.

Lemma hint_loop_css affected hints a :
  acc_css (fold_left (hint_step affected) hints a) = acc_css a.
Proof.
  revert a. induction hints as [| h hints IH]; intros a; cbn [fold_left].
  - reflexivity.
  - rewrite IH. unfold hint_step.
    repeat (destruct (_ && _)); rewrite ?append_fixes_closed; reflexivity.
Qed.

Lemma append_empty_r (s t : string) : s ^^ t = "" -> t = "".
Proof. destruct s; simpl; [auto | discriminate]. Qed.

Lemma rule_of_nonempty issue : rule_of issue <> "".
Proof.
  unfold rule_of, css_rule. intros H.
  apply append_empty_r in H. discriminate.
Qed.

Lemma join_nonempty sep x xs : x <> "" -> join sep (x :: xs) <> "".
Proof.
  unfold join. intros Hx H. destruct xs; simpl in H.
  - contradiction.
  - destruct x; [contradiction | discriminate].
Qed.

Lemma hint_makers_have_changes affected hint mk p :
  In mk (hint_makers affected hint) -> length (property_changes (mk p)) >= 3.
Proof.
  unfold hint_makers.
  repeat (destruct (_ && _)); try contradiction;
    intros H; apply in_map_iff in H; destruct H as [el [<- _]]; simpl; lia.
Qed.

(** X8.  The CSS text of the result is the rule blocks of the selected
    issues that give property changes, in issue order, separated by a blank
    line; it is empty exactly when no selected issue gives property
    changes.  The instructions derived from query hints add nothing to it,
    although each of them carries three or four property changes. *)
Theorem css_changes_from_issues_only (url q : string)
  (elements : list UIElement) (issues : list UIIssue) :
  let info := interpret_user_query q in
  let tt := Query.element_types info in
  let r := generate_fix_instructions_for_query url q elements issues in
  let with_changes :=
    filter has_changes (filter (issue_selected tt) issues) in
  css_changes r = join (nl ^^ nl) (map rule_of with_changes)
  /\ (css_changes r = "" <-> with_changes = [])
  /\ (forall hint mk p,
        In mk (hint_makers (affected_elements r) hint) ->
        length (property_changes (mk p)) >= 3).
Proof.
  intros info tt r with_changes.
  assert (Hcss : css_changes r = join (nl ^^ nl) (map rule_of with_changes)).
  { unfold r. cbn [generate_fix_instructions_for_query css_changes].
    unfold run_loops. fold info. fold tt.
    rewrite hint_loop_css, issue_loop_css. cbn [acc_css app].
    fold with_changes. now destruct (map rule_of with_changes). }
  split; [exact Hcss |]. split.
  - rewrite Hcss. split.
    + destruct with_changes as [| i l]; [reflexivity |].
      intros H. exfalso. revert H. apply join_nonempty, rule_of_nonempty.
    + intros ->. reflexivity.
  - intros hint mk p. apply hint_makers_have_changes.
Qed.

(** The run of [button_spacing_run]: one rule, for the z-index issue; the
    two spacing instructions add none. *)
Example button_spacing_css :
  css_changes
    (generate_fix_instructions_for_query "" "Button spacing"
       sample_elements sample_issues)
  = "#buy {" ^^ nl ^^ "    z-index: 10;" ^^ nl ^^ "}".
Proof. vm_compute. reflexivity. Qed.

(** *** The summary sentence *)

(** X9.  The summary is ["No specific fixes identified"] exactly when
    there is no instruction and no affected element. *)
Theorem summary_fallback_iff (url q : string)
  (elements : list UIElement) (issues : list UIIssue) :
  let r := generate_fix_instructions_for_query url q elements issues in
  summary r = "No specific fixes identified"
  <-> fix_instructions r = [] /\ affected_elements r = [].
Proof.
  intros r. unfold r.
  cbn [generate_fix_instructions_for_query summary fix_instructions
       affected_elements].
  destruct (acc_fixes (run_loops q elements issues)) as [| f fs];
    destruct (select_affected _ elements) as [| e es];
    cbn [nonempty app join String.concat];
    (split; [intros H | intros [H1 H2]]);
    try discriminate; try (split; reflexivity); try reflexivity.
Qed.

(** *** How many instructions *)

Lemma flat_map_filter_length {A B} (f : A -> list B) (p : A -> bool) l :
  length (flat_map f (filter p l)) <= length (flat_map f l).
Proof.
  induction l as [| x l IH]; simpl; [lia |].
  destruct (p x); simpl; rewrite !length_app; lia.
Qed.

Lemma hint_makers_total (affected : list UIElement) :
  length (flat_map (hint_makers affected) (map fst issue_keywords)) <= 8.
Proof.
  cbn [issue_keywords map fst flat_map]. unfold hint_makers.
  cbn [String.eqb Ascii.eqb Bool.eqb andb].
  pose proof (firstn_le_length 3 affected) as H3.
  pose proof (firstn_le_length 2 affected) as H2.
  unfold take. destruct (nonempty affected);
    rewrite ?length_app, ?length_map; cbn [length app]; lia.
Qed.

(** X10.  The result holds at most one instruction per issue plus eight:
    the hints [spacing] and [alignment] add at most three each, [layout]
    at most two, and every other hint none. *)
Theorem fix_instructions_bound (url q : string)
  (elements : list UIElement) (issues : list UIIssue) :
  length (fix_instructions
            (generate_fix_instructions_for_query url q elements issues))
  <= length issues + 8.
Proof.
  rewrite fix_instructions_closed, length_number_from, length_app.
  apply Nat.add_le_mono.
  - unfold issue_makers. rewrite length_map. apply filter_length_le.
  - cbn [interpret_user_query Query.issue_hints].
    rewrite (QueryFacts.scan_table_closed _ _ QueryFacts.issue_keywords_names).
    etransitivity; [| apply (hint_makers_total
                               (select_affected
                                  (Query.element_types (interpret_user_query q))
                                  elements))].
    rewrite !flat_map_concat_map, !map_map, <- !flat_map_concat_map.
    apply (flat_map_filter_length
             (fun entry => hint_makers _ (fst entry))).
Qed.

(** *** Queries about layout only *)

Lemma no_layout_elements tt elements :
  Forall (fun t => t = "layout" \/ t = "responsive") tt ->
  Forall (fun el => In (el_element_type el) ELEMENT_TYPES) elements ->
  filter (fun el => list_in (el_element_type el) tt) elements = [].
Proof.
  intros Htt Hels. induction Hels as [| el elements Hel _ IH]; simpl.
  - reflexivity.
  - destruct (list_in (el_element_type el) tt) eqn:E; [| exact IH].
    exfalso. apply list_in_iff in E.
    rewrite Forall_forall in Htt. specialize (Htt _ E).
    simpl in Hel. destruct Htt as [Ht | Ht]; rewrite Ht in Hel;
      repeat (destruct Hel as [Hel | Hel]; [discriminate Hel |]);
      contradiction.
Qed.

Lemma hint_makers_nil hint : hint_makers [] hint = [].
Proof.
  unfold hint_makers. cbn [nonempty]. now rewrite !andb_false_r.
Qed.

(** X11.  When the query is interpreted as ["layout"] and/or
    ["responsive"] only, no element is affected, because no element ever
    has one of these two types; the query hints then add no instruction,
    and the result holds the issue-derived instructions only. *)
Theorem layout_only_query_affects_nothing (url q : string)
  (elements : list UIElement) (issues : list UIIssue) :
  let info := interpret_user_query q in
  let tt := Query.element_types info in
  let r := generate_fix_instructions_for_query url q elements issues in
  tt <> [] ->
  Forall (fun t => t = "layout" \/ t = "responsive") tt ->
  Forall (fun el => In (el_element_type el) ELEMENT_TYPES) elements ->
  affected_elements r = []
  /\ fix_instructions r = number_from 1 (issue_makers tt issues).
Proof.
  intros info tt r Hne Htt Hels.
  assert (Haff : select_affected tt elements = []).
  { unfold select_affected. destruct tt; [contradiction |].
    cbn [nonempty]. now apply no_layout_elements. }
  split.
  - exact Haff.
  - unfold r. rewrite fix_instructions_closed. fold info. fold tt.
    rewrite Haff.
    replace (flat_map (hint_makers []) (Query.issue_hints info))
      with (@nil (nat -> FixInstruction)).
    + now rewrite app_nil_r.
    + symmetry.
      induction (Query.issue_hints info) as [| h hs IH]; simpl.
      * reflexivity.
      * now rewrite hint_makers_nil, IH.
Qed.

Lemma layout_only_query_affects_nothing_witness :
  Query.issue_hints (interpret_user_query "fix the spacing") = [ "spacing" ]
  /\ fix_instructions
       (generate_fix_instructions_for_query "" "fix the spacing"
          sample_elements [])
     = [].
Proof.
  split; [reflexivity |].
  refine (proj2 (layout_only_query_affects_nothing "" "fix the spacing"
                   sample_elements [] _ _ _)).
  - discriminate.
  - repeat constructor.
  - repeat constructor; simpl; tauto.
Defined.

End SynthesisFacts.

(* ===================================================================== *)
(** ** Query interpreter and classifier, continued *)
(* ===================================================================== *)

Module InterpretFacts.
Import Py PyFacts Models Classifier ClassifierFacts Query QueryFacts.

Lemma lower_ascii_idem (c : ascii) :
  lower_ascii (lower_ascii c) = lower_ascii c.
Proof. destruct c as [[] [] [] [] [] [] [] []]; reflexivity. Qed.

Lemma lower_idem (s : string) : lower (lower s) = lower s.
Proof.
  induction s as [| c s IH]; simpl; [reflexivity |].
  now rewrite lower_ascii_idem, IH.
Qed.

Lemma lower_append (s t : string) : lower (s ^^ t) = lower s ^^ lower t.
Proof. induction s as [| c s IH]; simpl; [reflexivity | now rewrite IH]. Qed.

Lemma str_in_extend (k before q after : string) :
  str_in k q = true -> str_in k (before ^^ q ^^ after) = true.
Proof.
  rewrite !str_in_iff_occurs. intros (a & b & ->).
  exists (before ^^ a), (b ^^ after).
  induction before as [| c before IH]; simpl.
  - induction a as [| c a IHa]; simpl.
    + induction k as [| c k IHk]; simpl; [reflexivity | now rewrite IHk].
    + now rewrite IHa.
  - now rewrite IH.
Qed.

Lemma entry_matches_extend entry (before q after : string) :
  entry_matches (lower q) entry = true ->
  entry_matches (lower (before ^^ q ^^ after)) entry = true.
Proof.
  unfold entry_matches. rewrite !existsb_exists.
  intros (k & Hk & Hin). exists k. split; [assumption |].
  rewrite !lower_append. now apply str_in_extend.
Qed.

Lemma scan_table_extend table (before q after : string) :
  NoDup (map fst table) ->
  incl (scan_table table (lower q))
       (scan_table table (lower (before ^^ q ^^ after))).
Proof.
  intros Hnd t. rewrite !(scan_table_closed _ _ Hnd), !in_map_iff.
  intros (entry & <- & Hin). exists entry. split; [reflexivity |].
  apply filter_In in Hin. destruct Hin as [Hin Hm].
  apply filter_In. split; [assumption | now apply entry_matches_extend].
Qed.

(** X12.  Text added before or after a query never removes an element
    type or an issue hint from its interpretation, and the interpretation
    of a query is that of its lower-cased form. *)
Theorem interpretation_grows_with_query (before q after : string) :
  incl (element_types (interpret_user_query q))
       (element_types (interpret_user_query (before ^^ q ^^ after)))
  /\ incl (issue_hints (interpret_user_query q))
          (issue_hints (interpret_user_query (before ^^ q ^^ after)))
  /\ interpret_user_query (lower q) = interpret_user_query q.
Proof.
  split; [| split].
  - cbn [interpret_user_query element_types].
    apply scan_table_extend, QUERY_KEYWORDS_names.
  - cbn [interpret_user_query issue_hints].
    apply scan_table_extend, issue_keywords_names.
  - unfold interpret_user_query. now rewrite lower_idem.
Qed.

Example longer_query_keeps_navbar :
  element_types (interpret_user_query "The NAVBAR is broken on my phone")
  = [ "navbar"; "responsive" ]
  /\ issue_hints (interpret_user_query "The NAVBAR is broken on my phone")
     = [ "broken"; "responsive" ].
Proof. split; reflexivity. Qed.

(** no table of the classifier gives ["other"] *)
Lemma other_not_a_table_value :
  forallb (fun t => negb (String.eqb t "other"))
    (map snd tag_type_map ++ map snd role_type_map ++ map snd class_keywords)
  = true.
Proof. reflexivity. Qed.

Lemma table_value_not_other t :
  In t (map snd tag_type_map ++ map snd role_type_map
        ++ map snd class_keywords) ->
  t <> "other".
Proof.
  intros H. pose proof other_not_a_table_value as Hall.
  rewrite forallb_forall in Hall. specialize (Hall _ H).
  now apply negb_true_iff, String.eqb_neq in Hall.
Qed.

Lemma dict_get_none_not_key {V} (d : list (string * V)) k :
  dict_get d k = None -> ~ is_key d k.
Proof.
  induction d as [| [k' v'] d IH]; simpl; intros H [v Hin].
  - exact Hin.
  - destruct (String.eqb k' k) eqn:E; [discriminate |].
    destruct Hin as [Hin | Hin].
    + injection Hin as -> _. now rewrite String.eqb_refl in E.
    + apply (IH H). now exists v.
Qed.

(** X13.  The classifier answers ["other"] exactly when all four stages
    miss: the tag is no key of the tag table, the role no key of the role
    table, and no keyword occurs in any class or in the id. *)
Theorem other_only_as_fallback (e : ElementData) :
  detect_element_type e = "other"
  <-> ~ is_key tag_type_map (norm_tag e)
      /\ ~ is_key role_type_map (norm_role e)
      /\ Forall no_keyword (norm_classes e)
      /\ no_keyword (norm_id e).
Proof.
  unfold detect_element_type. split.
  - destruct (dict_get tag_type_map (norm_tag e)) as [t |] eqn:Et.
    { intros ->. apply dict_get_value in Et. exfalso.
      eapply table_value_not_other; [| reflexivity].
      rewrite !in_app_iff. auto. }
    destruct (dict_get role_type_map (norm_role e)) as [t |] eqn:Er.
    { intros ->. apply dict_get_value in Er. exfalso.
      eapply table_value_not_other; [| reflexivity].
      rewrite !in_app_iff. auto. }
    destruct (class_scan (norm_classes e)) as [t |] eqn:Ec.
    { intros ->. apply class_scan_value in Ec. exfalso.
      eapply table_value_not_other; [| reflexivity].
      rewrite !in_app_iff. auto. }
    destruct (keyword_scan class_keywords (norm_id e)) as [t |] eqn:Ei.
    { intros ->. apply keyword_scan_value in Ei. exfalso.
      eapply table_value_not_other; [| reflexivity].
      rewrite !in_app_iff. auto. }
    intros _. repeat split.
    + now apply dict_get_none_not_key.
    + now apply dict_get_none_not_key.
    + now apply class_scan_none.
    + now apply no_keyword_scan.
  - intros (Ht & Hr & Hc & Hi).
    apply dict_get_not_key in Ht, Hr.
    apply class_scan_none in Hc. apply no_keyword_scan in Hi.
    now rewrite Ht, Hr, Hc, Hi.
Qed.

End InterpretFacts.

(* ===================================================================== *)
(** ** Technology-stack fingerprinter, continued *)
(* ===================================================================== *)

Module StackFacts.
Import Py PyFacts TechStack TechStackFacts StackSummary.

Lemma frameworks_from_table (d : DetectionData) :
  frameworks (detect_tech_stack d)
  = flat_map (fun c => entry (fst c) (snd c)) (check_table d).
Proof.
  rewrite detect_tech_stack_frameworks. unfold frameworks_spec, check_table.
  cbn [flat_map fst snd]. now rewrite app_nil_r.
Qed.

Lemma entries_names_NoDup (table : list (bool * FrameworkInfo)) :
  NoDup (map (fun c => name (snd c)) table) ->
  NoDup (map name (flat_map (fun c => entry (fst c) (snd c)) table)).
Proof.
  induction table as [| [fires info] table IH]; simpl; intros H.
  - constructor.
  - inversion H as [| ? ? Hhead Htail]; subst.
    destruct fires; simpl; [| now apply IH].
    constructor; [| now apply IH].
    intros Hin. apply Hhead. clear - Hin.
    induction table as [| [fires' info'] table IH]; simpl in *.
    + exact Hin.
    + destruct fires'; simpl in Hin.
      * destruct Hin as [Hin | Hin]; [now left | right; now apply IH].
      * right. now apply IH.
Qed.

Lemma check_table_names (d : DetectionData) :
  NoDup (map (fun c => name (snd c)) (check_table d)).
Proof.
  apply (NoDup_nodup string_dec
           (map (fun c => name (snd c)) (check_table d))).
Qed.

Lemma fired_in_frameworks d fires info :
  In (fires, info) (check_table d) -> fires = true ->
  In info (frameworks (detect_tech_stack d)).
Proof.
  intros Hin ->. rewrite frameworks_from_table.
  apply in_flat_map. exists (true, info). split; [assumption | now left].
Qed.

(** the record [info] is in the list because its check fired; the goal
    left, if any, is that the check fired *)
Ltac fired d info :=
  exists info;
  eapply (fired_in_frameworks d _ info); [simpl; auto 25 | try assumption].

(** X14.  The list of detected technologies is never empty and no two of
    its entries have the same name; the entry "Vanilla JavaScript" is in
    it exactly when the flag [has_vanilla_js] is set. *)
Theorem frameworks_nonempty_distinct (d : DetectionData) :
  frameworks (detect_tech_stack d) <> []
  /\ NoDup (map name (frameworks (detect_tech_stack d)))
  /\ (flag (detect_tech_stack d) has_vanilla_js = true <->
      In (vanilla_js_info d) (frameworks (detect_tech_stack d))).
Proof.
  split; [| split].
  - assert (H : exists info, In info (frameworks (detect_tech_stack d))).
    { destruct (react_detected d) eqn:E1; [fired d (react_info d) |].
      destruct (nextjs_detected d) eqn:E2; [fired d (nextjs_info d) |].
      destruct (remix_detected d) eqn:E3; [fired d (remix_info d) |].
      destruct (gatsby_detected d) eqn:E4; [fired d (gatsby_info d) |].
      destruct (vue_detected d) eqn:E5; [fired d (vue_info d) |].
      destruct (nuxt_detected d) eqn:E6; [fired d (nuxt_info d) |].
      destruct (angular_detected d) eqn:E7; [fired d (angular_info d) |].
      destruct (svelte_detected d) eqn:E8; [fired d (svelte_info d) |].
      destruct (jquery_detected d) eqn:E9; [fired d (jquery_info d) |].
      fired d (vanilla_js_info d).
      cbn [flag_spec]. now rewrite E1, E2, E3, E4, E5, E6, E7, E8, E9. }
    destruct H as [info H]. intros E. rewrite E in H. exact H.
  - rewrite frameworks_from_table.
    apply entries_names_NoDup, check_table_names.
  - rewrite detect_tech_stack_flag. split.
    + intros H. apply (fired_in_frameworks d _ _ ltac:(simpl; auto 25) H).
    + rewrite frameworks_from_table, in_flat_map.
      intros ([fires info] & Hin & Hentry).
      apply in_entry in Hentry. cbn [fst snd] in Hentry.
      destruct Hentry as [-> <-]. unfold check_table in Hin.
      cbn [In] in Hin.
      repeat (destruct Hin as [Hin | Hin];
              [apply pair_equal_spec in Hin; destruct Hin as [Hf Hi];
               first [ apply (f_equal name) in Hi; discriminate Hi
                     | exact Hf ] |]).
      contradiction.
Qed.

(** X15.  shadcn/ui is flagged only together with Tailwind, and the CSS
    approach is then [tailwind]. *)
Theorem shadcn_needs_tailwind (d : DetectionData) :
  flag (detect_tech_stack d) has_shadcn = true ->
  flag (detect_tech_stack d) has_tailwind = true
  /\ css_approach (detect_tech_stack d) = Some "tailwind".
Proof.
  rewrite !detect_tech_stack_flag, detect_tech_stack_css_approach.
  cbn [flag_spec]. intros H. apply andb_true_iff in H.
  destruct H as [_ ->]. split; reflexivity.
Qed.

Lemma shadcn_needs_tailwind_witness :
  css_approach (detect_tech_stack mixed_ui_page) = Some "tailwind".
Proof.
  apply (proj2 (shadcn_needs_tailwind mixed_ui_page eq_refl)).
Defined.

(** X16.  The CSS approach is always one of six values, and the flags
    [uses_css_modules] and [uses_inline_styles] are set exactly when the
    approach is [css-modules], respectively [inline-styles]; so they are
    never set on a page flagged for Tailwind, Bootstrap or a component
    library, whatever its class names and inline styles. *)
Theorem css_flags_follow_approach (d : DetectionData) :
  let r := detect_tech_stack d in
  (exists a, css_approach r = Some a /\ In a CSS_APPROACHES)
  /\ (flag r uses_css_modules = true <-> css_approach r = Some "css-modules")
  /\ (flag r uses_inline_styles = true
      <-> css_approach r = Some "inline-styles")
  /\ (flag r has_tailwind = true \/ flag r has_bootstrap = true
      \/ flag r has_material_ui = true \/ flag r has_chakra_ui = true
      \/ flag r has_ant_design = true ->
      flag r uses_css_modules = false /\ flag r uses_inline_styles = false).
Proof.
  intros r. unfold r.
  rewrite !detect_tech_stack_flag, detect_tech_stack_css_approach.
  cbn [flag_spec].
  destruct (tailwind_detected d), (bootstrap_detected d),
    (material_ui_detected d), (chakra_ui_detected d),
    (ant_design_detected d), (hashed_class_names d),
    (Nat.ltb 20 (inlineStylesCount d)); cbn [negb andb orb];
    (split; [eexists; split; [reflexivity | simpl; tauto] |]);
    (split; [split; intros H; first [reflexivity | discriminate H] |]);
    (split; [split; intros H; first [reflexivity | discriminate H] |]);
    intros H; first [ split; reflexivity | exfalso; intuition discriminate ].
Qed.

(** *** Primary and meta framework *)

Lemma run_checks_as_fold (d : DetectionData) :
  run_checks d
  = fold_left (fun s step => step s) (check_steps d)
      {| result := empty_result; fws := [] |}.
Proof. reflexivity. Qed.

Lemma check_steps_keep_names (d : DetectionData) :
  Forall keeps_names (check_steps d).
Proof.
  unfold check_steps.
  repeat (apply Forall_cons; [| try apply Forall_nil]);
    intros s;
    unfold check_react, check_vue, check_angular, check_svelte, check_nextjs,
      check_nuxt, check_remix, check_astro, check_gatsby, check_vite,
      check_jquery, check_tailwind, check_bootstrap, check_material_ui,
      check_chakra_ui, check_shadcn, check_ant_design, check_bulma,
      check_foundation, resolve_css_approach, check_css_variables,
      check_vanilla_js;
    repeat match goal with
           | |- context [if ?c then _ else _] => destruct c
           end;
    split; reflexivity.
Qed.

Lemma fold_keeps_names steps s :
  Forall keeps_names steps ->
  meta_framework (result (fold_left (fun s step => step s) steps s))
  = meta_framework (result s)
  /\ primary_framework (result (fold_left (fun s step => step s) steps s))
     = primary_framework (result s).
Proof.
  intros H. revert s. induction H as [| step steps Hstep _ IH]; intros s.
  - split; reflexivity.
  - cbn [fold_left]. destruct (IH (step s)) as [-> ->]. apply Hstep.
Qed.

Lemma run_checks_no_names (d : DetectionData) :
  meta_framework (result (run_checks d)) = None
  /\ primary_framework (result (run_checks d)) = None.
Proof.
  rewrite run_checks_as_fold.
  destruct (fold_keeps_names _ {| result := empty_result; fws := [] |}
              (check_steps_keep_names d)) as [-> ->].
  split; reflexivity.
Qed.

Lemma flag_run_checks (d : DetectionData) (f : Flag) :
  flag (result (run_checks d)) f = flag_spec d f.
Proof. apply run_checks_flag. Qed.

Lemma detect_names (d : DetectionData) :
  primary_framework (detect_tech_stack d) = Some (primary_spec d)
  /\ meta_framework (detect_tech_stack d)
     = if meta_detected d then Some (primary_spec d) else None.
Proof.
  unfold detect_tech_stack, finish.
  cbn [primary_framework meta_framework]. unfold resolve_primary.
  destruct (run_checks_no_names d) as [Hmeta _].
  rewrite !flag_run_checks. cbn [flag_spec].
  unfold primary_spec, meta_detected.
  destruct (nextjs_detected d), (nuxt_detected d), (remix_detected d),
    (gatsby_detected d), (astro_detected d), (react_detected d),
    (vue_detected d), (angular_detected d), (svelte_detected d);
    cbn [orb primary_framework meta_framework]; split;
    first [reflexivity | exact Hmeta].
Qed.

(** X17.  The primary framework is the first detected of Next.js, Nuxt,
    Remix, Gatsby, Astro, React, Vue.js, Angular, Svelte, and
    ["Vanilla JS/HTML"] when none is; the meta-framework is the primary
    framework when one of the first five is detected and absent otherwise.
    The flag [has_vanilla_js] is a different condition: when the primary
    framework is ["Vanilla JS/HTML"] the flag is unset if jQuery was
    detected, and the flag is set on a page whose primary framework is
    Astro. *)
Theorem primary_framework_resolution (d : DetectionData) :
  let r := detect_tech_stack d in
  primary_framework r = Some (primary_spec d)
  /\ meta_framework r
     = (if meta_detected d then Some (primary_spec d) else None)
  /\ (primary_framework r = Some "Vanilla JS/HTML" ->
      flag r has_vanilla_js = negb (jquery_detected d))
  /\ (flag r has_vanilla_js = true ->
      primary_framework r = Some "Vanilla JS/HTML"
      \/ primary_framework r = Some "Astro").
Proof.
  intros r. unfold r. destruct (detect_names d) as [Hp Hm].
  split; [exact Hp |]. split; [exact Hm |].
  rewrite Hp, detect_tech_stack_flag. cbn [flag_spec].
  unfold primary_spec.
  destruct (nextjs_detected d), (nuxt_detected d), (remix_detected d),
    (gatsby_detected d), (astro_detected d), (react_detected d),
    (vue_detected d), (angular_detected d), (svelte_detected d);
    cbn [orb negb]; split; intros H;
    first [ discriminate H | reflexivity | now left | now right ].
Qed.

Lemma primary_framework_resolution_witness :
  flag (detect_tech_stack jquery_only) has_vanilla_js = false
  /\ (primary_framework (detect_tech_stack astro_only)
        = Some "Vanilla JS/HTML"
      \/ primary_framework (detect_tech_stack astro_only) = Some "Astro").
Proof.
  split.
  - apply (proj1 (proj2 (proj2 (primary_framework_resolution jquery_only)))).
    reflexivity.
  - apply (proj2 (proj2 (proj2 (primary_framework_resolution astro_only)))).
    reflexivity.
Defined.

Example jquery_and_astro_pages :
  primary_framework (detect_tech_stack jquery_only) = Some "Vanilla JS/HTML"
  /\ map name (frameworks (detect_tech_stack jquery_only)) = [ "jQuery" ]
  /\ primary_framework (detect_tech_stack astro_only) = Some "Astro"
  /\ map name (frameworks (detect_tech_stack astro_only))
     = [ "Astro"; "Vanilla JavaScript" ].
Proof. vm_compute. repeat split. Qed.

(** *** The library reported to the caller *)

Lemma find_entry {A} (p : A -> bool) (fires : bool) (info : A) (l : list A) :
  find p ((if fires then [info] else []) ++ l)
  = if fires && p info then Some info else find p l.
Proof. destruct fires; simpl; [now destruct (p info) | reflexivity]. Qed.

(** X18.  The [ui_library] of the summary is the first detected of
    Material UI, Chakra UI, shadcn/ui and Ant Design, in this order, and
    absent when none is detected. *)
Theorem ui_library_first_detected (d : DetectionData) :
  ts_ui_library (get_tech_stack_summary d) = ui_library_spec d.
Proof.
  cbn [get_tech_stack_summary ts_ui_library].
  rewrite detect_tech_stack_frameworks.
  unfold frameworks_spec, entry, ui_library_spec.
  rewrite <- (app_nil_r (if flag_spec d has_vanilla_js then _ else _)).
  rewrite !find_entry.
  cbn [is_ui_library category react_info vue_info angular_info svelte_info
       nextjs_info nuxt_info remix_info astro_info gatsby_info jquery_info
       tailwind_info bootstrap_info material_ui_info chakra_ui_info
       shadcn_info ant_design_info bulma_info foundation_info
       vanilla_js_info find].
  rewrite !andb_false_r, !andb_true_r.
  destruct (material_ui_detected d), (chakra_ui_detected d),
    (flag_spec d has_shadcn), (ant_design_detected d); reflexivity.
Qed.

(** On a page with Tailwind, Material UI and Radix attributes the caller
    is told Material UI, while the summary lists shadcn/ui first. *)
Example mixed_ui_summary :
  let s := get_tech_stack_summary mixed_ui_page in
  ts_ui_library s = Some "Material UI"
  /\ ts_summary s
     = "JS Framework: Vanilla JS/HTML | CSS: Tailwind CSS | UI Library: shadcn/ui, Material UI".
Proof. vm_compute. split; reflexivity. Qed.

End StackFacts.

(* ===================================================================== *)
(** ** Technology-stack fingerprinter: the summary and the advice *)
(* ===================================================================== *)

Module StackTextFacts.
Import Py PyFacts TechStack TechStackFacts StackSummary StackFacts.

Lemma prefix_append (p x tail : string) :
  String.prefix p x = true -> String.prefix p (x ^^ tail) = true.
Proof.
  revert x. induction p as [| a p IH]; intros x H.
  - now destruct (x ^^ tail).
  - destruct x as [| b x]; [discriminate H |].
    cbn [String.append String.prefix] in *.
    destruct (ascii_dec a b); [now apply IH | discriminate H].
Qed.

Lemma prefix_join (p sep x : string) (rest : list string) :
  String.prefix p x = true -> String.prefix p (join sep (x :: rest)) = true.
Proof.
  intros H. unfold join. cbn [String.concat].
  destruct rest; [exact H | now apply prefix_append].
Qed.

Lemma primary_spec_truthy (d : DetectionData) : truthy (primary_spec d) = true.
Proof.
  unfold primary_spec.
  destruct (nextjs_detected d), (nuxt_detected d), (remix_detected d),
    (gatsby_detected d), (astro_detected d), (react_detected d),
    (vue_detected d), (angular_detected d), (svelte_detected d);
    reflexivity.
Qed.

(** What [finish] leaves alone and what it writes. *)
Lemma finish_fields (r : TechStackResult) :
  primary_framework (finish r) = primary_framework r
  /\ meta_framework (finish r) = meta_framework r
  /\ css_approach (finish r) = css_approach r
  /\ summary (finish r) = generate_tech_summary r
  /\ fix_approach (finish r) = generate_fix_approach (finish r).
Proof.
  unfold finish, generate_fix_approach.
  cbn [primary_framework meta_framework css_approach summary fix_approach
       flag].
  repeat split.
Qed.

(** The summary of a result that names a framework and a CSS approach. *)
Lemma generate_tech_summary_shape (r : TechStackResult) (fw css : string) :
  primary_framework r = Some fw -> truthy fw = true ->
  css_approach r = Some css -> truthy css = true ->
  forall is_meta : bool,
    meta_framework r = (if is_meta then Some fw else None) ->
    exists rest,
      generate_tech_summary r
      = join " | "
          (((if is_meta then "Meta Framework: " else "JS Framework: ")
            ^^ fw)
           :: ("CSS: " ^^ css_display css) :: rest).
Proof.
  intros Hp Hfw Hc Hcss is_meta Hm. unfold generate_tech_summary.
  rewrite Hp, Hc, Hm. unfold css_display.
  destruct is_meta; cbn [truthy_opt opt_str]; rewrite ?Hfw, Hcss;
    cbv zeta; cbn [app nonempty]; eexists; reflexivity.
Qed.

(** The CSS approach of a detected stack has a display name. *)
Lemma detect_css_shown (d : DetectionData) :
  exists css,
    css_approach (detect_tech_stack d) = Some css
    /\ truthy css = true
    /\ In (css_display css) CSS_DISPLAY_NAMES.
Proof.
  eexists. split; [apply detect_tech_stack_css_approach |].
  destruct (tailwind_detected d), (bootstrap_detected d),
    (material_ui_detected d || chakra_ui_detected d
     || ant_design_detected d), (hashed_class_names d),
    (Nat.ltb 20 (inlineStylesCount d));
    (split; [reflexivity | unfold CSS_DISPLAY_NAMES; simpl; tauto]).
Qed.

(** A text that starts with the framework part is not the fallback. *)
Lemma framework_part_first (is_meta : bool) (fw second : string)
  (rest : list string) :
  join " | "
    (((if is_meta then "Meta Framework: " else "JS Framework: ") ^^ fw)
     :: second :: rest)
  <> "Standard HTML/CSS/JS".
Proof.
  unfold join. cbn [String.concat].
  destruct is_meta; cbn [String.append]; discriminate.
Qed.

(** X19.  The summary of a detected stack always starts with the
    framework part and the CSS part: [Meta Framework: ] followed by the
    primary framework when a meta-framework was detected and
    [JS Framework: ] followed by it otherwise, then [CSS: ] followed by
    one of the six display names.  The text [Standard HTML/CSS/JS] is
    never the summary of a detected stack. *)
Theorem summary_names_framework_and_css (d : DetectionData) :
  let r := detect_tech_stack d in
  summary r <> "Standard HTML/CSS/JS"
  /\ exists css rest,
       css_approach r = Some css
       /\ In (css_display css) CSS_DISPLAY_NAMES
       /\ summary r
          = join " | "
              (((if meta_detected d
                 then "Meta Framework: " else "JS Framework: ")
                ^^ primary_spec d)
               :: ("CSS: " ^^ css_display css) :: rest).
Proof.
  intros r. unfold r. clear r.
  destruct (detect_names d) as [Hp Hm].
  destruct (detect_css_shown d) as (css & Hc & Hcss & Hshown).
  unfold detect_tech_stack in *.
  destruct (finish_fields (resolve_primary (run_checks d)))
    as (Ep & Em & Ec & Es & _).
  rewrite Ep in Hp. rewrite Em in Hm. rewrite Ec in Hc |- *. rewrite Es.
  destruct (generate_tech_summary_shape
              (resolve_primary (run_checks d)) (primary_spec d) css
              Hp (primary_spec_truthy d) Hc Hcss (meta_detected d) Hm)
    as [rest Hsum].
  split.
  - rewrite Hsum. apply framework_part_first.
  - exists css, rest. split; [exact Hc |]. split; [exact Hshown | exact Hsum].
Qed.

(** Either a field that brings advice is set and the text starts with
    the first words of one piece of advice, or it is the standard
    advice. *)
Lemma generate_fix_approach_cases (r : TechStackResult) :
  if guided r
  then exists head, In head ADVICE_HEADS
                    /\ String.prefix head (generate_fix_approach r) = true
  else generate_fix_approach r = standard_css_advice.
Proof.
  unfold guided, generate_fix_approach. cbv zeta.
  assert (Hhead : forall head x rest,
             In head ADVICE_HEADS -> String.prefix head x = true ->
             exists head', In head' ADVICE_HEADS
               /\ String.prefix head' (join " " (x :: rest)) = true).
  { intros head x rest Hin Hx. exists head. split; [exact Hin |].
    now apply prefix_join. }
  destruct (flag r has_nextjs);
    [cbn [orb app nonempty];
     apply (Hhead "Next.js: "); [simpl; tauto | reflexivity] |].
  destruct (flag r has_nuxt);
    [cbn [orb app nonempty];
     apply (Hhead "Nuxt: "); [simpl; tauto | reflexivity] |].
  destruct (flag r has_react);
    [cbn [orb app nonempty];
     apply (Hhead "React: "); [simpl; tauto | reflexivity] |].
  destruct (flag r has_vue);
    [cbn [orb app nonempty];
     apply (Hhead "Vue: "); [simpl; tauto | reflexivity] |].
  destruct (flag r has_angular);
    [cbn [orb app nonempty];
     apply (Hhead "Angular: "); [simpl; tauto | reflexivity] |].
  destruct (flag r has_svelte);
    [cbn [orb app nonempty];
     apply (Hhead "Svelte: "); [simpl; tauto | reflexivity] |].
  destruct (flag r has_tailwind);
    [cbn [orb app nonempty];
     apply (Hhead "Tailwind: "); [simpl; tauto | reflexivity] |].
  destruct (flag r has_bootstrap);
    [cbn [orb app nonempty];
     apply (Hhead "Bootstrap: "); [simpl; tauto | reflexivity] |].
  destruct (flag r has_shadcn);
    [cbn [orb app nonempty];
     apply (Hhead "shadcn/ui: "); [simpl; tauto | reflexivity] |].
  destruct (flag r has_material_ui);
    [cbn [orb app nonempty];
     apply (Hhead "Material UI: "); [simpl; tauto | reflexivity] |].
  destruct (flag r has_chakra_ui);
    [cbn [orb app nonempty];
     apply (Hhead "Chakra UI: "); [simpl; tauto | reflexivity] |].
  reflexivity.
Qed.

Lemma guided_iff_advised (d : DetectionData) :
  guided (detect_tech_stack d) = advised d.
Proof.
  unfold guided, advised. rewrite !detect_tech_stack_flag.
  cbn [flag_spec].
  destruct (react_detected d), (vue_detected d), (angular_detected d),
    (svelte_detected d), (nextjs_detected d), (nuxt_detected d),
    (remix_detected d), (gatsby_detected d), (tailwind_detected d),
    (bootstrap_detected d), (material_ui_detected d),
    (chakra_ui_detected d);
    cbn [orb andb]; rewrite ?andb_false_r, ?orb_true_r; reflexivity.
Qed.

(** X20.  The advice of a detected stack is the standard CSS advice
    exactly when none of React, Vue, Angular, Svelte, Next.js, Nuxt,
    Remix, Gatsby, Tailwind, Bootstrap, Material UI and Chakra UI was
    detected; otherwise it starts with the advice for one of them.  So a
    page on which only Astro, Ant Design, Bulma, Foundation, jQuery or
    Vite was detected gets the standard advice. *)
Theorem standard_advice_iff_nothing_advised (d : DetectionData) :
  let r := detect_tech_stack d in
  (fix_approach r = standard_css_advice <-> advised d = false)
  /\ (advised d = true ->
      exists head, In head ADVICE_HEADS
                   /\ String.prefix head (fix_approach r) = true).
Proof.
  intros r. unfold r. clear r.
  pose proof (generate_fix_approach_cases (detect_tech_stack d)) as H.
  rewrite guided_iff_advised in H.
  assert (Hfix : fix_approach (detect_tech_stack d)
                 = generate_fix_approach (detect_tech_stack d))
    by (unfold detect_tech_stack; apply finish_fields).
  rewrite Hfix. clear Hfix.
  generalize dependent (generate_fix_approach (detect_tech_stack d)).
  intros advice H.
  destruct (advised d).
  - split; [| intros _; exact H]. split; [| discriminate].
    intros Heq. destruct H as (head & Hin & Hprefix). rewrite Heq in Hprefix.
    exfalso. revert Hprefix. clear - Hin.
    unfold ADVICE_HEADS in Hin. simpl in Hin.
    repeat (destruct Hin as [<- | Hin]; [vm_compute; discriminate |]).
    destruct Hin.
  - split; [| discriminate]. split; [reflexivity | intros _; exact H].
Qed.

Lemma standard_advice_iff_nothing_advised_witness :
  fix_approach (detect_tech_stack astro_only) = standard_css_advice
  /\ exists head, In head ADVICE_HEADS
       /\ String.prefix head (fix_approach (detect_tech_stack mixed_ui_page))
          = true.
Proof.
  split.
  - apply (proj1 (standard_advice_iff_nothing_advised astro_only)).
    reflexivity.
  - apply (proj2 (standard_advice_iff_nothing_advised mixed_ui_page)).
    reflexivity.
Defined.

End StackTextFacts.

(* ===================================================================== *)
(** ** DOM outline *)
(* ===================================================================== *)

Module OutlineFacts.
Import Py PyFacts Outline.

Lemma append_assoc (s t u : string) : (s ^^ t) ^^ u = s ^^ t ^^ u.
Proof. induction s as [| c s IH]; simpl; [reflexivity | now rewrite IH]. Qed.

Lemma append_empty (s : string) : s ^^ "" = s.
Proof. induction s as [| c s IH]; simpl; [reflexivity | now rewrite IH]. Qed.

(** induction on a tree with the hypothesis for every child *)
Lemma DomNode_induction (P : DomNode -> Prop) :
  (forall tagName id classList role children,
     Forall P children -> P (Node tagName id classList role children)) ->
  forall element, P element.
Proof.
  intros H. fix IH 1. intros [tagName id classList role children].
  apply H. induction children as [| child rest IHrest].
  - constructor.
  - constructor; [apply IH | exact IHrest].
Qed.

Lemma render_app l1 l2 : render (l1 ++ l2) = render l1 ^^ render l2.
Proof.
  unfold render. induction l1 as [| w l1 IH]; simpl; [reflexivity |].
  destruct l1 as [| w' l1'].
  - simpl. destruct l2 as [| w2 l2]; simpl.
    + now rewrite append_empty.
    + reflexivity.
  - simpl in *. rewrite IH. now rewrite append_assoc.
Qed.

Lemma render_cons w l : render (w :: l) = line (fst w) (snd w) ^^ render l.
Proof. apply (render_app [w] l). Qed.

Lemma truthy_or_empty (s : string) : (if truthy s then s else "") = s.
Proof. now destruct s. Qed.

(** What [getStructure] returns is the text of the outline. *)
Lemma getStructure_closed (maxDepth : Z) (element : DomNode) :
  forall depth,
    getStructure maxDepth depth element
    = render (outline maxDepth depth element).
Proof.
  induction element as [tagName id classList role children Hchildren]
    using DomNode_induction.
  intros depth. cbn [getStructure outline].
  destruct (Z.ltb maxDepth (Z.of_nat depth)); [reflexivity |].
  rewrite render_cons. cbn [fst snd].
  generalize (line depth (Node tagName id classList role children)).
  induction Hchildren as [| child rest Hchild _ IH]; intros result.
  - cbn [flat_map]. unfold render. cbn [map String.concat].
    now rewrite append_empty.
  - cbn [flat_map]. rewrite IH, render_app.
    destruct (shown child).
    + now rewrite Hchild, append_assoc.
    + unfold render at 2. cbn [map String.concat]. reflexivity.
Qed.

Lemma outline_depths (maxDepth : Z) (element : DomNode) :
  forall depth,
    Forall (fun w => (Z.of_nat (fst w) <= maxDepth)%Z
                     /\ depth <= fst w)
      (outline maxDepth depth element).
Proof.
  induction element as [tagName id classList role children Hchildren]
    using DomNode_induction.
  intros depth. cbn [outline].
  destruct (Z.ltb maxDepth (Z.of_nat depth)) eqn:E; [constructor |].
  apply Z.ltb_ge in E. constructor; [cbn [fst]; lia |].
  apply Forall_flat_map.
  eapply Forall_impl; [| exact Hchildren]. intros child Hchild.
  destruct (shown child); [| constructor].
  eapply Forall_impl; [| apply (Hchild (S depth))].
  intros w [H1 H2]. split; [exact H1 | lia].
Qed.

Lemma outline_length (maxDepth : Z) (element : DomNode) :
  forall depth, length (outline maxDepth depth element) <= size element.
Proof.
  induction element as [tagName id classList role children Hchildren]
    using DomNode_induction.
  intros depth.
  change (size (Node tagName id classList role children))
    with (S (list_sum (map size children))).
  cbn [outline].
  destruct (Z.ltb maxDepth (Z.of_nat depth)); [cbn [length]; lia |].
  cbn [length]. apply le_n_S.
  induction Hchildren as [| child rest Hchild _ IH].
  - cbn [flat_map length]. lia.
  - cbn [flat_map map]. unfold list_sum in *. cbn [fold_right].
    rewrite length_app.
    specialize (Hchild (S depth)).
    destruct (shown child); cbn [length]; lia.
Qed.

(** X21.  The DOM outline is one line per written element, parents before
    children, where the body is written when [max_depth] is not negative
    and a child is written when its parent is, its depth is at most
    [max_depth], and it has a structural tag, an id or a class.  So no
    line is indented deeper than [max_depth], there are at most as many
    lines as elements, a negative [max_depth] gives the empty text, and
    nothing below a child that is not written appears. *)
Theorem dom_outline_depth_limited (body : DomNode) (max_depth : Z) :
  get_dom_structure body max_depth = render (outline max_depth 0 body)
  /\ Forall (fun w => (Z.of_nat (fst w) <= max_depth)%Z)
       (outline max_depth 0 body)
  /\ length (outline max_depth 0 body) <= size body
  /\ ((max_depth < 0)%Z -> get_dom_structure body max_depth = "")
  /\ ((0 <= max_depth)%Z ->
      exists rest, outline max_depth 0 body = (0, body) :: rest).
Proof.
  assert (Hclosed : get_dom_structure body max_depth
                    = render (outline max_depth 0 body)).
  { unfold get_dom_structure. cbv zeta.
    now rewrite truthy_or_empty, getStructure_closed. }
  split; [exact Hclosed |]. split; [| split; [| split]].
  - eapply Forall_impl; [| apply outline_depths]. intros w [H _]. exact H.
  - apply outline_length.
  - intros Hneg. rewrite Hclosed. destruct body. cbn [outline].
    replace (Z.ltb max_depth (Z.of_nat 0)) with true
      by (symmetry; apply Z.ltb_lt; lia).
    reflexivity.
  - intros Hpos. destruct body. cbn [outline].
    replace (Z.ltb max_depth (Z.of_nat 0)) with false
      by (symmetry; apply Z.ltb_ge; lia).
    eexists. reflexivity.
Qed.

Lemma dom_outline_depth_limited_witness :
  get_dom_structure sample_body (-1) = ""
  /\ exists rest, outline 5 0 sample_body = (0, sample_body) :: rest.
Proof.
  split.
  - apply (proj1 (proj2 (proj2 (proj2
             (dom_outline_depth_limited sample_body (-1)))))).
    reflexivity.
  - apply (proj2 (proj2 (proj2 (proj2
             (dom_outline_depth_limited sample_body 5))))).
    discriminate.
Defined.

(** The [span] has no structural tag, id or class: it is not written,
    and neither is the section below it.  Only three classes are shown. *)
Example outline_of_sample_body :
  get_dom_structure sample_body 5
  = "body" ^^ nl
    ^^ "  header#top.a.b.c[role=" ^^ dq ^^ "banner" ^^ dq ^^ "]" ^^ nl
    ^^ "    nav" ^^ nl
  /\ get_dom_structure sample_body 1
     = "body" ^^ nl
       ^^ "  header#top.a.b.c[role=" ^^ dq ^^ "banner" ^^ dq ^^ "]" ^^ nl.
Proof. vm_compute. split; reflexivity. Qed.

End OutlineFacts.

(* ===================================================================== *)
(** ** Recommendations *)
(* ===================================================================== *)

Module AdviceFacts.
Import Py PyFacts Models Query QueryFacts Fixes Advice.

Lemma key_entry_unique {V} (table : list (string * V)) k v v' :
  NoDup (map fst table) -> In (k, v) table -> In (k, v') table -> v = v'.
Proof.
  induction table as [| [k0 v0] table IH]; simpl; intros Hnd H H'.
  - destruct H.
  - inversion Hnd as [| ? ? Hhead Htail]; subst.
    destruct H as [H | H], H' as [H' | H'].
    + congruence.
    + injection H as -> ->. exfalso. apply Hhead.
      apply in_map_iff. now exists (k, v').
    + injection H' as -> ->. exfalso. apply Hhead.
      apply in_map_iff. now exists (k, v).
    + now apply IH.
Qed.

(** A name is in the result of a scan when the keywords of its entry
    match. *)
Lemma list_in_scan_table table name keywords q :
  NoDup (map fst table) -> In (name, keywords) table ->
  list_in name (scan_table table q) = entry_matches q (name, keywords).
Proof.
  intros Hnd Hin. rewrite (scan_table_closed _ _ Hnd).
  apply eq_true_iff_eq. rewrite list_in_iff, in_map_iff. split.
  - intros ([name' keywords'] & Hname & Hentry). cbn [fst] in Hname. subst.
    apply filter_In in Hentry. destruct Hentry as [Hentry Hm].
    now rewrite (key_entry_unique _ _ _ _ Hnd Hin Hentry).
  - intros Hm. exists (name, keywords). split; [reflexivity |].
    apply filter_In. now split.
Qed.

Lemma hint_responsive (q : string) :
  list_in "responsive" (issue_hints (interpret_user_query q))
  = mentions responsive_keywords q.
Proof.
  cbn [interpret_user_query issue_hints].
  apply (list_in_scan_table issue_keywords "responsive" responsive_keywords).
  - apply issue_keywords_names.
  - unfold issue_keywords, responsive_keywords. simpl. tauto.
Qed.

Lemma hint_layout (q : string) :
  list_in "layout" (issue_hints (interpret_user_query q))
  = mentions layout_keywords q.
Proof.
  cbn [interpret_user_query issue_hints].
  apply (list_in_scan_table issue_keywords "layout" layout_keywords).
  - apply issue_keywords_names.
  - unfold issue_keywords, layout_keywords. simpl. tauto.
Qed.

Lemma not_In_iff (x : string) (xs : list string) :
  ~ In x xs <-> list_in x xs = false.
Proof.
  rewrite <- list_in_iff. destruct (list_in x xs); split; congruence.
Qed.

(** X22.  The recommendations of a query on a page: the [<nav>] advice
    is given exactly when no element of the page was classified as
    [navbar], the [<footer>] advice exactly when none was classified as
    [footer], the two pieces of advice on responsiveness exactly when the
    query mentions, in upper or lower case, one of the keywords of
    [responsive], and the two on layout exactly when it mentions one of
    the keywords of [layout].  There are at most six, and they depend on no issue the
    detector found. *)
Theorem recommendations_by_page_and_query (user_query : string)
  (elements : list UIElement) (issues : list UIIssue) :
  let recs := recommendations_for user_query elements issues in
  let types := map el_element_type elements in
  (In nav_advice recs <-> ~ In "navbar" types)
  /\ (In footer_advice recs <-> ~ In "footer" types)
  /\ (In media_advice recs <-> mentions responsive_keywords user_query = true)
  /\ (In units_advice recs <-> mentions responsive_keywords user_query = true)
  /\ (In grid_advice recs <-> mentions layout_keywords user_query = true)
  /\ (In spacing_advice recs <-> mentions layout_keywords user_query = true)
  /\ length recs <= 6
  /\ recs = recommendations_for user_query elements [].
Proof.
  intros recs types. unfold recs, types, recommendations_for.
  cbn [generate_fix_instructions_for_query additional_recommendations].
  unfold generate_recommendations. cbv zeta.
  rewrite hint_responsive, hint_layout, !not_In_iff.
  destruct (list_in "navbar" (map el_element_type elements)),
    (list_in "footer" (map el_element_type elements)),
    (mentions responsive_keywords user_query),
    (mentions layout_keywords user_query);
    cbn [app length];
    (split; [| split; [| split; [| split; [| split; [| split; [| split]]]]]]);
    try reflexivity; try lia;
    (split; intros H;
     [ first [ reflexivity
             | exfalso; simpl in H;
               repeat (destruct H as [H | H]; [discriminate H |]);
               exact H ]
     | first [ discriminate H | simpl; auto 10 ] ]).
Qed.

(** A query about phones on a page with a footer and no navbar. *)
Example phone_query_on_footer_page :
  recommendations_for "Looks bad on my PHONE" footer_page []
  = [ nav_advice; media_advice; units_advice ].
Proof. vm_compute. reflexivity. Qed.

End AdviceFacts.
